(** * DailyProfitManager: daily profit tracking, trade pacing and state recovery

    A shallow embedding of [legacy/daily_profit_manager.py] and the
    properties of its gating, bookkeeping and persistence logic.

    Python values are modelled as the interpreter holds them:
    - [float] is IEEE 754 binary64, here [spec_float] with precision 53 and
      maximal exponent 1024 (round to nearest, ties to even);
    - [int] is [Z];
    - [datetime] and [date] are records of calendar fields;
    - a method of the class is a computation over the object and its
      environment (clock, trade history, state file, log) that returns a
      value or raises. *)

From Stdlib Require Import ZArith Bool List String Ascii Lia.
From Stdlib Require Import Floats.SpecFloat.
From stdpp Require Import base option gmap strings.

Local Open Scope string_scope.
Local Open Scope Z_scope.

(** ** Python floats *)

Module PyFloat.

Abbreviation float := spec_float.

Definition prec : Z := 53.
Definition emax : Z := 1024.

Definition fadd : float -> float -> float := SFadd prec emax.
Definition fsub : float -> float -> float := SFsub prec emax.
Definition fmul : float -> float -> float := SFmul prec emax.
Definition fdiv : float -> float -> float := SFdiv prec emax.
Definition flt : float -> float -> bool := SFltb.
Definition fle : float -> float -> bool := SFleb.
Definition feq : float -> float -> bool := SFeqb.

(** [float(n)] where the integer is in range; out of range the value is
    the infinity that [of_int] turns into [OverflowError]. *)
Definition of_Z (n : Z) : float := binary_normalize prec emax n 0 false.

Definition zero : float := S754_zero false.

Definition is_finite (x : float) : bool :=
  match x with
  | S754_zero _ | S754_finite _ _ _ => true
  | _ => false
  end.

Definition is_zero (x : float) : bool :=
  match x with
  | S754_zero _ => true
  | _ => false
  end.

(** The correctly rounded quotient of two integers, as [int / int] and
    [timedelta.total_seconds()] compute it ([d] is positive). *)
Definition Z_truediv (n d : Z) : float :=
  match n, d with
  | Z0, _ => zero
  | Zpos a, Zpos b => fdiv (S754_finite false a 0) (S754_finite false b 0)
  | Zneg a, Zpos b => fdiv (S754_finite true a 0) (S754_finite false b 0)
  | _, _ => S754_nan
  end.

(** Nearest integer to [n / d], halves to the even neighbour ([d > 0]). *)
Definition div_half_even (n d : Z) : Z :=
  let q := n / d in
  let r := n mod d in
  match 2 * r ?= d with
  | Lt => q
  | Gt => q + 1
  | Eq => if Z.even q then q else q + 1
  end.

(** [round(x, ndigits)] for [ndigits >= 0]: the decimal with [ndigits]
    places nearest to the exact value of [x], read back as the nearest
    float. Zeros, infinities and NaN round to themselves. *)
Definition round (x : float) (ndigits : Z) : float :=
  match x with
  | S754_finite s m e =>
      let p := 10 ^ ndigits in
      let n := match e with
               | Zneg k => div_half_even (Zpos m * p) (2 ^ Zpos k)
               | _ => Zpos m * p * 2 ^ e
               end in
      match n with
      | Zpos a => fdiv (S754_finite s a 0) (S754_finite false (Z.to_pos p) 0)
      | _ => S754_zero s
      end
  | _ => x
  end.

(** The integer part of a finite float, towards zero. *)
Definition trunc (x : float) : option Z :=
  match x with
  | S754_zero _ => Some 0
  | S754_finite s m e =>
      let a := match e with
               | Zneg k => Zpos m / 2 ^ Zpos k
               | _ => Zpos m * 2 ^ e
               end in
      Some (if s then - a else a)
  | _ => None
  end.

(** [x < n] for a float and an integer: Python compares the exact
    values, without converting the integer. *)
Definition lt_Z (x : float) (n : Z) : bool :=
  match x with
  | S754_nan => false
  | S754_infinity s => s
  | S754_zero _ => 0 <? n
  | S754_finite s m e =>
      let a := if s then Zneg m else Zpos m in
      match e with
      | Zneg k => a <? n * 2 ^ Zpos k
      | _ => a * 2 ^ e <? n
      end
  end.

(** [x >= n], compared the same way. *)
Definition ge_Z (x : float) (n : Z) : bool :=
  match x with
  | S754_nan => false
  | S754_infinity s => negb s
  | S754_zero _ => n <=? 0
  | S754_finite s m e =>
      let a := if s then Zneg m else Zpos m in
      match e with
      | Zneg k => n * 2 ^ Zpos k <=? a
      | _ => n <=? a * 2 ^ e
      end
  end.

(** C's [fmod]: the exact remainder, with the sign of [x]. *)
Definition fmod (x y : float) : float :=
  match x, y with
  | S754_nan, _ | _, S754_nan => S754_nan
  | S754_infinity _, _ | _, S754_zero _ => S754_nan
  | _, S754_infinity _ | S754_zero _, _ => x
  | S754_finite sx mx ex, S754_finite _ my ey =>
      let e := Z.min ex ey in
      let r := (Zpos mx * 2 ^ (ex - e)) mod (Zpos my * 2 ^ (ey - e)) in
      binary_normalize prec emax (if sx then - r else r) e sx
  end.

(** C's [floor], as a float. *)
Definition floor (x : float) : float :=
  match x with
  | S754_finite s m (Zneg k) =>
      binary_normalize prec emax
        ((if s then Zneg m else Zpos m) / 2 ^ Zpos k) 0 s
  | _ => x
  end.

Definition is_neg (x : float) : bool := flt x zero.

Definition copysign_zero (x : float) : float :=
  match x with
  | S754_zero s | S754_infinity s | S754_finite s _ _ => S754_zero s
  | S754_nan => zero
  end.

(** [x % y] on floats, for [y] not zero. *)
Definition pymod (x y : float) : float :=
  let m := fmod x y in
  if feq m zero then copysign_zero y
  else if xorb (is_neg y) (is_neg m) then fadd m y else m.

(** [x // y] on floats, for [y] not zero. *)
Definition floordiv (x y : float) : float :=
  let m := fmod x y in
  let d := fdiv (fsub x m) y in
  let d := if feq m zero then d
           else if xorb (is_neg y) (is_neg m) then fsub d (of_Z 1) else d in
  if feq d zero then copysign_zero (fdiv x y)
  else
    let f := floor d in
    if flt (fdiv (of_Z 1) (of_Z 2)) (fsub d f) then fadd f (of_Z 1) else f.

End PyFloat.

Import PyFloat.

(** ** Outcomes of a Python call *)

Inductive exn : Type :=
  | ValueError | KeyError | TypeError | OverflowError | OSError
  | JSONDecodeError | RuntimeError.

Inductive result (A : Type) : Type :=
  | Ret (a : A)
  | Raise (e : exn).
Arguments Ret {A} a.
Arguments Raise {A} e.

(** [int(x)]: NaN is a [ValueError], an infinity an [OverflowError]. *)
Definition py_int (x : float) : result Z :=
  match x with
  | S754_nan => Raise ValueError
  | S754_infinity _ => Raise OverflowError
  | _ => match trunc x with Some n => Ret n | None => Raise ValueError end
  end.

(** [float(n)] as the arithmetic operators convert an [int] operand. *)
Definition of_int (n : Z) : result float :=
  if is_finite (of_Z n) then Ret (of_Z n) else Raise OverflowError.

(** ** Calendar: [datetime.date] and [datetime.datetime] *)

Record date : Type := mkdate { year : Z; month : Z; day : Z }.

Record datetime : Type := mkdatetime {
  dt_date : date;
  hour : Z;
  minute : Z;
  second : Z;
  microsecond : Z
}.

Module Calendar.

Definition is_leap (y : Z) : bool :=
  (y mod 4 =? 0) && (negb (y mod 100 =? 0) || (y mod 400 =? 0)).

Definition days_in_month (y m : Z) : Z :=
  match m with
  | 1 | 3 | 5 | 7 | 8 | 10 | 12 => 31
  | 4 | 6 | 9 | 11 => 30
  | 2 => if is_leap y then 29 else 28
  | _ => 0
  end.

Definition days_before_month_common (m : Z) : Z :=
  match m with
  | 1 => 0 | 2 => 31 | 3 => 59 | 4 => 90 | 5 => 120 | 6 => 151
  | 7 => 181 | 8 => 212 | 9 => 243 | 10 => 273 | 11 => 304 | 12 => 334
  | _ => 0
  end.

Definition days_before_month (y m : Z) : Z :=
  days_before_month_common m + (if (2 <? m) && is_leap y then 1 else 0).

Definition days_before_year (y : Z) : Z :=
  let p := y - 1 in p * 365 + p / 4 - p / 100 + p / 400.

(** [date.toordinal()]: 0001-01-01 is day 1. *)
Definition toordinal (d : date) : Z :=
  days_before_year (year d) + days_before_month (year d) (month d) + day d.

(** [weekday()]: Monday is 0, Friday is 4. *)
Definition weekday (d : date) : Z := (toordinal d + 6) mod 7.

Definition max_ordinal : Z := 3652059.

(** [date.fromordinal(n)] for [1 <= n <= max_ordinal]. *)
Definition fromordinal (n : Z) : date :=
  let n0 := n - 1 in
  let n400 := n0 / 146097 in
  let r400 := n0 mod 146097 in
  let n100 := r400 / 36524 in
  let r100 := r400 mod 36524 in
  let n4 := r100 / 1461 in
  let r4 := r100 mod 1461 in
  let n1 := r4 / 365 in
  let r1 := r4 mod 365 in
  let y := n400 * 400 + 1 + n100 * 100 + n4 * 4 + n1 in
  if (n1 =? 4) || (n100 =? 4) then mkdate (y - 1) 12 31
  else
    let leap := (n1 =? 3) && (negb (n4 =? 24) || (n100 =? 3)) in
    let m := Z.shiftr (r1 + 50) 5 in
    let preceding :=
      days_before_month_common m + (if (2 <? m) && leap then 1 else 0) in
    if r1 <? preceding then
      let m' := m - 1 in
      let dim := match m' with
                 | 2 => if leap then 29 else 28
                 | 4 | 6 | 9 | 11 => 30
                 | _ => 31
                 end in
      mkdate y m' (r1 - (preceding - dim) + 1)
    else mkdate y m (r1 - preceding + 1).

Definition valid_date (d : date) : bool :=
  (1 <=? year d) && (year d <=? 9999) &&
  (1 <=? month d) && (month d <=? 12) &&
  (1 <=? day d) && (day d <=? days_in_month (year d) (month d)).

Definition valid_time (h mi s us : Z) : bool :=
  (0 <=? h) && (h <? 24) && (0 <=? mi) && (mi <? 60) &&
  (0 <=? s) && (s <? 60) && (0 <=? us) && (us <? 1000000).

Definition valid_datetime (t : datetime) : bool :=
  valid_date (dt_date t) &&
  valid_time (hour t) (minute t) (second t) (microsecond t).

(** Dates order as their (year, month, day) triples. *)
Definition date_compare (a b : date) : comparison :=
  match year a ?= year b with
  | Eq => match month a ?= month b with
          | Eq => day a ?= day b
          | c => c
          end
  | c => c
  end.

Definition date_gtb (a b : date) : bool :=
  match date_compare a b with Gt => true | _ => false end.

Definition date_eqb (a b : date) : bool :=
  match date_compare a b with Eq => true | _ => false end.

Definition time_compare (a b : datetime) : comparison :=
  match hour a ?= hour b with
  | Eq => match minute a ?= minute b with
          | Eq => match second a ?= second b with
                  | Eq => microsecond a ?= microsecond b
                  | c => c
                  end
          | c => c
          end
  | c => c
  end.

Definition datetime_compare (a b : datetime) : comparison :=
  match date_compare (dt_date a) (dt_date b) with
  | Eq => time_compare a b
  | c => c
  end.

(** [a >= b] on datetimes. *)
Definition datetime_geb (a b : datetime) : bool :=
  match datetime_compare a b with Lt => false | _ => true end.

(** Microseconds from the start of day 0 to [t]. *)
Definition to_microseconds (t : datetime) : Z :=
  ((toordinal (dt_date t) * 86400 + hour t * 3600 + minute t * 60 + second t)
   * 1000000) + microsecond t.

(** [(a - b)]: a [timedelta], held as its whole number of microseconds. *)
Definition sub (a b : datetime) : Z := to_microseconds a - to_microseconds b.

(** [timedelta.total_seconds()]. *)
Definition total_seconds (delta : Z) : float := Z_truediv delta 1000000.

(** [t.replace(hour=h, minute=0, second=0, microsecond=0)]. *)
Definition replace_hour (t : datetime) (h : Z) : result datetime :=
  if (0 <=? h) && (h <? 24) then Ret (mkdatetime (dt_date t) h 0 0 0)
  else Raise ValueError.

Definition of_microseconds (us : Z) : datetime :=
  let days := us / 86400000000 in
  let r := us mod 86400000000 in
  let secs := r / 1000000 in
  mkdatetime (fromordinal days)
             (secs / 3600) ((secs mod 3600) / 60) (secs mod 60)
             (r mod 1000000).

(** Nearest integer to the exact value of a finite float, halves to even. *)
Definition nearest_even (x : float) : Z :=
  match x with
  | S754_finite s m e =>
      let a := match e with
               | Zneg k => div_half_even (Zpos m) (2 ^ Zpos k)
               | _ => Zpos m * 2 ^ e
               end in
      if s then - a else a
  | _ => 0
  end.

(** [timedelta(minutes=x)] for a float [x], in microseconds: the whole
    minutes are scaled exactly, the fraction is scaled in floating point
    and rounded to the nearest microsecond; more than 999999999 days
    either way is an [OverflowError]. *)
Definition timedelta_minutes (x : float) : result Z :=
  match py_int x with
  | Raise e => Raise e
  | Ret whole =>
      let frac := fsub x (of_Z whole) in
      let us := whole * 60000000
                + (if is_zero frac then 0
                   else nearest_even (fmul (of_Z 60000000) frac)) in
      let days := us / 86400000000 in
      if (-999999999 <=? days) && (days <=? 999999999) then Ret us
      else Raise OverflowError
  end.

(** [t + delta]; a date outside years 1..9999 is an [OverflowError]. *)
Definition add (t : datetime) (delta : Z) : result datetime :=
  let us := to_microseconds t + delta in
  let days := us / 86400000000 in
  if (1 <=? days) && (days <=? max_ordinal) then Ret (of_microseconds us)
  else Raise OverflowError.

(** [datetime.combine(d, time.min)] and [datetime.combine(d, time.max)]. *)
Definition day_start (d : date) : datetime := mkdatetime d 0 0 0 0.
Definition day_end (d : date) : datetime := mkdatetime d 23 59 59 999999.

End Calendar.

(** ** ISO 8601 text: [isoformat()] and [datetime.fromisoformat()] *)

Module Iso.

Definition digit_char (d : Z) : ascii := ascii_of_nat (48 + Z.to_nat d).

Definition digit_val (c : ascii) : option Z :=
  let n := Z.of_nat (nat_of_ascii c) in
  if (48 <=? n) && (n <=? 57) then Some (n - 48) else None.

(** [w] decimal digits of [n], zero padded, in front of [rest]. *)
Fixpoint fmt_digits (w : nat) (n : Z) (rest : string) : string :=
  match w with
  | O => rest
  | S w' => fmt_digits w' (n / 10) (String (digit_char (n mod 10)) rest)
  end.

(** Reads exactly [w] decimal digits. *)
Fixpoint parse_digits (w : nat) (s : string) (acc : Z) : option (Z * string) :=
  match w with
  | O => Some (acc, s)
  | S w' =>
      match s with
      | String c s' =>
          match digit_val c with
          | Some d => parse_digits w' s' (acc * 10 + d)
          | None => None
          end
      | EmptyString => None
      end
  end.

Definition expect (c : ascii) (s : string) : option string :=
  match s with
  | String c' s' => if Ascii.eqb c c' then Some s' else None
  | EmptyString => None
  end.

(** [date.isoformat()]: YYYY-MM-DD. *)
Definition fmt_date (d : date) (rest : string) : string :=
  fmt_digits 4 (year d)
    (String "-" (fmt_digits 2 (month d)
       (String "-" (fmt_digits 2 (day d) rest)))).

Definition date_isoformat (d : date) : string := fmt_date d EmptyString.

(** [datetime.isoformat()]: YYYY-MM-DDTHH:MM:SS, followed by .ffffff when
    the microsecond is not zero. *)
Definition datetime_isoformat (t : datetime) : string :=
  fmt_date (dt_date t)
    (String "T" (fmt_digits 2 (hour t)
       (String ":" (fmt_digits 2 (minute t)
          (String ":" (fmt_digits 2 (second t)
             (if microsecond t =? 0 then EmptyString
              else String "." (fmt_digits 6 (microsecond t) EmptyString)))))))).

Definition parse_date (s : string) : option (date * string) :=
  match parse_digits 4 s 0 with
  | Some (y, s1) =>
      match expect "-" s1 with
      | Some s2 =>
          match parse_digits 2 s2 0 with
          | Some (m, s3) =>
              match expect "-" s3 with
              | Some s4 =>
                  match parse_digits 2 s4 0 with
                  | Some (d, s5) => Some (mkdate y m d, s5)
                  | None => None
                  end
              | None => None
              end
          | None => None
          end
      | None => None
      end
  | None => None
  end.

Definition parse_fraction (s : string) : option Z :=
  match s with
  | EmptyString => Some 0
  | String c s' =>
      if Ascii.eqb c "." then
        match parse_digits 6 s' 0 with
        | Some (us, EmptyString) => Some us
        | _ => None
        end
      else None
  end.

Definition parse_time (s : string) : option (Z * Z * Z * Z) :=
  match parse_digits 2 s 0 with
  | Some (h, s1) =>
      match expect ":" s1 with
      | Some s2 =>
          match parse_digits 2 s2 0 with
          | Some (mi, s3) =>
              match expect ":" s3 with
              | Some s4 =>
                  match parse_digits 2 s4 0 with
                  | Some (sec, s5) =>
                      match parse_fraction s5 with
                      | Some us => Some (h, mi, sec, us)
                      | None => None
                      end
                  | None => None
                  end
              | None => None
              end
          | None => None
          end
      | None => None
      end
  | None => None
  end.

(** [datetime.fromisoformat(s)] on the texts [isoformat()] writes: a date
    alone (midnight), or a date, one separator character and a time with
    seconds and an optional six-digit fraction. Fields out of range, and
    any other text, are a [ValueError]. *)
Definition datetime_fromisoformat (s : string) : result datetime :=
  match parse_date s with
  | Some (d, EmptyString) =>
      if Calendar.valid_date d then Ret (mkdatetime d 0 0 0 0)
      else Raise ValueError
  | Some (d, String _ s') =>
      match parse_time s' with
      | Some (h, mi, sec, us) =>
          if Calendar.valid_date d && Calendar.valid_time h mi sec us
          then Ret (mkdatetime d h mi sec us)
          else Raise ValueError
      | None => Raise ValueError
      end
  | None => Raise ValueError
  end.

End Iso.

(** ** The manager object and its environment *)

(** The settings [__init__] reads from the configuration, with the types of
    their defaults, and the two filters passed to the constructor. *)
Record Config : Type := {
  daily_target_gross : float;
  broker_fee_per_lot : float;
  enable_pacing : bool;
  pacing_mode : string;
  min_trade_interval_normal : Z;
  min_trade_interval_aggressive : Z;
  friday_close_hour : Z;
  adaptive_threshold : float;
  estimated_minutes_per_trade : Z;
  state_file : string;
  magic_number : Z;
  symbol : string
}.

(** The attributes of [self]. *)
Record DailyProfitManager : Type := mkManager {
  config : Config;
  daily_target_reached : bool;
  last_reset_date : date;
  trades_today : Z;
  total_fees_today : float;
  gross_profit_today : float;
  net_profit_today : float;
  last_trade_time : option datetime
}.

(** A deal of the MetaTrader history, with the fields the manager reads. *)
Record Deal : Type := {
  magic : Z;
  deal_symbol : string;
  entry : Z;
  volume : float;
  profit : float
}.

(** What [mt5.history_deals_get] does: raise, return [None], or return the
    deals. *)
Inductive QueryResult : Type :=
  | QueryRaises (e : exn)
  | QueryNone
  | QueryDeals (deals : list Deal).

(** A scalar of the JSON state file. *)
Inductive jval : Type :=
  | JNull
  | JBool (b : bool)
  | JInt (n : Z)
  | JFloat (x : float)
  | JStr (s : string)
  | JNested (is_empty : bool).

(** What opening and decoding a file gives: an exception, or a JSON object.
    [json.dump] followed by [json.load] gives back the dictionary written. *)
Inductive FileContent : Type :=
  | Unreadable (e : exn)
  | JsonObject (d : gmap string jval).

Inductive level : Type := DEBUG | INFO | ERROR.

(** The log lines of the module, by the data each one formats. *)
Inductive message : Type :=
  | MsgStatsError (e : exn)
  | MsgTargetReached
  | MsgTargetGross (x : float)
  | MsgTargetFees (x : float)
  | MsgTargetNet (x : float)
  | MsgTradeRecorded (profit fee net : float)
  | MsgMidnightReset
  | MsgStateSaved (path : string)
  | MsgSaveError (e : exn)
  | MsgNoSavedState
  | MsgStateLoaded (net : float) (trades : Z)
  | MsgStateOtherDate
  | MsgLoadError (e : exn)
  | MsgTradeOpened (ticket : Z) (direction : string) (lot : float)
  | MsgTradeClosed (ticket : Z) (direction : string) (profit : float).

(** The environment of a call: the successive readings of
    [datetime.now()], the trade history, the file system and the log. *)
Record World : Type := mkWorld {
  clock : nat -> datetime;
  ticks : nat;
  history : datetime -> datetime -> QueryResult;
  files : gmap string FileContent;
  disk_writable : bool;
  log : list (level * message)
}.

Definition Sys : Type := DailyProfitManager * World.

(** A method: from the object and its environment to an outcome and the
    object and environment it leaves. A raised exception keeps the effects
    made before it. *)
Definition M (A : Type) : Type := Sys -> result A * Sys.

#[global] Instance M_ret : MRet M := fun A a s => (Ret a, s).

#[global] Instance M_bind : MBind M := fun A B f m s =>
  match m s with
  | (Ret a, s') => f a s'
  | (Raise e, s') => (Raise e, s')
  end.

Definition raise {A : Type} (e : exn) : M A := fun s => (Raise e, s).

Definition lift {A : Type} (r : result A) : M A := fun s => (r, s).

(** [try: body except Exception as e: handler(e)]. *)
Definition try_except {A : Type} (body : M A) (handler : exn -> M A) : M A :=
  fun s =>
    match body s with
    | (Ret a, s') => (Ret a, s')
    | (Raise e, s') => handler e s'
    end.

Definition get_self : M DailyProfitManager := fun s => (Ret (fst s), s).

Definition modify_self (f : DailyProfitManager -> DailyProfitManager) : M unit :=
  fun s => (Ret tt, (f (fst s), snd s)).

Definition get_world : M World := fun s => (Ret (snd s), s).

Definition modify_world (f : World -> World) : M unit :=
  fun s => (Ret tt, (fst s, f (snd s))).

Definition tick (w : World) : World :=
  mkWorld (clock w) (S (ticks w)) (history w) (files w) (disk_writable w) (log w).

Definition append_log (r : level * message) (w : World) : World :=
  mkWorld (clock w) (ticks w) (history w) (files w) (disk_writable w)
          (log w ++ [r]).

Definition write_file (path : string) (c : FileContent) (w : World) : World :=
  mkWorld (clock w) (ticks w) (history w) (<[path := c]> (files w))
          (disk_writable w) (log w).

(** [datetime.now()]. *)
Definition now : M datetime :=
  w ← get_world; modify_world tick;; mret (clock w (ticks w)).

Definition logger (l : level) (m : message) : M unit :=
  modify_world (append_log (l, m)).

(** [mt5.history_deals_get(date_from, date_to)]. *)
Definition history_deals_get (date_from date_to : datetime) : M (option (list Deal)) :=
  w ← get_world;
  match history w date_from date_to with
  | QueryRaises e => raise e
  | QueryNone => mret None
  | QueryDeals l => mret (Some l)
  end.

(** Attribute assignments. *)
Definition set_daily_target_reached (b : bool) (m : DailyProfitManager) :=
  mkManager (config m) b (last_reset_date m) (trades_today m)
            (total_fees_today m) (gross_profit_today m) (net_profit_today m)
            (last_trade_time m).

Definition set_last_reset_date (d : date) (m : DailyProfitManager) :=
  mkManager (config m) (daily_target_reached m) d (trades_today m)
            (total_fees_today m) (gross_profit_today m) (net_profit_today m)
            (last_trade_time m).

Definition set_trades_today (n : Z) (m : DailyProfitManager) :=
  mkManager (config m) (daily_target_reached m) (last_reset_date m) n
            (total_fees_today m) (gross_profit_today m) (net_profit_today m)
            (last_trade_time m).

Definition set_total_fees_today (x : float) (m : DailyProfitManager) :=
  mkManager (config m) (daily_target_reached m) (last_reset_date m)
            (trades_today m) x (gross_profit_today m) (net_profit_today m)
            (last_trade_time m).

Definition set_gross_profit_today (x : float) (m : DailyProfitManager) :=
  mkManager (config m) (daily_target_reached m) (last_reset_date m)
            (trades_today m) (total_fees_today m) x (net_profit_today m)
            (last_trade_time m).

Definition set_net_profit_today (x : float) (m : DailyProfitManager) :=
  mkManager (config m) (daily_target_reached m) (last_reset_date m)
            (trades_today m) (total_fees_today m) (gross_profit_today m) x
            (last_trade_time m).

Definition set_last_trade_time (t : option datetime) (m : DailyProfitManager) :=
  mkManager (config m) (daily_target_reached m) (last_reset_date m)
            (trades_today m) (total_fees_today m) (gross_profit_today m)
            (net_profit_today m) t.

(** The attributes [__init__] assigns, [today] being its reading of
    [datetime.now().date()]. *)
Definition init_manager (c : Config) (today : date) : DailyProfitManager :=
  mkManager c false today 0 zero zero zero None.

(** ** The methods *)

(** The dictionary [get_daily_stats] returns. *)
Record Stats : Type := mkStats {
  trades_count : Z;
  gross_profit : float;
  total_fees : float;
  net_profit : float;
  target_percentage : float;
  average_profit_per_trade : float;
  estimated_target_eta : option datetime
}.

Definition zero_stats : Stats := mkStats 0 zero zero zero zero zero None.

(** The reason text of [should_allow_trading], by the data it formats. *)
Inductive reason : Type :=
  | TargetReachedPaused (gross : float)
  | FridayClosed (close_hour : Z)
  | PacingWait (wait_time : Z) (mode : string)
  | TradingAllowed.

Inductive pace : Type := OnTrack | SlightlyBehind | BehindSchedule.

(** The lines of the progress report, by the data they format. *)
Record Report : Type := mkReport {
  rep_gross : float;
  rep_fees : float;
  rep_trades : Z;
  rep_net : float;
  rep_target : float;
  rep_progress : float;
  rep_clock : Z * Z;
  rep_elapsed : Z * Z;
  rep_pace : option pace;
  rep_friday : option (float * Z);
  rep_eta : option (Z * Z)
}.

Record Compact : Type := mkCompact {
  cmp_net : float;
  cmp_target : float;
  cmp_progress : float
}.

Definition trade_fee (c : Config) (lot_size : float) : float :=
  round (fmul lot_size (broker_fee_per_lot c)) 2.

Definition calculate_trade_fee (lot_size : float) : M float :=
  self ← get_self;
  mret (trade_fee (config self) lot_size).

(** [sum] of floats from the integer 0, left to right. *)
Definition fsum (l : list float) : float := fold_left fadd l zero.

Definition is_relevant (c : Config) (d : Deal) : bool :=
  (magic d =? magic_number c) && String.eqb (deal_symbol d) (symbol c)
  && (entry d =? 1).

(** The closing deals of this strategy and instrument. *)
Definition relevant_deals (c : Config) (deals : list Deal) : list Deal :=
  List.filter (is_relevant c) deals.

(** The totals of the relevant deals, before rounding. *)
Definition count_of (relevant : list Deal) : Z := Z.of_nat (length relevant).

Definition gross_of (relevant : list Deal) : float := fsum (map profit relevant).

Definition fees_of (c : Config) (relevant : list Deal) : float :=
  fsum (map (fun d => trade_fee c (volume d)) relevant).

Definition net_of (c : Config) (relevant : list Deal) : float :=
  fsub (gross_of relevant) (fees_of c relevant).

Definition percentage_of (c : Config) (relevant : list Deal) : float :=
  if flt zero (daily_target_gross c)
  then fmul (fdiv (gross_of relevant) (daily_target_gross c)) (of_Z 100)
  else zero.

Definition average_of (relevant : list Deal) : float :=
  if 0 <? count_of relevant
  then fdiv (gross_of relevant) (of_Z (count_of relevant))
  else zero.

(** The estimated time of reaching the target, when the average profit is
    positive and the target not yet met. *)
Definition estimate_eta (c : Config) (gross avg : float) : M (option datetime) :=
  if flt zero avg && flt gross (daily_target_gross c) then
    let remaining_profit := fsub (daily_target_gross c) gross in
    let trades_needed := fdiv remaining_profit avg in
    per_trade ← lift (of_int (estimated_minutes_per_trade c));
    let minutes_needed := fmul trades_needed per_trade in
    t ← now;
    delta ← lift (Calendar.timedelta_minutes minutes_needed);
    eta ← lift (Calendar.add t delta);
    mret (Some eta)
  else mret None.

Definition stats_of (c : Config) (relevant : list Deal) (eta : option datetime) : Stats :=
  mkStats (count_of relevant)
          (round (gross_of relevant) 2)
          (round (fees_of c relevant) 2)
          (round (net_of c relevant) 2)
          (round (percentage_of c relevant) 1)
          (round (average_of relevant) 2)
          eta.

Definition get_daily_stats : M Stats :=
  try_except
    (t ← now;
     let today := dt_date t in
     deals ← history_deals_get (Calendar.day_start today) (Calendar.day_end today);
     match deals with
     | None | Some [] => mret zero_stats
     | Some deals =>
         self ← get_self;
         let c := config self in
         match relevant_deals c deals with
         | [] => mret zero_stats
         | relevant =>
             eta ← estimate_eta c (gross_of relevant) (average_of relevant);
             modify_self (set_trades_today (count_of relevant));;
             modify_self (set_gross_profit_today (gross_of relevant));;
             modify_self (set_total_fees_today (fees_of c relevant));;
             modify_self (set_net_profit_today (net_of c relevant));;
             mret (stats_of c relevant eta)
         end
     end)
    (fun e => logger ERROR (MsgStatsError e);; mret zero_stats).

Definition check_target_reached : M (bool * Stats) :=
  stats ← get_daily_stats;
  self ← get_self;
  let target_reached := fle (daily_target_gross (config self)) (gross_profit stats) in
  (if target_reached && negb (daily_target_reached self) then
     logger INFO MsgTargetReached;;
     logger INFO (MsgTargetGross (gross_profit stats));;
     logger INFO (MsgTargetFees (total_fees stats));;
     logger INFO (MsgTargetNet (net_profit stats));;
     modify_self (set_daily_target_reached true)
   else mret tt);;
  mret (target_reached, stats).

Definition reset_daily_state : M unit :=
  logger INFO MsgMidnightReset;;
  modify_self (set_daily_target_reached false);;
  t ← now;
  modify_self (set_last_reset_date (dt_date t));;
  modify_self (set_trades_today 0);;
  modify_self (set_total_fees_today zero);;
  modify_self (set_gross_profit_today zero);;
  modify_self (set_net_profit_today zero);;
  modify_self (set_last_trade_time None).

(** The share of the day elapsed at [t], in percent: the hour plus the
    minute over 60, over 24, times 100. *)
Definition expected_progress (t : datetime) : float :=
  let hours_elapsed := fadd (of_Z (hour t)) (fdiv (of_Z (minute t)) (of_Z 60)) in
  fmul (fdiv hours_elapsed (of_Z 24)) (of_Z 100).

(** Seconds from [last] to [t]: [(t - last).total_seconds()]. *)
Definition seconds_since (t last : datetime) : float :=
  Calendar.total_seconds (Calendar.sub t last).

(** Friday, at or after the close hour. *)
Definition friday_closed (c : Config) (t : datetime) : bool :=
  (Calendar.weekday (dt_date t) =? 4) && (friday_close_hour c <=? hour t).

(** The interval the pacing check requires, by pacing mode; the adaptive
    mode queries the statistics. *)
Definition required_interval (t : datetime) : M Z :=
  self ← get_self;
  let c := config self in
  if String.eqb (pacing_mode c) "aggressive" then
    mret (min_trade_interval_aggressive c)
  else if String.eqb (pacing_mode c) "gentle" then
    mret (min_trade_interval_normal c)
  else if String.eqb (pacing_mode c) "adaptive" then
    stats ← get_daily_stats;
    let actual_progress := target_percentage stats in
    if flt actual_progress (fmul (expected_progress t) (adaptive_threshold c))
    then mret (min_trade_interval_aggressive c)
    else mret (min_trade_interval_normal c)
  else mret (min_trade_interval_normal c).

(** The checks of [should_allow_trading] that follow the midnight check:
    target, Friday close, pacing. *)
Definition gate (t : datetime) : M (bool * reason) :=
  self ← get_self;
  let c := config self in
  if daily_target_reached self then
    mret (false, TargetReachedPaused (gross_profit_today self))
  else if friday_closed c t then
    mret (false, FridayClosed (friday_close_hour c))
  else
    match enable_pacing c, last_trade_time self with
    | true, Some last =>
        let time_since_last := seconds_since t last in
        required ← required_interval t;
        if lt_Z time_since_last required then
          r ← lift (of_int required);
          wait_time ← lift (py_int (fsub r time_since_last));
          mret (false, PacingWait wait_time (pacing_mode c))
        else mret (true, TradingAllowed)
    | _, _ => mret (true, TradingAllowed)
    end.

Definition should_allow_trading : M (bool * reason) :=
  t ← now;
  self ← get_self;
  (if Calendar.date_gtb (dt_date t) (last_reset_date self)
   then reset_daily_state else mret tt);;
  gate t.

Definition get_friday_trading_hours_remaining : M (option float) :=
  t ← now;
  self ← get_self;
  if negb (Calendar.weekday (dt_date t) =? 4) then mret None
  else
    friday_close ← lift (Calendar.replace_hour t (friday_close_hour (config self)));
    if Calendar.datetime_geb t friday_close then mret (Some zero)
    else
      let hours_remaining :=
        fdiv (Calendar.total_seconds (Calendar.sub friday_close t)) (of_Z 3600) in
      mret (Some (round hours_remaining 1)).

Definition record_trade (lot_size profit : float) : M unit :=
  t ← now;
  modify_self (set_last_trade_time (Some t));;
  self ← get_self;
  modify_self (set_trades_today (trades_today self + 1));;
  fee ← calculate_trade_fee lot_size;
  self ← get_self;
  modify_self (set_gross_profit_today (fadd (gross_profit_today self) profit));;
  self ← get_self;
  modify_self (set_total_fees_today (fadd (total_fees_today self) fee));;
  self ← get_self;
  modify_self (set_net_profit_today
                 (fsub (gross_profit_today self) (total_fees_today self)));;
  self ← get_self;
  logger INFO (MsgTradeRecorded profit fee (net_profit_today self)).

Definition pace_of (c : Config) (stats : Stats) (hours_elapsed : Z) : pace :=
  let expected_progress := fmul (fdiv (of_Z hours_elapsed) (of_Z 24)) (of_Z 100) in
  if fle expected_progress (target_percentage stats) then OnTrack
  else if fle (fmul expected_progress (adaptive_threshold c)) (target_percentage stats)
       then SlightlyBehind
       else BehindSchedule.

Definition get_progress_report : M Report :=
  stats ← get_daily_stats;
  t ← now;
  self ← get_self;
  let c := config self in
  let elapsed := Calendar.total_seconds (Calendar.sub t (Calendar.day_start (dt_date t))) in
  hours_elapsed ← lift (py_int (floordiv elapsed (of_Z 3600)));
  minutes_elapsed ← lift (py_int (floordiv (pymod elapsed (of_Z 3600)) (of_Z 60)));
  let pace := if 0 <? trades_count stats
              then Some (pace_of c stats hours_elapsed) else None in
  friday_hours ← get_friday_trading_hours_remaining;
  let friday := match friday_hours with
                | Some h => Some (h, friday_close_hour c)
                | None => None
                end in
  let eta := match estimated_target_eta stats with
             | Some e => Some (hour e, minute e)
             | None => None
             end in
  mret (mkReport (gross_profit stats) (total_fees stats) (trades_count stats)
                 (net_profit stats) (daily_target_gross c)
                 (target_percentage stats) (hour t, minute t)
                 (hours_elapsed, minutes_elapsed) pace friday eta).

Definition get_compact_progress : M Compact :=
  stats ← get_daily_stats;
  self ← get_self;
  mret (mkCompact (net_profit stats) (daily_target_gross (config self))
                  (target_percentage stats)).

(** The dictionary [save_state] writes. *)
Definition state_dict (m : DailyProfitManager) : gmap string jval :=
  <["last_trade_time" := match last_trade_time m with
                         | Some t => JStr (Iso.datetime_isoformat t)
                         | None => JNull
                         end]>
  (<["net_profit" := JFloat (net_profit_today m)]>
  (<["total_fees" := JFloat (total_fees_today m)]>
  (<["gross_profit" := JFloat (gross_profit_today m)]>
  (<["trades_today" := JInt (trades_today m)]>
  (<["target_reached" := JBool (daily_target_reached m)]>
  (<["date" := JStr (Iso.date_isoformat (last_reset_date m))]> ∅)))))).

(** [save_state]. A disk that is not writable stands for a failure of
    [mkdir] or of [open], which leaves every file as it was; a failure
    after [open] has emptied the file is not part of this environment. *)
Definition save_state : M unit :=
  try_except
    (self ← get_self;
     let state := state_dict self in
     let path := state_file (config self) in
     w ← get_world;
     if disk_writable w then
       modify_world (write_file path (JsonObject state));;
       logger DEBUG (MsgStateSaved path)
     else raise OSError)
    (fun e => logger ERROR (MsgSaveError e)).

(** Reading a key of the decoded state. The attributes of this model are
    typed, so a value of another JSON type than [save_state] writes for the
    key is reported as a [TypeError] at the read. *)
Definition get_bool (d : gmap string jval) (k : string) (default : bool) : result bool :=
  match d !! k with
  | None => Ret default
  | Some (JBool b) => Ret b
  | Some _ => Raise TypeError
  end.

Definition get_int (d : gmap string jval) (k : string) (default : Z) : result Z :=
  match d !! k with
  | None => Ret default
  | Some (JInt n) => Ret n
  | Some _ => Raise TypeError
  end.

Definition get_float (d : gmap string jval) (k : string) (default : float) : result float :=
  match d !! k with
  | None => Ret default
  | Some (JFloat x) => Ret x
  | Some _ => Raise TypeError
  end.

(** [state['date']], handed to [datetime.fromisoformat]. *)
Definition get_date_text (d : gmap string jval) : result string :=
  match d !! "date" with
  | None => Raise KeyError
  | Some (JStr s) => Ret s
  | Some _ => Raise TypeError
  end.

(** [state.get('last_trade_time')] under [if last_trade:]: a falsy value is
    skipped, a text is parsed, anything else is not a string. *)
Definition get_last_trade (d : gmap string jval) : result (option datetime) :=
  match d !! "last_trade_time" with
  | None | Some JNull | Some (JBool false) | Some (JInt 0)
  | Some (JFloat (S754_zero _)) | Some (JStr EmptyString)
  | Some (JNested true) => Ret None
  | Some (JStr s) =>
      match Iso.datetime_fromisoformat s with
      | Ret t => Ret (Some t)
      | Raise e => Raise e
      end
  | Some _ => Raise TypeError
  end.

Definition load_state : M unit :=
  try_except
    (self ← get_self;
     w ← get_world;
     match files w !! state_file (config self) with
     | None => logger DEBUG MsgNoSavedState
     | Some (Unreadable e) => raise e
     | Some (JsonObject state) =>
         date_text ← lift (get_date_text state);
         saved ← lift (Iso.datetime_fromisoformat date_text);
         t ← now;
         if Calendar.date_eqb (dt_date saved) (dt_date t) then
           reached ← lift (get_bool state "target_reached" false);
           modify_self (set_daily_target_reached reached);;
           trades ← lift (get_int state "trades_today" 0);
           modify_self (set_trades_today trades);;
           gross ← lift (get_float state "gross_profit" zero);
           modify_self (set_gross_profit_today gross);;
           fees ← lift (get_float state "total_fees" zero);
           modify_self (set_total_fees_today fees);;
           net ← lift (get_float state "net_profit" zero);
           modify_self (set_net_profit_today net);;
           last_trade ← lift (get_last_trade state);
           match last_trade with
           | Some lt => modify_self (set_last_trade_time (Some lt))
           | None => mret tt
           end;;
           self ← get_self;
           logger INFO (MsgStateLoaded (net_profit_today self) (trades_today self))
         else logger INFO MsgStateOtherDate
     end)
    (fun e => logger ERROR (MsgLoadError e)).

Definition should_pause_trading : M bool :=
  '(target_reached, _) ← check_target_reached;
  mret target_reached.

Definition update : M unit :=
  t ← now;
  self ← get_self;
  (if Calendar.date_gtb (dt_date t) (last_reset_date self)
   then reset_daily_state else mret tt);;
  self ← get_self;
  if 0 <? trades_today self then save_state else mret tt.

Definition track_trade_open (ticket : Z) (direction : string) (lot_size : float) : M unit :=
  logger DEBUG (MsgTradeOpened ticket direction lot_size).

Definition track_trade_close (ticket : Z) (profit : float) (direction : string)
    (lot_size entry_price exit_price : float) (close_reason : string) : M unit :=
  record_trade lot_size profit;;
  logger INFO (MsgTradeClosed ticket direction profit).

(** The reading [datetime.now()] returns next. *)
Definition reading (w : World) : datetime := clock w (ticks w).

(** ** A sample configuration and environment *)

Module Sample.

Definition decimal (n d : Z) : float := fdiv (of_Z n) (of_Z d).

(** The defaults of [__init__], with a pacing mode. *)
Definition cfg (mode : string) : Config := {|
  daily_target_gross := of_Z 175;
  broker_fee_per_lot := decimal 551 100;
  enable_pacing := true;
  pacing_mode := mode;
  min_trade_interval_normal := 180;
  min_trade_interval_aggressive := 60;
  friday_close_hour := 22;
  adaptive_threshold := decimal 7 10;
  estimated_minutes_per_trade := 30;
  state_file := "logs/daily_profit_state.json";
  magic_number := 790079;
  symbol := "XAUUSD"
|}.

(** Wednesday 3 January 2024 and Friday 5 January 2024. *)
Definition wednesday : date := mkdate 2024 1 3.
Definition thursday : date := mkdate 2024 1 4.
Definition friday : date := mkdate 2024 1 5.

Definition at_time (d : date) (h mi s : Z) : datetime := mkdatetime d h mi s 0.

(** A closing deal of the strategy: profit and volume in hundredths. *)
Definition deal (profit_cents volume_cents : Z) : Deal := {|
  magic := 790079;
  deal_symbol := "XAUUSD";
  entry := 1;
  volume := decimal volume_cents 100;
  profit := decimal profit_cents 100
|}.

(** An environment whose clock stands at [t] and whose history answers
    [q]; no state file yet. *)
Definition world (t : datetime) (q : QueryResult) : World :=
  mkWorld (fun _ => t) 0 (fun _ _ => q) ∅ true [].

Definition manager (mode : string) (today : date) : DailyProfitManager :=
  init_manager (cfg mode) today.

End Sample.

(** ** Sequences of calls

    The host loop drives the manager by calling its methods one after the
    other; between two calls the environment may change. *)

Inductive call : Type :=
  | CalculateTradeFee (lot_size : float)
  | GetDailyStats
  | CheckTargetReached
  | ShouldAllowTrading
  | GetFridayTradingHoursRemaining
  | RecordTrade (lot_size profit : float)
  | ResetDailyState
  | GetProgressReport
  | GetCompactProgress
  | SaveState
  | LoadState
  | ShouldPauseTrading
  | Update
  | TrackTradeOpen (ticket : Z) (direction : string) (lot_size : float)
  | TrackTradeClose (ticket : Z) (profit : float) (direction : string)
                    (lot_size entry_price exit_price : float) (close_reason : string).

Inductive value : Type :=
  | VNone
  | VFloat (x : float)
  | VStats (s : Stats)
  | VCheck (r : bool * Stats)
  | VGate (r : bool * reason)
  | VHours (h : option float)
  | VReport (r : Report)
  | VCompact (c : Compact)
  | VBool (b : bool).

Definition returning {A : Type} (f : A -> value) (m : M A) : M value :=
  a ← m; mret (f a).

Definition run_call (c : call) : M value :=
  match c with
  | CalculateTradeFee lot => returning VFloat (calculate_trade_fee lot)
  | GetDailyStats => returning VStats get_daily_stats
  | CheckTargetReached => returning VCheck check_target_reached
  | ShouldAllowTrading => returning VGate should_allow_trading
  | GetFridayTradingHoursRemaining =>
      returning VHours get_friday_trading_hours_remaining
  | RecordTrade lot p => returning (fun _ => VNone) (record_trade lot p)
  | ResetDailyState => returning (fun _ => VNone) reset_daily_state
  | GetProgressReport => returning VReport get_progress_report
  | GetCompactProgress => returning VCompact get_compact_progress
  | SaveState => returning (fun _ => VNone) save_state
  | LoadState => returning (fun _ => VNone) load_state
  | ShouldPauseTrading => returning VBool should_pause_trading
  | Update => returning (fun _ => VNone) update
  | TrackTradeOpen t d l => returning (fun _ => VNone) (track_trade_open t d l)
  | TrackTradeClose t p d l en ex r =>
      returning (fun _ => VNone) (track_trade_close t p d l en ex r)
  end.

(** What happens between two readings of the trace: a call of the host, or
    a change of the trade history, of a file or of the disk. *)
Inductive event : Type :=
  | Invoke (c : call)
  | HistoryBecomes (h : datetime -> datetime -> QueryResult)
  | FileBecomes (path : string) (content : option FileContent)
  | DiskBecomes (writable : bool).

Definition set_history (h : datetime -> datetime -> QueryResult) (w : World) : World :=
  mkWorld (clock w) (ticks w) h (files w) (disk_writable w) (log w).

Definition set_file (path : string) (c : option FileContent) (w : World) : World :=
  mkWorld (clock w) (ticks w) (history w)
          (match c with
           | Some x => <[path := x]> (files w)
           | None => delete path (files w)
           end)
          (disk_writable w) (log w).

Definition set_disk (b : bool) (w : World) : World :=
  mkWorld (clock w) (ticks w) (history w) (files w) b (log w).

(** Runs the events in order; an exception that escapes a call is recorded
    as its outcome and the run goes on, as under a host that catches it. *)
Fixpoint run_trace (tr : list event) (s : Sys) : list (call * result value) * Sys :=
  match tr with
  | [] => ([], s)
  | Invoke c :: tr' =>
      let '(r, s') := run_call c s in
      let '(rs, s'') := run_trace tr' s' in
      ((c, r) :: rs, s'')
  | HistoryBecomes h :: tr' => run_trace tr' (fst s, set_history h (snd s))
  | FileBecomes p c :: tr' => run_trace tr' (fst s, set_file p c (snd s))
  | DiskBecomes b :: tr' => run_trace tr' (fst s, set_disk b (snd s))
  end.

(** The calls that restore or clear the day on request: the start-up load
    and the explicit reset. *)
Definition is_restore (c : call) : bool :=
  match c with
  | LoadState | ResetDailyState => true
  | _ => false
  end.

Definition host_event (e : event) : bool :=
  match e with
  | Invoke c => negb (is_restore c)
  | _ => true
  end.

(** The calls inside which [check_target_reached] runs. *)
Definition checks_target (c : call) : bool :=
  match c with
  | CheckTargetReached | ShouldPauseTrading => true
  | _ => false
  end.

(** How many times the target-reached line was logged. *)
Definition is_target_line (r : level * message) : bool :=
  match r with
  | (INFO, MsgTargetReached) => true
  | _ => false
  end.

Definition target_events (l : list (level * message)) : nat :=
  length (List.filter is_target_line l).

(** The counters a daily reset leaves. *)
Definition reset_manager (m : DailyProfitManager) (today : date) : DailyProfitManager :=
  mkManager (config m) false today 0 zero zero zero None.

(** The object with its four counters replaced. *)
Definition with_counters (m : DailyProfitManager) (n : Z) (gross fees net : float)
    : DailyProfitManager :=
  mkManager (config m) (daily_target_reached m) (last_reset_date m) n fees gross
            net (last_trade_time m).

(** The attributes the statistics never assign. *)
Definition same_day_state (m m' : DailyProfitManager) : Prop :=
  config m' = config m /\
  daily_target_reached m' = daily_target_reached m /\
  last_reset_date m' = last_reset_date m /\
  last_trade_time m' = last_trade_time m.

(** The counters of a manager. *)
Definition counters (m : DailyProfitManager) : Z * float * float * float :=
  (trades_today m, gross_profit_today m, total_fees_today m, net_profit_today m).

(** [record_trade] called once per element, in order. *)
Fixpoint record_trades (trades : list (float * float)) : M unit :=
  match trades with
  | [] => mret tt
  | (lot, p) :: rest => record_trade lot p;; record_trades rest
  end.

(** The state in which [should_allow_trading] and [update] make their
    checks: the clock was read once, and the day was reset when the date of
    that reading is past the stored reset date. *)
Definition after_rollover (s : Sys) : Sys :=
  let t := reading (snd s) in
  let s0 := (fst s, tick (snd s)) in
  if Calendar.date_gtb (dt_date t) (last_reset_date (fst s))
  then snd (reset_daily_state s0)
  else s0.

(** The integers of the pacing settings are seconds a machine word holds. *)
Definition intervals_in_range (c : Config) : Prop :=
  Z.abs (min_trade_interval_normal c) < 2 ^ 62 /\
  Z.abs (min_trade_interval_aggressive c) < 2 ^ 62.

(** ** Predicates of the properties *)

(** A zero, or a finite float below [2 ^ B] in magnitude whose exponent a
    binary64 can hold. *)
Definition within (B : Z) (x : float) : Prop :=
  match x with
  | S754_zero _ => True
  | S754_finite _ m e => e <= 971 /\ Zpos (digits2_pos m) + e <= B
  | _ => False
  end.

(** What a call may do to the environment besides logging and writing the
    state file: advance the clock. *)
Definition env_kept (w w' : World) : Prop :=
  clock w' = clock w /\ history w' = history w /\ files w' = files w /\
  disk_writable w' = disk_writable w /\ (ticks w <= ticks w')%nat.

(** A step that neither sets the target flag nor logs the target line: the
    flag and the reset date are as before, or the day was reset because a
    reading of the clock was past the stored reset date. *)
Definition quiet_step (s s' : Sys) : Prop :=
  config (fst s') = config (fst s) /\
  clock (snd s') = clock (snd s) /\
  target_events (log (snd s')) = target_events (log (snd s)) /\
  ((daily_target_reached (fst s') = daily_target_reached (fst s) /\
    last_reset_date (fst s') = last_reset_date (fst s)) \/
   (daily_target_reached (fst s') = false /\
    exists k, Calendar.date_gtb (dt_date (clock (snd s) k))
                                (last_reset_date (fst s)) = true)).

(** The target was reached on day [d]: the flag is set, the reset date is
    [d], and the target line was logged [n] times. *)
Definition reached_on (d : date) (clk : nat -> datetime) (n : nat) (s : Sys) : Prop :=
  daily_target_reached (fst s) = true /\
  last_reset_date (fst s) = d /\
  clock (snd s) = clk /\
  target_events (log (snd s)) = n.

(** What a call that only queries the statistics does to the object [m]
    in the environment [w]: the configuration, the target flag, the reset
    date and the last trade time are kept; the four counters are kept, or
    are the totals of the closing deals of the strategy that today's query
    returned, when it returned some. *)
Definition assigns_counters_only (m : DailyProfitManager) (w : World)
    (m' : DailyProfitManager) : Prop :=
  config m' = config m /\
  daily_target_reached m' = daily_target_reached m /\
  last_reset_date m' = last_reset_date m /\
  last_trade_time m' = last_trade_time m /\
  (counters m' = counters m \/
   exists deals,
     history w (Calendar.day_start (dt_date (reading w)))
               (Calendar.day_end (dt_date (reading w))) = QueryDeals deals /\
     relevant_deals (config m) deals <> [] /\
     counters m'
     = (count_of (relevant_deals (config m) deals),
        gross_of (relevant_deals (config m) deals),
        fees_of (config m) (relevant_deals (config m) deals),
        net_of (config m) (relevant_deals (config m) deals))).

(** Today's query found no closing deal of the strategy: it returned
    [None], or deals of which none passes the filter. *)
Definition no_relevant_deals (m : DailyProfitManager) (w : World) : Prop :=
  let today := dt_date (reading w) in
  history w (Calendar.day_start today) (Calendar.day_end today) = QueryNone \/
  exists deals,
    history w (Calendar.day_start today) (Calendar.day_end today) = QueryDeals deals /\
    relevant_deals (config m) deals = [].

(** Not below zero: a zero, a positive value or NaN. *)
Definition unsigned (x : float) : Prop :=
  match x with
  | S754_nan => True
  | S754_zero s | S754_infinity s | S754_finite s _ _ => s = false
  end.

(** The books balance: the stored net is the stored gross minus the stored
    fees, and the trade count is not negative. *)
Definition books_balanced (m : DailyProfitManager) : Prop :=
  net_profit_today m = fsub (gross_profit_today m) (total_fees_today m) /\
  0 <= trades_today m.

(** A step that leaves the configuration alone and keeps balanced books
    balanced. *)
Definition books_kept (s s' : Sys) : Prop :=
  config (fst s') = config (fst s) /\
  (books_balanced (fst s) -> books_balanced (fst s')).

(** The events of a trace other than a call of [load_state]. *)
Definition no_load (e : event) : bool :=
  match e with
  | Invoke LoadState => false
  | _ => true
  end.

(** The calls an exception can escape from: the gate, the Friday hours and
    the progress report. *)
Definition may_raise (c : call) : bool :=
  match c with
  | ShouldAllowTrading | GetFridayTradingHoursRemaining | GetProgressReport => true
  | _ => false
  end.

(** The value of a positive finite float, in units of [2 ^ -1074]. *)
Definition sval (x : float) : Z :=
  match x with
  | S754_finite false m e => Zpos m * 2 ^ (e + 1074)
  | _ => 0
  end.

(** A positive float with a mantissa of at most 53 bits and an exponent
    from -1074 to 0. *)
Definition fixed (x : float) : Prop :=
  match x with
  | S754_finite false m e => Zpos m < 2 ^ 53 /\ -1074 <= e <= 0
  | _ => False
  end.

(** ** Evaluation of the methods

    The arithmetic, calendar and text functions stay folded while a method
    is stepped through. *)

Arguments fadd : simpl never.
Arguments fsub : simpl never.
Arguments fmul : simpl never.
Arguments fdiv : simpl never.
Arguments flt : simpl never.
Arguments fle : simpl never.
Arguments feq : simpl never.
Arguments of_Z : simpl never.
Arguments round : simpl never.
Arguments trunc : simpl never.
Arguments lt_Z : simpl never.
Arguments Z_truediv : simpl never.
Arguments floordiv : simpl never.
Arguments pymod : simpl never.
Arguments py_int : simpl never.
Arguments of_int : simpl never.
Arguments Calendar.weekday : simpl never.
Arguments Calendar.date_gtb : simpl never.
Arguments Calendar.date_eqb : simpl never.
Arguments Calendar.datetime_geb : simpl never.
Arguments Calendar.sub : simpl never.
Arguments Calendar.total_seconds : simpl never.
Arguments Calendar.replace_hour : simpl never.
Arguments Calendar.timedelta_minutes : simpl never.
Arguments Calendar.add : simpl never.
Arguments Calendar.day_start : simpl never.
Arguments Calendar.day_end : simpl never.
Arguments Iso.date_isoformat : simpl never.
Arguments Iso.datetime_isoformat : simpl never.
Arguments Iso.datetime_fromisoformat : simpl never.
Arguments trade_fee : simpl never.
Arguments fsum : simpl never.
Arguments is_relevant : simpl never.
Arguments relevant_deals : simpl never.
Arguments count_of : simpl never.
Arguments gross_of : simpl never.
Arguments fees_of : simpl never.
Arguments net_of : simpl never.
Arguments percentage_of : simpl never.
Arguments average_of : simpl never.
Arguments stats_of : simpl never.
Arguments state_dict : simpl never.
Arguments get_bool : simpl never.
Arguments get_int : simpl never.
Arguments get_float : simpl never.
Arguments get_date_text : simpl never.
Arguments get_last_trade : simpl never.
Arguments pace_of : simpl never.
Arguments expected_progress : simpl never.
Arguments seconds_since : simpl never.
Arguments friday_closed : simpl never.
Arguments ge_Z : simpl never.
Arguments estimate_eta : simpl never.
Arguments get_daily_stats : simpl never.
Arguments check_target_reached : simpl never.
Arguments reset_daily_state : simpl never.
Arguments required_interval : simpl never.
Arguments should_allow_trading : simpl never.
Arguments gate : simpl never.
Arguments get_friday_trading_hours_remaining : simpl never.
Arguments record_trade : simpl never.
Arguments get_progress_report : simpl never.
Arguments get_compact_progress : simpl never.
Arguments save_state : simpl never.
Arguments load_state : simpl never.
Arguments should_pause_trading : simpl never.
Arguments update : simpl never.
Arguments calculate_trade_fee : simpl never.
Arguments Z.ltb : simpl never.
Arguments Z.leb : simpl never.
Arguments Z.eqb : simpl never.
Arguments Z.add : simpl never.
Arguments target_events : simpl never.
Arguments after_rollover : simpl never.

(** Steps through the monadic plumbing of a method applied to a state. *)
Ltac msimpl :=
  repeat (progress (unfold mbind, M_bind, mret, M_ret, now, get_self, get_world,
                      modify_world, modify_self, logger, lift, raise, try_except,
                      history_deals_get in *;
                    cbn in *)).

(** Goals on [env_kept]. *)
Ltac env_tac :=
  repeat match goal with
         | H : env_kept _ _ |- _ => destruct H as (? & ? & ? & ? & ?)
         end;
  unfold env_kept; cbn in *; repeat split; try congruence; try lia.

Create Rewrite HintDb target_log.

(** Goals that count the target lines of a log grown by known lines. *)
Ltac log_tac :=
  cbn [log append_log tick write_file snd fst] in *;
  autorewrite with target_log;
  cbn [is_target_line]; lia.

(** * Properties *)

(** ** Range of the float operations *)

Lemma within_finite (B : Z) (x : float) : within B x -> is_finite x = true.
Proof. destruct x; cbn; intuition. Qed.

Lemma within_weaken (B B' : Z) (x : float) : B <= B' -> within B x -> within B' x.
Proof. destruct x; cbn; intuition lia. Qed.

Lemma digits2_log2 (p : positive) : Zpos (digits2_pos p) = Z.log2 (Zpos p) + 1.
Proof.
  induction p as [p IH|p IH|]; cbn [digits2_pos].
  - rewrite Pos2Z.inj_succ, IH.
    change (Zpos p~1) with (2 * Zpos p + 1). rewrite Z.log2_succ_double by lia. lia.
  - rewrite Pos2Z.inj_succ, IH.
    change (Zpos p~0) with (2 * Zpos p). rewrite Z.log2_double by lia. lia.
  - reflexivity.
Qed.

Lemma Zdigits2_log2 (m : Z) : 0 < m -> Zdigits2 m = Z.log2 m + 1.
Proof. destruct m; try lia. intros _. apply digits2_log2. Qed.

Lemma Zdigits2_nonneg (m : Z) : 0 <= Zdigits2 m.
Proof. destruct m; cbn; lia. Qed.

(** [digits m <= k] means [m < 2 ^ k]. *)
Lemma Zdigits2_le (m k : Z) : 0 <= m -> 0 <= k -> (Zdigits2 m <= k <-> m < 2 ^ k).
Proof.
  intros Hm Hk. destruct (Z.eq_dec m 0) as [->|Hne].
  - cbn. split; intros; [apply Z.pow_pos_nonneg|]; lia.
  - rewrite Zdigits2_log2 by lia.
    rewrite (Z.log2_lt_pow2 m k) by lia. lia.
Qed.

Lemma shr_1_m (r : shr_record) : 0 <= shr_m r -> shr_m (shr_1 r) = shr_m r / 2.
Proof.
  destruct r as [m r s]. cbn. destruct m as [|p|p]; try lia; intros _.
  - reflexivity.
  - destruct p; cbn [shr_m].
    + change (Zpos p~1) with (2 * Zpos p + 1).
      apply Z.div_unique with 1; lia.
    + change (Zpos p~0) with (2 * Zpos p).
      apply Z.div_unique with 0; lia.
    + reflexivity.
Qed.

Lemma iter_shr_1_m (p : positive) :
  forall r, 0 <= shr_m r -> shr_m (SpecFloat.iter_pos shr_1 p r) = shr_m r / 2 ^ Zpos p.
Proof.
  induction p as [p IH|p IH|]; intros r Hr; cbn [SpecFloat.iter_pos].
  - assert (H1 : 0 <= shr_m (shr_1 r)) by (rewrite shr_1_m by lia; apply Z.div_pos; lia).
    assert (H2 : 0 <= shr_m (SpecFloat.iter_pos shr_1 p (shr_1 r)))
      by (rewrite IH by lia; apply Z.div_pos; [lia|apply Z.pow_pos_nonneg; lia]).
    rewrite IH, IH, shr_1_m by lia.
    rewrite !Z.div_div by (try apply Z.pow_pos_nonneg; lia).
    f_equal. change (Zpos p~1) with (2 * Zpos p + 1).
    rewrite Z.pow_add_r, Z.pow_1_r by lia.
    replace (2 * Zpos p) with (Zpos p + Zpos p) by lia.
    rewrite Z.pow_add_r by lia. lia.
  - assert (H2 : 0 <= shr_m (SpecFloat.iter_pos shr_1 p r))
      by (rewrite IH by lia; apply Z.div_pos; [lia|apply Z.pow_pos_nonneg; lia]).
    rewrite IH, IH by lia.
    rewrite !Z.div_div by (try apply Z.pow_pos_nonneg; lia).
    f_equal. change (Zpos p~0) with (2 * Zpos p).
    replace (2 * Zpos p) with (Zpos p + Zpos p) by lia.
    rewrite Z.pow_add_r by lia. lia.
  - rewrite shr_1_m by lia. reflexivity.
Qed.

Lemma fexp_bound (z B : Z) :
  z <= B -> -1074 <= B -> SpecFloat.fexp prec emax z <= Z.max (B - 53) (-1074).
Proof. unfold SpecFloat.fexp, SpecFloat.emin, prec, emax. lia. Qed.

Lemma shr_record_of_loc_m (m : Z) (l : location) : shr_m (shr_record_of_loc m l) = m.
Proof. destruct l as [|[]]; reflexivity. Qed.

Lemma shr_fexp_spec (m e : Z) (l : location) :
  0 <= m ->
  exists r e',
    shr_fexp prec emax m e l = (r, e') /\
    e' = Z.max e (SpecFloat.fexp prec emax (Zdigits2 m + e)) /\
    shr_m r = m / 2 ^ (e' - e).
Proof.
  intros Hm. unfold shr_fexp, shr.
  destruct (SpecFloat.fexp prec emax (Zdigits2 m + e) - e) as [|p|p] eqn:Hn.
  - eexists _, _. split; [reflexivity|]. split; [lia|].
    rewrite shr_record_of_loc_m. replace (e - e) with 0 by lia.
    rewrite Z.pow_0_r, Z.div_1_r. reflexivity.
  - eexists _, _. split; [reflexivity|]. split; [lia|].
    rewrite iter_shr_1_m by (rewrite shr_record_of_loc_m; lia).
    rewrite shr_record_of_loc_m. f_equal. f_equal. lia.
  - eexists _, _. split; [reflexivity|]. split; [lia|].
    rewrite shr_record_of_loc_m. replace (e - e) with 0 by lia.
    rewrite Z.pow_0_r, Z.div_1_r. reflexivity.
Qed.

Lemma Zdigits2_shift (m k : Z) :
  0 <= k -> 0 < m / 2 ^ k -> Zdigits2 (m / 2 ^ k) + k = Zdigits2 m.
Proof.
  intros Hk Hq.
  assert (Hp : 0 < 2 ^ k) by (apply Z.pow_pos_nonneg; lia).
  assert (Hm : 0 < m).
  { destruct (Z_lt_le_dec 0 m) as [|Hle]; [assumption|].
    assert (m / 2 ^ k <= 0) by (apply Z.div_le_upper_bound; lia). lia. }
  rewrite !Zdigits2_log2 by lia.
  rewrite <- Z.shiftr_div_pow2 by lia.
  rewrite Z.log2_shiftr by lia.
  assert (2 ^ k <= m).
  { destruct (Z_lt_le_dec m (2 ^ k)) as [Hlt|]; [|assumption].
    rewrite Z.div_small in Hq by lia. lia. }
  assert (k <= Z.log2 m) by (apply Z.log2_le_pow2; lia).
  lia.
Qed.

Lemma round_nearest_even_bounds (m : Z) (l : location) :
  m <= round_nearest_even m l <= m + 1.
Proof.
  unfold round_nearest_even. destruct l as [|[]]; try lia.
  destruct (Z.even m); lia.
Qed.

Lemma Zdigits2_succ (m m1 : Z) :
  0 < m -> m <= m1 <= m + 1 -> Zdigits2 m1 <= Zdigits2 m + 1.
Proof.
  intros Hm H1. rewrite !Zdigits2_log2 by lia.
  assert (Z.log2 m1 <= Z.log2 (Z.succ m)) by (apply Z.log2_le_mono; lia).
  pose proof (Z.log2_succ_le m). lia.
Qed.

(** Rounding a mantissa below [2 ^ B] gives a float below [2 ^ (B + 1)]. *)
Lemma binary_round_aux_within (s : bool) (mx ex : Z) (lx : location) (B : Z) :
  0 <= mx -> ex <= 971 -> Zdigits2 mx + ex <= B -> -1074 <= B <= 1023 ->
  within (B + 1) (binary_round_aux prec emax s mx ex lx).
Proof.
  intros Hmx Hex Hmag HB. unfold binary_round_aux.
  destruct (shr_fexp_spec mx ex lx Hmx) as (r1 & e1 & -> & He1 & Hm1).
  pose proof (Zdigits2_nonneg mx) as Hd.
  pose proof (fexp_bound (Zdigits2 mx + ex) B Hmag ltac:(lia)) as Hf1.
  assert (He1B : e1 <= B /\ e1 <= 971 /\ ex <= e1) by lia.
  assert (Hp1 : 0 < 2 ^ (e1 - ex)) by (apply Z.pow_pos_nonneg; lia).
  assert (Hr1 : 0 <= shr_m r1) by (rewrite Hm1; apply Z.div_pos; lia).
  pose proof (round_nearest_even_bounds (shr_m r1) (loc_of_shr_record r1)) as Hrne.
  set (m1 := round_nearest_even (shr_m r1) (loc_of_shr_record r1)) in *.
  assert (Hmag1 : Zdigits2 m1 + e1 <= B + 1).
  { destruct (Z.eq_dec (shr_m r1) 0) as [Hz|Hnz].
    - assert (Hc : m1 = 0 \/ m1 = 1) by lia.
      destruct Hc as [-> | ->]; cbn; lia.
    - assert (Hs : Zdigits2 (shr_m r1) + (e1 - ex) = Zdigits2 mx)
        by (rewrite Hm1; apply Zdigits2_shift; [lia|rewrite <- Hm1; lia]).
      pose proof (Zdigits2_succ (shr_m r1) m1 ltac:(lia) Hrne). lia. }
  destruct (shr_fexp_spec m1 e1 loc_Exact ltac:(lia)) as (r2 & e2 & -> & He2 & Hm2).
  pose proof (fexp_bound (Zdigits2 m1 + e1) (B + 1) Hmag1 ltac:(lia)) as Hf2.
  assert (Hp2 : 0 < 2 ^ (e2 - e1)) by (apply Z.pow_pos_nonneg; lia).
  assert (Hr2 : 0 <= shr_m r2) by (rewrite Hm2; apply Z.div_pos; lia).
  destruct (shr_m r2) as [|m2|m2] eqn:Hm2'; [exact I| |lia].
  assert (He2' : e2 <= 971) by lia.
  replace (e2 <=? emax - prec) with true
    by (symmetry; apply Z.leb_le; unfold emax, prec; lia).
  cbn. split; [assumption|].
  assert (Hs : Zdigits2 (m1 / 2 ^ (e2 - e1)) + (e2 - e1) = Zdigits2 m1)
    by (apply Zdigits2_shift; [lia|rewrite <- Hm2; lia]).
  rewrite <- Hm2 in Hs. cbn in Hs. lia.
Qed.

Lemma digits2_iter_xO (m d : positive) :
  Zpos (digits2_pos (Pos.iter xO m d)) = Zpos (digits2_pos m) + Zpos d.
Proof.
  induction d as [|d IH] using Pos.peano_ind.
  - cbn. lia.
  - rewrite Pos.iter_succ. cbn [digits2_pos]. rewrite Pos2Z.inj_succ, IH. lia.
Qed.

Lemma shl_align_spec (m : positive) (e e' : Z) :
  exists mz ez,
    shl_align m e e' = (mz, ez) /\ ez <= e /\
    Zpos (digits2_pos mz) + ez = Zpos (digits2_pos m) + e /\
    (e' <= e -> ez = e').
Proof.
  unfold shl_align. destruct (e' - e) as [|d|d] eqn:Hd.
  - eexists _, _. split; [reflexivity|]. lia.
  - eexists _, _. split; [reflexivity|]. lia.
  - eexists _, _. split; [reflexivity|]. rewrite digits2_iter_xO. lia.
Qed.

Lemma binary_round_within (s : bool) (m : positive) (e B : Z) :
  e <= 971 -> Zpos (digits2_pos m) + e <= B -> -1074 <= B <= 1023 ->
  within (B + 1) (binary_round prec emax s m e).
Proof.
  intros He Hmag HB. unfold binary_round.
  destruct (shl_align_spec m e (SpecFloat.fexp prec emax (Zpos (digits2_pos m) + e)))
    as (mz & ez & -> & Hez & Hd & _).
  apply binary_round_aux_within; cbn [Zdigits2]; lia.
Qed.

Lemma binary_normalize_within (n e B : Z) (sz : bool) :
  e <= 971 -> Zdigits2 n + e <= B -> -1074 <= B <= 1023 ->
  within (B + 1) (binary_normalize prec emax n e sz).
Proof.
  intros He Hmag HB. destruct n as [|p|p]; cbn [binary_normalize].
  - exact I.
  - apply binary_round_within; assumption.
  - apply binary_round_within; assumption.
Qed.

Lemma Zdigits2_abs (n : Z) : Zdigits2 (Z.abs n) = Zdigits2 n.
Proof. destruct n; reflexivity. Qed.

(** [float(n)] is finite for an integer below [2 ^ B], [B <= 1023]. *)
Lemma of_Z_within (n B : Z) :
  Z.abs n < 2 ^ B -> 0 <= B <= 1023 -> within (B + 1) (of_Z n).
Proof.
  intros Hn HB. unfold of_Z. apply binary_normalize_within; try lia.
  rewrite <- Zdigits2_abs. rewrite Z.add_0_r.
  apply Zdigits2_le; lia.
Qed.

Lemma Zdigits2_mono (a b : Z) : 0 <= a <= b -> Zdigits2 a <= Zdigits2 b.
Proof.
  intros H. destruct (Z.eq_dec a 0) as [->|Ha].
  - apply Zdigits2_nonneg.
  - rewrite !Zdigits2_log2 by lia.
    assert (Z.log2 a <= Z.log2 b) by (apply Z.log2_le_mono; lia). lia.
Qed.

Lemma Zdigits2_shiftl (a s : Z) : 0 < a -> 0 <= s -> Zdigits2 (Z.shiftl a s) = Zdigits2 a + s.
Proof.
  intros Ha Hs.
  assert (0 < Z.shiftl a s)
    by (rewrite Z.shiftl_mul_pow2 by lia; apply Z.mul_pos_pos;
        [lia|apply Z.pow_pos_nonneg; lia]).
  rewrite !Zdigits2_log2 by lia. rewrite Z.log2_shiftl by lia. lia.
Qed.

(** The quotient of two integers is finite when the numerator is below
    [2 ^ 1023]. *)
Lemma Z_truediv_within (n d B : Z) :
  0 < d -> Z.abs n < 2 ^ B -> 0 <= B <= 1023 -> within (B + 1) (Z_truediv n d).
Proof.
  intros Hd Hn HB.
  assert (Hcore : forall (s : bool) (a b : positive),
             Zpos a < 2 ^ B ->
             within (B + 1) (fdiv (S754_finite s a 0) (S754_finite false b 0))).
  { intros s a b Ha. unfold fdiv, SFdiv, SFdiv_core_binary.
    set (e' := Z.min _ _).
    assert (He' : e' <= 0) by (subst e'; lia).
    set (m' := match 0 - 0 - e' with Z0 => Zpos a | Zpos _ => Z.shiftl (Zpos a) (0 - 0 - e') | Zneg _ => 0 end).
    assert (Hm' : 0 < m' /\ Zdigits2 m' + e' = Zdigits2 (Zpos a)).
    { subst m'. destruct (0 - 0 - e') as [|p|p] eqn:Hs; try lia.
      rewrite Zdigits2_shiftl by lia.
      split; [|lia]. rewrite Z.shiftl_mul_pow2 by lia.
      apply Z.mul_pos_pos; [lia|apply Z.pow_pos_nonneg; lia]. }
    pose proof (Z_div_mod m' (Zpos b) ltac:(lia)) as Hdm.
    destruct (Z.div_eucl m' (Zpos b)) as [q r].
    destruct Hdm as [Hq Hr].
    assert (Hq0 : 0 <= q <= m') by nia.
    apply binary_round_aux_within; try lia.
    pose proof (Zdigits2_mono q m' Hq0).
    assert (Zdigits2 (Zpos a) <= B) by (apply Zdigits2_le; lia).
    lia. }
  unfold Z_truediv. destruct n as [|a|a], d as [|b|b]; try lia; try exact I.
  - apply Hcore. lia.
  - apply Hcore. lia.
Qed.

Lemma aligned_bound (m : positive) (e ez B : Z) :
  ez <= e -> Zpos (digits2_pos m) + e <= B ->
  0 < Zpos (fst (shl_align m e ez)) < 2 ^ (B - ez).
Proof.
  intros Hez Hmag.
  destruct (shl_align_spec m e ez) as (mz & ez' & Heq & _ & Hd & Hz).
  rewrite Heq. cbn [fst]. rewrite (Hz Hez) in Hd.
  split; [lia|].
  pose proof (Pos2Z.is_pos (digits2_pos mz)).
  apply (Zdigits2_le (Zpos mz)); cbn [Zdigits2]; lia.
Qed.

(** The difference of two floats below [2 ^ B] is finite. *)
Lemma fsub_within (x y : float) (B : Z) :
  within B x -> within B y -> -1074 <= B <= 1022 -> within (B + 2) (fsub x y).
Proof.
  intros Hx Hy HB.
  destruct x as [sx|sx| |sx mx ex], y as [sy|sy| |sy my ey];
    cbn [within] in Hx, Hy; try contradiction.
  - destruct sx, sy; exact I.
  - unfold fsub; cbn. lia.
  - unfold fsub; cbn. lia.
  - unfold fsub, SFsub.
    set (ez := Z.min ex ey).
    pose proof (aligned_bound mx ex ez B ltac:(lia) ltac:(lia)) as Hax.
    pose proof (aligned_bound my ey ez B ltac:(lia) ltac:(lia)) as Hay.
    set (ax := Zpos (fst (shl_align mx ex ez))) in *.
    set (ay := Zpos (fst (shl_align my ey ez))) in *.
    assert (Hpow : 2 ^ (B + 1 - ez) = 2 * 2 ^ (B - ez)).
    { replace (B + 1 - ez) with (Z.succ (B - ez)) by lia.
      apply Z.pow_succ_r.
      pose proof (Pos2Z.is_pos (digits2_pos mx)). lia. }
    assert (Hv : Z.abs (cond_Zopp sx ax - cond_Zopp sy ay) < 2 ^ (B + 1 - ez))
      by (rewrite Hpow; destruct sx, sy; cbn [cond_Zopp]; lia).
    replace (B + 2) with (B + 1 + 1) by lia.
    apply binary_normalize_within; try lia.
    rewrite <- Zdigits2_abs.
    pose proof (Pos2Z.is_pos (digits2_pos mx)).
    assert (Zdigits2 (Z.abs (cond_Zopp sx ax - cond_Zopp sy ay)) <= B + 1 - ez)
      by (apply Zdigits2_le; lia).
    lia.
Qed.

Lemma py_int_within (B : Z) (x : float) : within B x -> exists n, py_int x = Ret n.
Proof.
  destruct x; cbn [within]; try contradiction; intros _; unfold py_int; cbn; eauto.
Qed.

Lemma of_int_within (n B : Z) :
  Z.abs n < 2 ^ B -> 0 <= B <= 1023 ->
  of_int n = Ret (of_Z n) /\ within (B + 1) (of_Z n).
Proof.
  intros Hn HB. pose proof (of_Z_within n B Hn HB) as Hw.
  split; [|assumption]. unfold of_int. rewrite (within_finite _ _ Hw). reflexivity.
Qed.

(** ** Range of the elapsed time *)

Lemma andb_true_split (a b : bool) : a && b = true -> a = true /\ b = true.
Proof. destruct a, b; auto. Qed.

Lemma toordinal_bound (d : date) :
  Calendar.valid_date d = true -> 1 <= Calendar.toordinal d <= 3652060.
Proof.
  unfold Calendar.valid_date. intros H.
  repeat (apply andb_true_split in H; destruct H as [H ?]).
  repeat match goal with
         | H : (_ <=? _) = true |- _ => apply Z.leb_le in H
         end.
  assert (Hm : month d = 1 \/ month d = 2 \/ month d = 3 \/ month d = 4 \/
               month d = 5 \/ month d = 6 \/ month d = 7 \/ month d = 8 \/
               month d = 9 \/ month d = 10 \/ month d = 11 \/ month d = 12) by lia.
  assert (Hdim : Calendar.days_in_month (year d) (month d) <= 31).
  { unfold Calendar.days_in_month.
    repeat (destruct Hm as [Hm|Hm]); rewrite Hm;
      try destruct (Calendar.is_leap (year d)); lia. }
  assert (Hdbm : 0 <= Calendar.days_before_month (year d) (month d) <= 335).
  { unfold Calendar.days_before_month, Calendar.days_before_month_common.
    destruct ((2 <? month d) && Calendar.is_leap (year d));
      repeat (destruct Hm as [Hm|Hm]); rewrite Hm; lia. }
  unfold Calendar.toordinal, Calendar.days_before_year.
  Z.to_euclidean_division_equations. lia.
Qed.

Lemma to_microseconds_bound (t : datetime) :
  Calendar.valid_datetime t = true -> 0 <= Calendar.to_microseconds t < 2 ^ 59.
Proof.
  unfold Calendar.valid_datetime, Calendar.valid_time. intros H.
  apply andb_true_split in H. destruct H as [Hd H].
  repeat (apply andb_true_split in H; destruct H as [H ?]).
  repeat match goal with
         | H : (_ <=? _) = true |- _ => apply Z.leb_le in H
         | H : (_ <? _) = true |- _ => apply Z.ltb_lt in H
         end.
  pose proof (toordinal_bound _ Hd).
  unfold Calendar.to_microseconds.
  change (2 ^ 59) with 576460752303423488. lia.
Qed.

Lemma seconds_since_within (t last : datetime) :
  Calendar.valid_datetime t = true -> Calendar.valid_datetime last = true ->
  within 61 (seconds_since t last).
Proof.
  intros Ht Hl. unfold seconds_since, Calendar.total_seconds, Calendar.sub.
  pose proof (to_microseconds_bound t Ht).
  pose proof (to_microseconds_bound last Hl).
  apply (Z_truediv_within _ _ 60); lia.
Qed.

(** With valid datetimes and an interval in range, the remaining wait is a
    finite number: converting the interval and truncating the difference
    raise nothing. *)
Lemma pacing_wait_defined (t last : datetime) (required : Z) :
  Calendar.valid_datetime t = true -> Calendar.valid_datetime last = true ->
  Z.abs required < 2 ^ 62 ->
  exists wait,
    of_int required = Ret (of_Z required) /\
    py_int (fsub (of_Z required) (seconds_since t last)) = Ret wait.
Proof.
  intros Ht Hl Hr.
  destruct (of_int_within required 62 Hr ltac:(lia)) as [Hoi Hw].
  pose proof (seconds_since_within t last Ht Hl) as Hs.
  assert (Hsub : within 65 (fsub (of_Z required) (seconds_since t last))).
  { apply (fsub_within _ _ 63); try lia.
    - exact Hw.
    - eapply within_weaken; [|exact Hs]. lia. }
  destruct (py_int_within _ _ Hsub) as [wait Hwait].
  exists wait. split; assumption.
Qed.
(** ** Fees and recorded trades *)

Lemma calculate_trade_fee_run (lot_size : float) (s : Sys) :
  calculate_trade_fee lot_size s
  = (Ret (round (fmul lot_size (broker_fee_per_lot (config (fst s)))) 2), s).
Proof. destruct s. reflexivity. Qed.

Lemma reset_daily_state_run (m : DailyProfitManager) (w : World) :
  reset_daily_state (m, w)
  = (Ret tt,
     (reset_manager m (dt_date (clock w (ticks w))),
      tick (append_log (INFO, MsgMidnightReset) w))).
Proof. reflexivity. Qed.

Lemma record_trade_run (lot_size profit : float) (m : DailyProfitManager) (w : World) :
  let fee := trade_fee (config m) lot_size in
  let gross := fadd (gross_profit_today m) profit in
  let fees := fadd (total_fees_today m) fee in
  record_trade lot_size profit (m, w)
  = (Ret tt,
     (mkManager (config m) (daily_target_reached m) (last_reset_date m)
                (trades_today m + 1) fees gross (fsub gross fees)
                (Some (reading w)),
      append_log (INFO, MsgTradeRecorded profit fee (fsub gross fees)) (tick w))).
Proof. reflexivity. Qed.

Lemma record_trades_run (trades : list (float * float)) :
  forall (m : DailyProfitManager) (w : World),
  exists m' w',
    record_trades trades (m, w) = (Ret tt, (m', w')) /\
    config m' = config m /\
    trades_today m' = trades_today m + Z.of_nat (length trades) /\
    gross_profit_today m' = fold_left fadd (map snd trades) (gross_profit_today m) /\
    total_fees_today m'
    = fold_left fadd (map (fun t => trade_fee (config m) (fst t)) trades)
                (total_fees_today m) /\
    (net_profit_today m = fsub (gross_profit_today m) (total_fees_today m) ->
     net_profit_today m' = fsub (gross_profit_today m') (total_fees_today m')).
Proof.
  induction trades as [|[lot p] rest IH]; intros m w.
  - exists m, w. cbn. repeat split; try reflexivity; try lia. auto.
  - cbn [record_trades]. unfold mbind, M_bind at 1.
    rewrite record_trade_run. cbv zeta.
    match goal with
    | |- context [record_trades rest (?m1, ?w1)] =>
        destruct (IH m1 w1) as (m' & w' & Hrun & Hc & Hn & Hg & Hf & Hnet)
    end.
    exists m', w'. cbn in Hc, Hn, Hg, Hf, Hnet.
    split; [exact Hrun|]. split; [exact Hc|].
    split; [rewrite Hn, length_cons; lia|].
    split; [exact Hg|]. split; [exact Hf|].
    intros _. apply Hnet. reflexivity.
Qed.

(** C3. Starting from the state a daily reset leaves, after each call of
    any sequence of [record_trade] calls the net profit is the gross profit
    minus the total fees (the floating-point difference, the one rounding
    that subtraction makes); the trade count is the number of calls, the
    gross profit the running sum of the profits and the total fees the
    running sum of the computed fees. *)
Theorem record_trade_net_invariant
    (m0 : DailyProfitManager) (today : date) (w : World)
    (trades : list (float * float)) (k : nat) :
  exists m' w',
    record_trades (firstn k trades) (reset_manager m0 today, w) = (Ret tt, (m', w')) /\
    net_profit_today m' = fsub (gross_profit_today m') (total_fees_today m') /\
    trades_today m' = Z.of_nat (length (firstn k trades)) /\
    gross_profit_today m' = fold_left fadd (map snd (firstn k trades)) zero /\
    total_fees_today m'
    = fold_left fadd
        (map (fun t => trade_fee (config m0) (fst t)) (firstn k trades)) zero.
Proof.
  destruct (record_trades_run (firstn k trades) (reset_manager m0 today) w)
    as (m' & w' & Hrun & Hc & Hn & Hg & Hf & Hnet).
  exists m', w'. cbn in Hn, Hg, Hf, Hnet.
  repeat split; auto.
Qed.

(** C5, as the code has it. [calculate_trade_fee] returns
    [round(lot_size * broker_fee_per_lot, 2)] for every lot size, negative
    ones included; it validates nothing and raises nothing, and it leaves
    the object and the environment as they were. *)
Theorem calculate_trade_fee_total (lot_size : float) (m : DailyProfitManager) (w : World) :
  calculate_trade_fee lot_size (m, w)
  = (Ret (round (fmul lot_size (broker_fee_per_lot (config m))) 2), (m, w)).
Proof. reflexivity. Qed.

(** C5 fails for negative lots: at lot size -1.0 with the default fee of
    5.51 the call returns -5.51; no [ValueError] is raised. *)
Lemma calculate_trade_fee_negative_lot :
  let m := Sample.manager "gentle" Sample.wednesday in
  let w := Sample.world (Sample.at_time Sample.wednesday 10 0 0) QueryNone in
  flt (of_Z (-1)) zero = true /\
  calculate_trade_fee (of_Z (-1)) (m, w) = (Ret (Sample.decimal (-551) 100), (m, w)) /\
  fst (calculate_trade_fee (of_Z (-1)) (m, w)) <> Raise ValueError.
Proof.
  cbv zeta. split; [reflexivity|]. split; [vm_compute; reflexivity|].
  vm_compute. discriminate.
Qed.

(** ** Statistics *)

(** C6. When the trade-history query raises, [get_daily_stats] returns the
    all-zero statistics (no trades, zero gross, fees, net, percentage and
    average, no estimate), logs the error at ERROR level, lets no exception
    escape and leaves the object as it was. *)
Theorem get_daily_stats_query_failure
    (m : DailyProfitManager) (w : World) (e : exn) :
  history w (Calendar.day_start (dt_date (reading w)))
            (Calendar.day_end (dt_date (reading w))) = QueryRaises e ->
  get_daily_stats (m, w)
  = (Ret (mkStats 0 zero zero zero zero zero None),
     (m, append_log (ERROR, MsgStatsError e) (tick w))).
Proof.
  intros H. unfold get_daily_stats. msimpl. unfold reading in H. rewrite H.
  reflexivity.
Qed.

Lemma get_daily_stats_query_failure_witness :
  let w := Sample.world (Sample.at_time Sample.wednesday 10 0 0) (QueryRaises RuntimeError) in
  let m := Sample.manager "adaptive" Sample.wednesday in
  get_daily_stats (m, w)
  = (Ret (mkStats 0 zero zero zero zero zero None),
     (m, append_log (ERROR, MsgStatsError RuntimeError) (tick w))).
Proof.
  cbv zeta. apply get_daily_stats_query_failure. reflexivity.
Defined.

Lemma target_events_app (l l' : list (level * message)) :
  target_events (l ++ l')%list = (target_events l + target_events l')%nat.
Proof. unfold target_events. rewrite List.filter_app, length_app. reflexivity. Qed.

Lemma target_events_cons (r : level * message) (l : list (level * message)) :
  target_events (r :: l) = ((if is_target_line r then 1 else 0) + target_events l)%nat.
Proof. unfold target_events. cbn. destruct (is_target_line r); reflexivity. Qed.

Lemma target_events_nil : target_events [] = 0%nat.
Proof. reflexivity. Qed.

#[global] Hint Rewrite target_events_app target_events_cons target_events_nil : target_log.

Lemma estimate_eta_effect (c : Config) (gross avg : float) (m : DailyProfitManager) (w : World) :
  exists r w',
    estimate_eta c gross avg (m, w) = (r, (m, w')) /\
    env_kept w w' /\ log w' = log w.
Proof.
  assert (Hdone : forall (r : result (option datetime)) (w' : World),
             env_kept w w' -> log w' = log w ->
             exists r0 w0, (r, (m, w')) = (r0, (m, w0)) /\ env_kept w w0 /\ log w0 = log w)
    by (intros r w' Hk Hl; exists r, w'; auto).
  unfold estimate_eta.
  destruct (flt zero avg && flt gross (daily_target_gross c)); msimpl.
  - destruct (of_int _); msimpl.
    + destruct (Calendar.timedelta_minutes _); msimpl.
      * destruct (Calendar.add _ _); msimpl; apply Hdone; [env_tac|reflexivity|env_tac|reflexivity].
      * apply Hdone; [env_tac|reflexivity].
    + apply Hdone; [env_tac|reflexivity].
  - apply Hdone; [env_tac|reflexivity].
Qed.

(** [get_daily_stats] always returns. It assigns the four counters, and only
    when the query found closing deals of the strategy; it leaves the
    target flag, the reset date and the last trade time as they were. *)
Lemma get_daily_stats_effect (m : DailyProfitManager) (w : World) :
  exists stats m' w',
    get_daily_stats (m, w) = (Ret stats, (m', w')) /\
    (m' = m \/
     exists deals,
       history w (Calendar.day_start (dt_date (reading w)))
                 (Calendar.day_end (dt_date (reading w))) = QueryDeals deals /\
       relevant_deals (config m) deals <> [] /\
       let rel := relevant_deals (config m) deals in
       m' = with_counters m (count_of rel) (gross_of rel)
                          (fees_of (config m) rel) (net_of (config m) rel)) /\
    env_kept w w' /\
    (log w' = log w \/ exists e, log w' = (log w ++ [(ERROR, MsgStatsError e)])%list).
Proof.
  unfold get_daily_stats, reading. msimpl.
  destruct (history w _ _) as [e| |ds] eqn:Hq; msimpl.
  - exists zero_stats, m, (append_log (ERROR, MsgStatsError e) (tick w)).
    split; [reflexivity|]. split; [auto|]. split; [env_tac|]. right. eauto.
  - exists zero_stats, m, (tick w).
    split; [reflexivity|]. split; [auto|]. split; [env_tac|]. left. reflexivity.
  - destruct ds as [|d ds]; msimpl.
    { exists zero_stats, m, (tick w).
      split; [reflexivity|]. split; [auto|]. split; [env_tac|]. left. reflexivity. }
    destruct (relevant_deals (config m) (d :: ds)) as [|r rs] eqn:Hrel; msimpl.
    { exists zero_stats, m, (tick w).
      split; [reflexivity|]. split; [auto|]. split; [env_tac|]. left. reflexivity. }
    destruct (estimate_eta_effect (config m) (gross_of (r :: rs))
                (average_of (r :: rs)) m (tick w)) as (res & w' & He & Hk & Hl).
    rewrite He. destruct res as [eta|e]; msimpl.
    + eexists _, _, w'. split; [reflexivity|].
      split; [right; exists (d :: ds); rewrite Hrel;
              split; [reflexivity|split; [discriminate|reflexivity]]|].
      split; [env_tac|]. left. rewrite Hl. reflexivity.
    + exists zero_stats, m, (append_log (ERROR, MsgStatsError e) w').
      split; [reflexivity|]. split; [auto|]. split; [env_tac|].
      right. exists e. cbn. rewrite Hl. reflexivity.
Qed.

(** ** The gate *)

Lemma lt_Z_ge_Z (x : float) (n : Z) :
  is_finite x = true -> lt_Z x n = negb (ge_Z x n).
Proof.
  unfold lt_Z, ge_Z. destruct x as [s|s| |s m e]; cbn [is_finite]; try discriminate; intros _.
  - apply eq_true_iff_eq. rewrite negb_true_iff, Z.ltb_lt, Z.leb_gt. reflexivity.
  - destruct e; apply eq_true_iff_eq;
      rewrite negb_true_iff, Z.ltb_lt, Z.leb_gt; reflexivity.
Qed.

(** The interval by pacing mode. *)
Lemma required_interval_aggressive (t : datetime) (m : DailyProfitManager) (w : World) :
  pacing_mode (config m) = "aggressive" ->
  required_interval t (m, w) = (Ret (min_trade_interval_aggressive (config m)), (m, w)).
Proof. intros H. unfold required_interval. msimpl. rewrite H. reflexivity. Qed.

Lemma required_interval_gentle (t : datetime) (m : DailyProfitManager) (w : World) :
  pacing_mode (config m) = "gentle" ->
  required_interval t (m, w) = (Ret (min_trade_interval_normal (config m)), (m, w)).
Proof. intros H. unfold required_interval. msimpl. rewrite H. reflexivity. Qed.

Lemma required_interval_adaptive (t : datetime) (m : DailyProfitManager) (w : World)
    (stats : Stats) (s' : Sys) :
  pacing_mode (config m) = "adaptive" ->
  get_daily_stats (m, w) = (Ret stats, s') ->
  required_interval t (m, w)
  = (Ret (if flt (target_percentage stats)
                 (fmul (expected_progress t) (adaptive_threshold (config m)))
          then min_trade_interval_aggressive (config m)
          else min_trade_interval_normal (config m)),
     s').
Proof.
  intros H Hs. unfold required_interval. msimpl. rewrite H. cbn.
  msimpl. rewrite Hs. destruct (flt _ _); reflexivity.
Qed.

Lemma required_interval_other (t : datetime) (m : DailyProfitManager) (w : World) :
  pacing_mode (config m) <> "aggressive" ->
  pacing_mode (config m) <> "gentle" ->
  pacing_mode (config m) <> "adaptive" ->
  required_interval t (m, w) = (Ret (min_trade_interval_normal (config m)), (m, w)).
Proof.
  intros H1 H2 H3. unfold required_interval. msimpl.
  apply String.eqb_neq in H1, H2, H3. rewrite H1, H2, H3. reflexivity.
Qed.

(** [required_interval] always returns one of the two configured intervals
    and assigns nothing but the counters of the statistics. *)
Lemma required_interval_effect (t : datetime) (m : DailyProfitManager) (w : World) :
  exists req m' w',
    required_interval t (m, w) = (Ret req, (m', w')) /\
    (req = min_trade_interval_normal (config m) \/
     req = min_trade_interval_aggressive (config m)) /\
    same_day_state m m' /\ env_kept w w' /\
    target_events (log w') = target_events (log w).
Proof.
  assert (Hsame : same_day_state m m) by (repeat split).
  assert (Hk : env_kept w w) by env_tac.
  destruct (String.eqb (pacing_mode (config m)) "aggressive") eqn:E1.
  { apply String.eqb_eq in E1. rewrite required_interval_aggressive by assumption. eauto 10. }
  destruct (String.eqb (pacing_mode (config m)) "gentle") eqn:E2.
  { apply String.eqb_eq in E2. rewrite required_interval_gentle by assumption. eauto 10. }
  destruct (String.eqb (pacing_mode (config m)) "adaptive") eqn:E3.
  - apply String.eqb_eq in E3.
    destruct (get_daily_stats_effect m w) as (stats & m' & w' & Hs & Hm & Hk' & Hl).
    rewrite (required_interval_adaptive t m w stats _ E3 Hs).
    eexists _, m', w'. split; [reflexivity|].
    split; [destruct (flt _ _); auto|].
    split; [destruct Hm as [->|(ds & _ & _ & ->)]; repeat split|].
    split; [assumption|].
    destruct Hl as [->|[e ->]]; [reflexivity|].
    log_tac.
  - apply String.eqb_neq in E1, E2, E3.
    rewrite required_interval_other by assumption. eauto 10.
Qed.

Lemma after_rollover_rolled (m : DailyProfitManager) (w : World) :
  Calendar.date_gtb (dt_date (reading w)) (last_reset_date m) = true ->
  after_rollover (m, w)
  = (reset_manager m (dt_date (clock w (S (ticks w)))),
     tick (append_log (INFO, MsgMidnightReset) (tick w))).
Proof. intros H. unfold after_rollover. cbn [fst snd]. rewrite H. reflexivity. Qed.

Lemma after_rollover_same (m : DailyProfitManager) (w : World) :
  Calendar.date_gtb (dt_date (reading w)) (last_reset_date m) = false ->
  after_rollover (m, w) = (m, tick w).
Proof. intros H. unfold after_rollover. cbn [fst snd]. rewrite H. reflexivity. Qed.

Lemma after_rollover_config (m : DailyProfitManager) (w : World) :
  config (fst (after_rollover (m, w))) = config m.
Proof.
  unfold after_rollover. cbn [fst snd]. destruct (Calendar.date_gtb _ _); reflexivity.
Qed.

Lemma should_allow_trading_gate (m : DailyProfitManager) (w : World) :
  should_allow_trading (m, w) = gate (reading w) (after_rollover (m, w)).
Proof.
  unfold should_allow_trading, after_rollover, reading. msimpl.
  destruct (Calendar.date_gtb _ _).
  - rewrite reset_daily_state_run. reflexivity.
  - reflexivity.
Qed.

(** Target reached: the first check. *)
Lemma gate_target_reached (t : datetime) (m : DailyProfitManager) (w : World) :
  daily_target_reached m = true ->
  gate t (m, w) = (Ret (false, TargetReachedPaused (gross_profit_today m)), (m, w)).
Proof. intros H. unfold gate. msimpl. rewrite H. reflexivity. Qed.

(** Friday close: the second check. *)
Lemma gate_friday_closed (t : datetime) (m : DailyProfitManager) (w : World) :
  daily_target_reached m = false ->
  friday_closed (config m) t = true ->
  gate t (m, w) = (Ret (false, FridayClosed (friday_close_hour (config m))), (m, w)).
Proof. intros H1 H2. unfold gate. msimpl. rewrite H1, H2. reflexivity. Qed.

(** No pacing to check: allowed. *)
Lemma gate_no_pacing (t : datetime) (m : DailyProfitManager) (w : World) :
  daily_target_reached m = false ->
  friday_closed (config m) t = false ->
  enable_pacing (config m) = false \/ last_trade_time m = None ->
  gate t (m, w) = (Ret (true, TradingAllowed), (m, w)).
Proof.
  intros H1 H2 H3. unfold gate. msimpl. rewrite H1, H2.
  destruct H3 as [-> | ->]; [reflexivity|].
  destruct (enable_pacing _); reflexivity.
Qed.

(** The pacing check: the third check. *)
Lemma gate_pacing (t last : datetime) (m : DailyProfitManager) (w : World)
    (required : Z) (s2 : Sys) :
  daily_target_reached m = false ->
  friday_closed (config m) t = false ->
  enable_pacing (config m) = true ->
  last_trade_time m = Some last ->
  required_interval t (m, w) = (Ret required, s2) ->
  gate t (m, w)
  = if lt_Z (seconds_since t last) required then
      match of_int required with
      | Ret r =>
          match py_int (fsub r (seconds_since t last)) with
          | Ret wait => (Ret (false, PacingWait wait (pacing_mode (config m))), s2)
          | Raise e => (Raise e, s2)
          end
      | Raise e => (Raise e, s2)
      end
    else (Ret (true, TradingAllowed), s2).
Proof.
  intros H1 H2 H3 H4 H5. unfold gate. msimpl. rewrite H1, H2, H3, H4. msimpl.
  rewrite H5. destruct (lt_Z _ _); [|reflexivity].
  destruct (of_int required); [|reflexivity].
  destruct (py_int _); reflexivity.
Qed.

(** Too early: the pacing check denies, and the reason carries the whole
    seconds left to wait. *)
Lemma gate_pacing_denies (t last : datetime) (m : DailyProfitManager) (w : World)
    (required : Z) (s2 : Sys) :
  daily_target_reached m = false ->
  friday_closed (config m) t = false ->
  enable_pacing (config m) = true ->
  last_trade_time m = Some last ->
  required_interval t (m, w) = (Ret required, s2) ->
  lt_Z (seconds_since t last) required = true ->
  Calendar.valid_datetime t = true ->
  Calendar.valid_datetime last = true ->
  Z.abs required < 2 ^ 62 ->
  exists wait,
    py_int (fsub (of_Z required) (seconds_since t last)) = Ret wait /\
    gate t (m, w) = (Ret (false, PacingWait wait (pacing_mode (config m))), s2).
Proof.
  intros H1 H2 H3 H4 H5 H6 Ht Hl Hr.
  destruct (pacing_wait_defined t last required Ht Hl Hr) as (wait & Hoi & Hw).
  exists wait. split; [assumption|].
  rewrite (gate_pacing t last m w required s2) by assumption.
  rewrite H6, Hoi, Hw. reflexivity.
Qed.

(** Long enough: the pacing check allows. *)
Lemma gate_pacing_allows (t last : datetime) (m : DailyProfitManager) (w : World)
    (required : Z) (s2 : Sys) :
  daily_target_reached m = false ->
  friday_closed (config m) t = false ->
  enable_pacing (config m) = true ->
  last_trade_time m = Some last ->
  required_interval t (m, w) = (Ret required, s2) ->
  lt_Z (seconds_since t last) required = false ->
  gate t (m, w) = (Ret (true, TradingAllowed), s2).
Proof.
  intros H1 H2 H3 H4 H5 H6.
  rewrite (gate_pacing t last m w required s2) by assumption.
  rewrite H6. reflexivity.
Qed.

Lemma ge_Z_not_lt (x : float) (n : Z) : ge_Z x n = true -> lt_Z x n = false.
Proof.
  unfold lt_Z, ge_Z. destruct x as [s|s| |s m e]; try discriminate.
  - rewrite Z.leb_le, Z.ltb_ge. trivial.
  - destruct s; [discriminate|reflexivity].
  - destruct e; rewrite Z.leb_le, Z.ltb_ge; trivial.
Qed.

(** Outside the Friday close, no outcome of the gate is a Friday denial. *)
Lemma gate_not_friday (t : datetime) (m : DailyProfitManager) (w : World) :
  friday_closed (config m) t = false ->
  forall b h, fst (gate t (m, w)) <> Ret (b, FridayClosed h).
Proof.
  intros H b h.
  destruct (daily_target_reached m) eqn:Hf.
  { rewrite gate_target_reached by assumption. discriminate. }
  destruct (enable_pacing (config m)) eqn:Hp;
    [|rewrite gate_no_pacing by auto; discriminate].
  destruct (last_trade_time m) as [last|] eqn:Hl;
    [|rewrite gate_no_pacing by auto; discriminate].
  destruct (required_interval_effect t m w) as (req & m' & w' & Hr & _).
  rewrite (gate_pacing t last m w req _ Hf H Hp Hl Hr).
  destruct (lt_Z _ _); [|discriminate].
  destruct (of_int req); [|discriminate].
  destruct (py_int _); discriminate.
Qed.

(** C1. [should_allow_trading] decides in this order. (a) It reads the
    clock and, when the date read is past the stored reset date, resets
    the daily state first; the checks then run in the state that leaves.
    (b) With the target flag set it denies, the reason being the target
    reached. (c) Otherwise, on a Friday at or after the configured close
    hour, it denies with the Friday reason; with a close hour of 22 it
    does so at Friday 22:05, and at Friday 21:59 no outcome is a Friday
    denial. (d) Otherwise, with pacing enabled and a last trade time, it
    obtains the required interval and denies when the seconds elapsed are
    below it. (e) Otherwise it allows. *)
Theorem should_allow_trading_priority (m : DailyProfitManager) (w : World) :
  let t := reading w in
  let s1 := after_rollover (m, w) in
  let m1 := fst s1 in
  let c := config m in
  (should_allow_trading (m, w) = gate t s1 /\
   (Calendar.date_gtb (dt_date t) (last_reset_date m) = true ->
    s1 = snd (reset_daily_state (m, tick w)) /\
    m1 = mkManager c false (dt_date (clock w (S (ticks w)))) 0 zero zero zero None) /\
   (Calendar.date_gtb (dt_date t) (last_reset_date m) = false -> s1 = (m, tick w))) /\
  (daily_target_reached m1 = true ->
   should_allow_trading (m, w)
   = (Ret (false, TargetReachedPaused (gross_profit_today m1)), s1)) /\
  ((daily_target_reached m1 = false ->
    Calendar.weekday (dt_date t) = 4 -> friday_close_hour c <= hour t ->
    should_allow_trading (m, w) = (Ret (false, FridayClosed (friday_close_hour c)), s1)) /\
   (daily_target_reached m1 = false -> friday_close_hour c = 22 ->
    Calendar.weekday (dt_date t) = 4 -> hour t = 22 -> minute t = 5 ->
    should_allow_trading (m, w) = (Ret (false, FridayClosed 22), s1)) /\
   (friday_close_hour c = 22 ->
    Calendar.weekday (dt_date t) = 4 -> hour t = 21 -> minute t = 59 ->
    forall b h, fst (should_allow_trading (m, w)) <> Ret (b, FridayClosed h))) /\
  (daily_target_reached m1 = false -> friday_closed c t = false ->
   enable_pacing c = true ->
   forall last, last_trade_time m1 = Some last ->
   exists required s2,
     required_interval t s1 = (Ret required, s2) /\
     (lt_Z (seconds_since t last) required = true ->
      Calendar.valid_datetime t = true -> Calendar.valid_datetime last = true ->
      intervals_in_range c ->
      exists wait,
        should_allow_trading (m, w)
        = (Ret (false, PacingWait wait (pacing_mode c)), s2)) /\
     (lt_Z (seconds_since t last) required = false ->
      should_allow_trading (m, w) = (Ret (true, TradingAllowed), s2))) /\
  (daily_target_reached m1 = false -> friday_closed c t = false ->
   enable_pacing c = false \/ last_trade_time m1 = None ->
   should_allow_trading (m, w) = (Ret (true, TradingAllowed), s1)).
Proof.
  intros t s1 m1 c.
  pose proof (should_allow_trading_gate m w) as Hg. fold t s1 in Hg.
  assert (Hc : config m1 = c) by apply after_rollover_config.
  assert (Hs1 : s1 = (m1, snd s1)) by (destruct s1; reflexivity).
  assert (Hclosed : Calendar.weekday (dt_date t) = 4 -> friday_close_hour c <= hour t ->
                    friday_closed c t = true).
  { intros Hw Hh. unfold friday_closed. rewrite Hw.
    apply andb_true_intro. split; [reflexivity|apply Z.leb_le; assumption]. }
  split; [|split; [|split; [|split]]].
  - split; [exact Hg|]. split.
    + intros Hd. subst m1 s1. rewrite after_rollover_rolled by assumption.
      rewrite reset_daily_state_run. split; reflexivity.
    + intros Hd. apply after_rollover_same. assumption.
  - intros Hf. rewrite Hg, Hs1. rewrite gate_target_reached by assumption.
    rewrite <- Hs1. reflexivity.
  - split; [|split].
    + intros Hf Hw Hh. rewrite Hg, Hs1.
      rewrite gate_friday_closed by (rewrite ?Hc; auto).
      rewrite Hc, <- Hs1. reflexivity.
    + intros Hf H22 Hw Hh Hmin. rewrite Hg, Hs1.
      rewrite gate_friday_closed by (rewrite ?Hc; auto; apply Hclosed; lia).
      rewrite Hc, H22, <- Hs1. reflexivity.
    + intros H22 Hw Hh Hmin b h. rewrite Hg, Hs1.
      apply gate_not_friday. rewrite Hc. unfold friday_closed.
      apply andb_false_intro2. apply Z.leb_gt. lia.
  - intros Hf Hfri Hp last Hl.
    destruct (required_interval_effect t m1 (snd s1)) as (req & m' & w' & Hr & Hreq & _).
    rewrite <- Hs1 in Hr. exists req, (m', w'). split; [exact Hr|]. split.
    + intros Hlt Ht Hlast [Hn Ha].
      assert (Hreq' : Z.abs req < 2 ^ 62) by (rewrite Hc in Hreq; destruct Hreq; subst; assumption).
      rewrite Hs1 in Hr.
      destruct (gate_pacing_denies t last m1 (snd s1) req (m', w')) as (wait & _ & Hgate);
        rewrite ?Hc; auto.
      exists wait. rewrite Hg, Hs1, Hgate, Hc. reflexivity.
    + intros Hlt. rewrite Hs1 in Hr. rewrite Hg, Hs1.
      apply (gate_pacing_allows t last m1 (snd s1) req (m', w')); rewrite ?Hc; auto.
  - intros Hf Hfri Hno. rewrite Hg, Hs1.
    rewrite gate_no_pacing by (rewrite ?Hc; auto). rewrite <- Hs1. reflexivity.
Qed.

(** C4. At the pacing check of [should_allow_trading] (no rollover reset
    of the last trade time, target flag clear, no Friday close, pacing
    enabled, a last trade time): the required interval is the aggressive
    one in mode "aggressive", the normal one in mode "gentle", and in mode
    "adaptive" the aggressive one exactly when the target percentage of the
    statistics is below the expected progress, (hour + minute/60)/24*100,
    times the adaptive threshold, else the normal one. The call denies
    with the whole seconds of (required - elapsed) in the reason when the
    elapsed seconds are below the required interval, and allows when they
    are at or above it. In gentle mode with a normal interval of 180
    seconds, 100 seconds after the last trade it denies with 80 seconds to
    wait, and 181 seconds after it allows. *)
Theorem pacing_interval_and_wait (m : DailyProfitManager) (w : World) (last : datetime) :
  let t := reading w in
  let s1 := after_rollover (m, w) in
  let m1 := fst s1 in
  let c := config m in
  let elapsed := seconds_since t last in
  daily_target_reached m1 = false ->
  friday_closed c t = false ->
  enable_pacing c = true ->
  last_trade_time m1 = Some last ->
  exists required s2,
    required_interval t s1 = (Ret required, s2) /\
    (pacing_mode c = "aggressive" ->
     required = min_trade_interval_aggressive c /\ s2 = s1) /\
    (pacing_mode c = "gentle" ->
     required = min_trade_interval_normal c /\ s2 = s1) /\
    (pacing_mode c = "adaptive" ->
     exists stats,
       get_daily_stats s1 = (Ret stats, s2) /\
       required
       = if flt (target_percentage stats)
                (fmul (fmul (fdiv (fadd (of_Z (hour t))
                                        (fdiv (of_Z (minute t)) (of_Z 60)))
                                  (of_Z 24))
                            (of_Z 100))
                      (adaptive_threshold c))
         then min_trade_interval_aggressive c
         else min_trade_interval_normal c) /\
    (lt_Z elapsed required = true ->
     Calendar.valid_datetime t = true -> Calendar.valid_datetime last = true ->
     intervals_in_range c ->
     exists wait,
       py_int (fsub (of_Z required) elapsed) = Ret wait /\
       should_allow_trading (m, w)
       = (Ret (false, PacingWait wait (pacing_mode c)), s2)) /\
    (ge_Z elapsed required = true ->
     should_allow_trading (m, w) = (Ret (true, TradingAllowed), s2)) /\
    (pacing_mode c = "gentle" -> min_trade_interval_normal c = 180 ->
     (Calendar.sub t last = 100 * 1000000 ->
      should_allow_trading (m, w) = (Ret (false, PacingWait 80 "gentle"), s1)) /\
     (Calendar.sub t last = 181 * 1000000 ->
      should_allow_trading (m, w) = (Ret (true, TradingAllowed), s1))).
Proof.
  intros t s1 m1 c elapsed Hf Hfri Hp Hl.
  pose proof (should_allow_trading_gate m w) as Hg. fold t s1 in Hg.
  assert (Hc : config m1 = c) by apply after_rollover_config.
  assert (Hs1 : s1 = (m1, snd s1)) by (destruct s1; reflexivity).
  rewrite <- Hc in Hfri, Hp.
  destruct (required_interval_effect t m1 (snd s1)) as (req & m' & w' & Hr & Hreq & _).
  pose proof (gate_pacing t last m1 (snd s1) req (m', w') Hf Hfri Hp Hl Hr) as Hgate.
  rewrite <- Hs1 in Hr, Hgate. rewrite <- Hg in Hgate. fold elapsed in Hgate.
  exists req, (m', w'). split; [exact Hr|].
  split; [|split; [|split; [|split; [|split]]]].
  - intros Hm. rewrite Hs1 in Hr.
    rewrite required_interval_aggressive in Hr by (rewrite Hc; assumption).
    rewrite <- Hs1 in Hr. inversion Hr. rewrite Hc. split; reflexivity.
  - intros Hm. rewrite Hs1 in Hr.
    rewrite required_interval_gentle in Hr by (rewrite Hc; assumption).
    rewrite <- Hs1 in Hr. inversion Hr. rewrite Hc. split; reflexivity.
  - intros Hm.
    destruct (get_daily_stats_effect m1 (snd s1)) as (stats & ms & ws & Hs & _).
    rewrite Hs1 in Hr.
    rewrite (required_interval_adaptive t m1 (snd s1) stats (ms, ws)) in Hr
      by (rewrite ?Hc; assumption).
    inversion Hr. subst. exists stats. rewrite Hs1, Hs, Hc. split; reflexivity.
  - intros Hlt Ht Hlast [Hn Ha].
    assert (Hreq' : Z.abs req < 2 ^ 62)
      by (rewrite Hc in Hreq; destruct Hreq; subst; assumption).
    destruct (pacing_wait_defined t last req Ht Hlast Hreq') as (wait & Hoi & Hw).
    exists wait. split; [exact Hw|].
    rewrite Hgate, Hlt, Hoi. fold elapsed in Hw. rewrite Hw, Hc. reflexivity.
  - intros Hge. rewrite Hgate, (ge_Z_not_lt _ _ Hge). reflexivity.
  - intros Hm H180.
    rewrite Hs1 in Hr.
    rewrite required_interval_gentle in Hr by (rewrite Hc; assumption).
    rewrite <- Hs1 in Hr. inversion Hr as [[Hreq2 Hs2]]. rewrite Hc, H180 in Hreq2.
    rewrite Hgate. subst elapsed. unfold seconds_since. rewrite Hs2.
    replace (pacing_mode (config m1)) with "gentle" by (rewrite Hc; auto).
    split; intros ->; rewrite <- Hreq2; vm_compute; reflexivity.
Qed.

Lemma pacing_interval_and_wait_witness :
  (let m := set_last_trade_time (Some (Sample.at_time Sample.wednesday 10 0 0))
             (Sample.manager "gentle" Sample.wednesday) in
   let w := Sample.world (Sample.at_time Sample.wednesday 10 1 40) QueryNone in
   should_allow_trading (m, w) = (Ret (false, PacingWait 80 "gentle"), (m, tick w))) /\
  (let m := set_last_trade_time (Some (Sample.at_time Sample.wednesday 10 0 0))
             (Sample.manager "adaptive" Sample.wednesday) in
   let w := Sample.world (Sample.at_time Sample.wednesday 10 1 40) QueryNone in
   fst (should_allow_trading (m, w)) = Ret (true, TradingAllowed)) /\
  (let m := set_last_trade_time (Some (Sample.at_time Sample.wednesday 0 0 10))
             (Sample.manager "adaptive" Sample.wednesday) in
   let w := Sample.world (Sample.at_time Sample.wednesday 0 0 50) QueryNone in
   fst (should_allow_trading (m, w)) = Ret (false, PacingWait 140 "adaptive")).
Proof.
  cbv zeta. split; [|split].
  - destruct (pacing_interval_and_wait
              (set_last_trade_time (Some (Sample.at_time Sample.wednesday 10 0 0))
                 (Sample.manager "gentle" Sample.wednesday))
              (Sample.world (Sample.at_time Sample.wednesday 10 1 40) QueryNone)
              (Sample.at_time Sample.wednesday 10 0 0)
              eq_refl eq_refl eq_refl eq_refl)
      as (required & s2 & _ & _ & _ & _ & _ & _ & Hex).
    destruct (Hex eq_refl eq_refl) as [H100 _].
    exact (H100 eq_refl).
  - destruct (pacing_interval_and_wait
              (set_last_trade_time (Some (Sample.at_time Sample.wednesday 10 0 0))
                 (Sample.manager "adaptive" Sample.wednesday))
              (Sample.world (Sample.at_time Sample.wednesday 10 1 40) QueryNone)
              (Sample.at_time Sample.wednesday 10 0 0)
              eq_refl eq_refl eq_refl eq_refl)
      as (required & s2 & _ & _ & _ & Had & _ & Hallow & _).
    destruct (Had eq_refl) as (stats & Hs & Hreq).
    vm_compute in Hs. injection Hs as <- <-.
    vm_compute in Hreq. subst required.
    rewrite Hallow by (vm_compute; reflexivity). reflexivity.
  - destruct (pacing_interval_and_wait
              (set_last_trade_time (Some (Sample.at_time Sample.wednesday 0 0 10))
                 (Sample.manager "adaptive" Sample.wednesday))
              (Sample.world (Sample.at_time Sample.wednesday 0 0 50) QueryNone)
              (Sample.at_time Sample.wednesday 0 0 10)
              eq_refl eq_refl eq_refl eq_refl)
      as (required & s2 & _ & _ & _ & Had & Hdeny & _ & _).
    destruct (Had eq_refl) as (stats & Hs & Hreq).
    vm_compute in Hs. injection Hs as <- <-.
    vm_compute in Hreq. subst required.
    destruct Hdeny as (wait & Hw & Hrun).
    + vm_compute; reflexivity.
    + reflexivity.
    + reflexivity.
    + split; vm_compute; reflexivity.
    + rewrite Hrun. vm_compute in Hw. injection Hw as <-. reflexivity.
Defined.

(** ** What each call leaves of the day *)

Lemma quiet_step_refl (s : Sys) : quiet_step s s.
Proof. repeat split; auto. Qed.

Lemma quiet_step_trans (s1 s2 s3 : Sys) :
  quiet_step s1 s2 -> quiet_step s2 s3 -> quiet_step s1 s3.
Proof.
  intros (A1 & A2 & A3 & A4) (B1 & B2 & B3 & B4).
  split; [congruence|]. split; [congruence|]. split; [congruence|].
  destruct A4 as [[Af Ad]|[Af [k Hk]]], B4 as [[Bf Bd]|[Bf [k' Hk']]].
  - left. split; congruence.
  - right. split; [assumption|]. exists k'. rewrite <- A2, <- Ad. assumption.
  - right. split; [congruence|]. exists k. assumption.
  - right. split; [assumption|]. exists k. assumption.
Qed.

(** Steps that keep the object's configuration, flag and reset date and add
    no target line are quiet. *)
Lemma quiet_step_same (m m' : DailyProfitManager) (w w' : World) :
  config m' = config m ->
  daily_target_reached m' = daily_target_reached m ->
  last_reset_date m' = last_reset_date m ->
  clock w' = clock w ->
  target_events (log w') = target_events (log w) ->
  quiet_step (m, w) (m', w').
Proof. intros. repeat split; auto. Qed.

Lemma get_daily_stats_quiet (s : Sys) (r : result Stats) (s' : Sys) :
  get_daily_stats s = (r, s') -> quiet_step s s'.
Proof.
  destruct s as [m w]. intros H.
  destruct (get_daily_stats_effect m w) as (stats & m' & w' & Hs & Hm & Hk & Hl).
  rewrite Hs in H. inversion H; subst. destruct Hk as (Hclk & _).
  apply quiet_step_same; auto.
  - destruct Hm as [->|(ds & _ & _ & ->)]; reflexivity.
  - destruct Hm as [->|(ds & _ & _ & ->)]; reflexivity.
  - destruct Hm as [->|(ds & _ & _ & ->)]; reflexivity.
  - destruct Hl as [->|[e ->]]; [reflexivity|].
    log_tac.
Qed.

Lemma required_interval_quiet (t : datetime) (s : Sys) (r : result Z) (s' : Sys) :
  required_interval t s = (r, s') -> quiet_step s s'.
Proof.
  destruct s as [m w]. intros H.
  destruct (required_interval_effect t m w)
    as (req & m' & w' & Hr & _ & (Hc & Hf & Hd & _) & (Hclk & _) & Hl).
  rewrite Hr in H. inversion H; subst.
  apply quiet_step_same; auto.
Qed.

Lemma gate_quiet (t : datetime) (s : Sys) (r : result (bool * reason)) (s' : Sys) :
  gate t s = (r, s') -> quiet_step s s'.
Proof.
  destruct s as [m w]. intros H.
  destruct (daily_target_reached m) eqn:Hf.
  { rewrite gate_target_reached in H by assumption. inversion H. apply quiet_step_refl. }
  destruct (friday_closed (config m) t) eqn:Hfri.
  { rewrite gate_friday_closed in H by assumption. inversion H. apply quiet_step_refl. }
  destruct (enable_pacing (config m)) eqn:Hp;
    [|rewrite gate_no_pacing in H by auto; inversion H; apply quiet_step_refl].
  destruct (last_trade_time m) as [last|] eqn:Hl;
    [|rewrite gate_no_pacing in H by auto; inversion H; apply quiet_step_refl].
  destruct (required_interval t (m, w)) as [[req|e] s2] eqn:Hr.
  - rewrite (gate_pacing t last m w req s2) in H by assumption.
    apply required_interval_quiet in Hr.
    destruct (lt_Z _ _); [|inversion H; subst; assumption].
    destruct (of_int req); [|inversion H; subst; assumption].
    destruct (py_int _); inversion H; subst; assumption.
  - destruct (required_interval_effect t m w) as (req & m' & w' & Hr' & _).
    rewrite Hr' in Hr. discriminate.
Qed.

Lemma after_rollover_quiet (s : Sys) : quiet_step s (after_rollover s).
Proof.
  destruct s as [m w].
  destruct (Calendar.date_gtb (dt_date (reading w)) (last_reset_date m)) eqn:Hd.
  - rewrite after_rollover_rolled by assumption.
    split; [reflexivity|]. split; [reflexivity|].
    split; [log_tac|].
    right. split; [reflexivity|]. exists (ticks w). exact Hd.
  - rewrite after_rollover_same by assumption.
    apply quiet_step_same; reflexivity.
Qed.

Lemma should_allow_trading_quiet (s : Sys) (r : result (bool * reason)) (s' : Sys) :
  should_allow_trading s = (r, s') -> quiet_step s s'.
Proof.
  destruct s as [m w]. rewrite should_allow_trading_gate. intros H.
  eapply quiet_step_trans; [apply after_rollover_quiet|].
  eapply gate_quiet. exact H.
Qed.

Lemma get_friday_trading_hours_remaining_run (s : Sys) :
  snd (get_friday_trading_hours_remaining s) = (fst s, tick (snd s)).
Proof.
  destruct s as [m w]. unfold get_friday_trading_hours_remaining. msimpl.
  destruct (negb _); [reflexivity|].
  destruct (Calendar.replace_hour _ _); [|reflexivity].
  msimpl. destruct (Calendar.datetime_geb _ _); reflexivity.
Qed.

(** The report assigns what its [get_daily_stats] call assigns, and
    nothing else. *)
Lemma get_progress_report_state (m : DailyProfitManager) (w : World) :
  exists stats m1 w1,
    get_daily_stats (m, w) = (Ret stats, (m1, w1)) /\
    fst (snd (get_progress_report (m, w))) = m1 /\
    env_kept w1 (snd (snd (get_progress_report (m, w)))) /\
    log (snd (snd (get_progress_report (m, w)))) = log w1.
Proof.
  destruct (get_daily_stats_effect m w) as (stats & m1 & w1 & Hs & _).
  exists stats, m1, w1. split; [exact Hs|].
  unfold get_progress_report. msimpl. rewrite Hs.
  destruct (py_int _); [|split; [reflexivity|split; [env_tac|reflexivity]]].
  destruct (py_int _); [|split; [reflexivity|split; [env_tac|reflexivity]]].
  match goal with
  | |- context [get_friday_trading_hours_remaining ?s] =>
      pose proof (get_friday_trading_hours_remaining_run s) as Hfr;
      destruct (get_friday_trading_hours_remaining s) as [[h|e] s2]
  end; cbn in Hfr; subst s2; cbn; (split; [reflexivity|split; [env_tac|reflexivity]]).
Qed.

Lemma get_compact_progress_state (m : DailyProfitManager) (w : World) :
  exists stats s1,
    get_daily_stats (m, w) = (Ret stats, s1) /\
    snd (get_compact_progress (m, w)) = s1.
Proof.
  destruct (get_daily_stats_effect m w) as (stats & m1 & w1 & Hs & _).
  exists stats, (m1, w1). split; [exact Hs|].
  unfold get_compact_progress. msimpl. rewrite Hs. reflexivity.
Qed.

Lemma save_state_run (m : DailyProfitManager) (w : World) :
  save_state (m, w)
  = (Ret tt,
     (m, if disk_writable w
         then append_log (DEBUG, MsgStateSaved (state_file (config m)))
                (write_file (state_file (config m)) (JsonObject (state_dict m)) w)
         else append_log (ERROR, MsgSaveError OSError) w)).
Proof. unfold save_state. msimpl. destruct (disk_writable w); reflexivity. Qed.

Lemma update_run (m : DailyProfitManager) (w : World) :
  update (m, w)
  = if 0 <? trades_today (fst (after_rollover (m, w)))
    then save_state (after_rollover (m, w))
    else (Ret tt, after_rollover (m, w)).
Proof.
  unfold update, after_rollover, reading. msimpl.
  destruct (Calendar.date_gtb _ _).
  - rewrite reset_daily_state_run. msimpl. reflexivity.
  - msimpl. destruct (0 <? trades_today m); reflexivity.
Qed.

Lemma save_state_quiet (s : Sys) : quiet_step s (snd (save_state s)).
Proof.
  destruct s as [m w]. rewrite save_state_run. cbn [snd].
  apply quiet_step_same; auto; destruct (disk_writable w); try reflexivity; log_tac.
Qed.

Lemma update_quiet (s : Sys) : quiet_step s (snd (update s)).
Proof.
  destruct s as [m w]. rewrite update_run.
  destruct (0 <? _).
  - eapply quiet_step_trans; [apply after_rollover_quiet|apply save_state_quiet].
  - apply after_rollover_quiet.
Qed.

(** [check_target_reached] after its statistics: the answer is whether the
    gross profit of the statistics is at or above the target; the flag is
    set, and the four target lines logged, when the answer is yes and the
    flag was clear. *)
Lemma check_target_reached_run (m : DailyProfitManager) (w : World)
    (stats : Stats) (m1 : DailyProfitManager) (w1 : World) :
  get_daily_stats (m, w) = (Ret stats, (m1, w1)) ->
  let reached := fle (daily_target_gross (config m1)) (gross_profit stats) in
  check_target_reached (m, w)
  = (Ret (reached, stats),
     if reached && negb (daily_target_reached m1)
     then (set_daily_target_reached true m1,
           append_log (INFO, MsgTargetNet (net_profit stats))
             (append_log (INFO, MsgTargetFees (total_fees stats))
                (append_log (INFO, MsgTargetGross (gross_profit stats))
                   (append_log (INFO, MsgTargetReached) w1))))
     else (m1, w1)).
Proof.
  intros Hs reached. unfold check_target_reached. msimpl. rewrite Hs.
  subst reached. cbn [fst snd].
  destruct (fle _ _ && negb (daily_target_reached m1)); reflexivity.
Qed.

Lemma should_pause_trading_run (s : Sys) :
  should_pause_trading s
  = match check_target_reached s with
    | (Ret (reached, _), s') => (Ret reached, s')
    | (Raise e, s') => (Raise e, s')
    end.
Proof.
  unfold should_pause_trading. msimpl.
  destruct (check_target_reached s) as [[[b st]|e] s']; reflexivity.
Qed.

(** Every call but the two that run [check_target_reached], the start-up
    load and the explicit reset is a quiet step. *)
Lemma run_call_quiet (c : call) (s : Sys) :
  checks_target c = false -> is_restore c = false ->
  quiet_step s (snd (run_call c s)).
Proof.
  intros Hc Hr. destruct c; try discriminate; unfold run_call, returning; msimpl.
  - rewrite calculate_trade_fee_run. apply quiet_step_refl.
  - destruct (get_daily_stats s) as [[st|e] s'] eqn:H;
      apply get_daily_stats_quiet in H; exact H.
  - destruct (should_allow_trading s) as [[st|e] s'] eqn:H;
      apply should_allow_trading_quiet in H; exact H.
  - pose proof (get_friday_trading_hours_remaining_run s) as H.
    destruct (get_friday_trading_hours_remaining s) as [[h|e] s']; cbn in H; subst s';
      destruct s as [m w]; apply quiet_step_same; reflexivity.
  - destruct s as [m w]. rewrite record_trade_run. cbn.
    apply quiet_step_same; try reflexivity. log_tac.
  - destruct s as [m w].
    destruct (get_progress_report_state m w)
      as (stats & m1 & w1 & Hs & Hm & (Hclk & _) & Hl).
    apply get_daily_stats_quiet in Hs. destruct Hs as (A1 & A2 & A3 & A4).
    destruct (get_progress_report (m, w)) as [[rep|e] [m' w']];
      cbn in Hm, Hclk, Hl; subst m'; unfold quiet_step; cbn [fst snd] in *;
      (split; [assumption|split; [congruence|split; [congruence|assumption]]]).
  - destruct s as [m w].
    destruct (get_compact_progress_state m w) as (stats & s1 & Hs & Hm).
    apply get_daily_stats_quiet in Hs.
    destruct (get_compact_progress (m, w)) as [[rep|e] s']; cbn in Hm; subst s'; exact Hs.
  - pose proof (save_state_quiet s) as H.
    destruct (save_state s) as [[[]|e] s']; exact H.
  - pose proof (update_quiet s) as H.
    destruct (update s) as [[[]|e] s']; exact H.
  - destruct s as [m w]. apply quiet_step_same; try reflexivity. log_tac.
  - destruct s as [m w]. unfold track_trade_close. msimpl. rewrite record_trade_run.
    cbn. apply quiet_step_same; try reflexivity. log_tac.
Qed.

(** ** The target flag over a day *)

Lemma check_target_reached_keeps (d : date) (clk : nat -> datetime) (n : nat) (s : Sys) :
  reached_on d clk n s ->
  exists b stats s', check_target_reached s = (Ret (b, stats), s') /\ reached_on d clk n s'.
Proof.
  destruct s as [m w]. intros (Hf & Hd & Hclk & Hn). cbn [fst snd] in *.
  destruct (get_daily_stats_effect m w) as (stats & m1 & w1 & Hs & Hm & (Hk & _) & Hl).
  rewrite (check_target_reached_run m w stats m1 w1 Hs). cbv zeta.
  assert (Hf1 : daily_target_reached m1 = true)
    by (destruct Hm as [->|(ds & _ & _ & ->)]; assumption).
  assert (Hd1 : last_reset_date m1 = d)
    by (destruct Hm as [->|(ds & _ & _ & ->)]; assumption).
  rewrite Hf1, andb_false_r.
  eexists _, stats, (m1, w1). split; [reflexivity|].
  split; [assumption|]. split; [assumption|]. split; [cbn; congruence|].
  cbn [fst snd]. destruct Hl as [->|[e ->]]; [assumption|]. log_tac.
Qed.

Lemma host_call_keeps_target (d : date) (clk : nat -> datetime) (n : nat)
    (c : call) (s : Sys) :
  (forall k, Calendar.date_gtb (dt_date (clk k)) d = false) ->
  is_restore c = false ->
  reached_on d clk n s ->
  reached_on d clk n (snd (run_call c s)) /\
  (c = ShouldAllowTrading ->
   exists g, fst (run_call c s) = Ret (VGate (false, TargetReachedPaused g))).
Proof.
  intros Hday Hr Hinv.
  destruct (checks_target c) eqn:Hc.
  - split; [|intros ->; discriminate].
    destruct (check_target_reached_keeps d clk n s Hinv) as (b & stats & s' & Hrun & Hinv').
    destruct c; try discriminate; unfold run_call, returning; msimpl.
    + rewrite Hrun. exact Hinv'.
    + rewrite should_pause_trading_run, Hrun. exact Hinv'.
  - pose proof (run_call_quiet c s Hc Hr) as (Q1 & Q2 & Q3 & Q4).
    destruct Hinv as (Hf & Hd & Hclk & Hn).
    split.
    + destruct Q4 as [[Qf Qd]|[_ [k Hk]]].
      * split; [congruence|]. split; [congruence|]. split; congruence.
      * rewrite Hclk, Hd, Hday in Hk. discriminate.
    + intros ->. destruct s as [m w]. cbn [fst snd] in *.
      unfold run_call, returning. msimpl.
      rewrite should_allow_trading_gate.
      rewrite after_rollover_same
        by (unfold reading; rewrite Hclk, Hd; apply Hday).
      rewrite gate_target_reached by assumption. cbn. eauto.
Qed.

Lemma run_trace_keeps_target (d : date) (clk : nat -> datetime) (n : nat)
    (tr : list event) :
  (forall k, Calendar.date_gtb (dt_date (clk k)) d = false) ->
  forallb host_event tr = true ->
  forall s, reached_on d clk n s ->
  reached_on d clk n (snd (run_trace tr s)) /\
  forall r, In (ShouldAllowTrading, r) (fst (run_trace tr s)) ->
            exists g, r = Ret (VGate (false, TargetReachedPaused g)).
Proof.
  intros Hday. induction tr as [|e tr IH]; intros Hhost s Hinv.
  - cbn. split; [assumption|]. intros r [].
  - cbn [forallb] in Hhost. apply andb_true_split in Hhost. destruct Hhost as [He Htr].
    destruct e as [c|h|p fc|b]; cbn [run_trace].
    + cbn in He. apply negb_true_iff in He.
      destruct (host_call_keeps_target d clk n c s Hday He Hinv) as [Hinv' Hgate].
      destruct (run_call c s) as [r s'] eqn:Hrun. cbn [fst snd] in *.
      destruct (IH Htr s' Hinv') as [Hinv'' Hall].
      destruct (run_trace tr s') as [rs s''] eqn:Htrace. cbn [fst snd] in *.
      split; [assumption|].
      intros r0 [Heq|Hin].
      * inversion Heq; subst. apply Hgate. reflexivity.
      * apply Hall. assumption.
    + apply IH; [assumption|]. destruct s, Hinv as (? & ? & ? & ?). repeat split; assumption.
    + apply IH; [assumption|]. destruct s, Hinv as (? & ? & ? & ?). repeat split; assumption.
    + apply IH; [assumption|]. destruct s, Hinv as (? & ? & ? & ?). repeat split; assumption.
Qed.

(** C2. On a day (no reading of the clock is past the stored reset
    date), when the gross profit of the statistics is at or above the daily
    target, [check_target_reached] returns true. The target line is logged
    by that call only if the flag was clear, and the flag is set after it.
    Whatever the host calls next on that day (anything but the start-up
    load and the explicit reset, the trade history, files and disk changing
    freely in between), the flag stays set, the target line is not logged
    again, and every [should_allow_trading] call denies with the target
    reached as its reason. A call of [should_allow_trading] that reads a
    date past the stored reset date leaves the flag clear. *)
Theorem target_reached_once_per_day
    (m : DailyProfitManager) (w : World) (stats : Stats) (s1 : Sys) (tr : list event) :
  (forall k, Calendar.date_gtb (dt_date (clock w k)) (last_reset_date m) = false) ->
  forallb host_event tr = true ->
  get_daily_stats (m, w) = (Ret stats, s1) ->
  fle (daily_target_gross (config m)) (gross_profit stats) = true ->
  exists s2,
    check_target_reached (m, w) = (Ret (true, stats), s2) /\
    daily_target_reached (fst s2) = true /\
    target_events (log (snd s2))
    = (target_events (log w) + (if daily_target_reached m then 0 else 1))%nat /\
    daily_target_reached (fst (snd (run_trace tr s2))) = true /\
    target_events (log (snd (snd (run_trace tr s2)))) = target_events (log (snd s2)) /\
    (forall r, In (ShouldAllowTrading, r) (fst (run_trace tr s2)) ->
               exists g, r = Ret (VGate (false, TargetReachedPaused g))) /\
    (forall m' w',
        Calendar.date_gtb (dt_date (reading w')) (last_reset_date m') = true ->
        daily_target_reached (fst (snd (should_allow_trading (m', w')))) = false).
Proof.
  intros Hday Hhost Hs Hreached.
  destruct s1 as [m1 w1].
  destruct (get_daily_stats_effect m w) as (stats' & m1' & w1' & Hs' & Hm & (Hk & _) & Hl).
  rewrite Hs in Hs'. inversion Hs'; subst stats' m1' w1'. clear Hs'.
  assert (Hc1 : config m1 = config m)
    by (destruct Hm as [->|(ds & _ & _ & ->)]; reflexivity).
  assert (Hf1 : daily_target_reached m1 = daily_target_reached m)
    by (destruct Hm as [->|(ds & _ & _ & ->)]; reflexivity).
  assert (Hd1 : last_reset_date m1 = last_reset_date m)
    by (destruct Hm as [->|(ds & _ & _ & ->)]; reflexivity).
  assert (Hn1 : target_events (log w1) = target_events (log w))
    by (destruct Hl as [->|[e ->]]; [reflexivity|log_tac]).
  pose proof (check_target_reached_run m w stats m1 w1 Hs) as Hrun. cbv zeta in Hrun.
  rewrite Hc1, Hreached, Hf1 in Hrun. cbn [andb] in Hrun.
  eexists. split; [exact Hrun|].
  set (n := (target_events (log w) + (if daily_target_reached m then 0 else 1))%nat).
  assert (Hinv : reached_on (last_reset_date m) (clock w) n
                   (if negb (daily_target_reached m)
                    then (set_daily_target_reached true m1,
                          append_log (INFO, MsgTargetNet (net_profit stats))
                            (append_log (INFO, MsgTargetFees (total_fees stats))
                               (append_log (INFO, MsgTargetGross (gross_profit stats))
                                  (append_log (INFO, MsgTargetReached) w1))))
                    else (m1, w1))).
  { subst n. destruct (daily_target_reached m) eqn:Hf; cbn [negb];
      (split; [cbn; congruence|split; [cbn; congruence|split; [cbn; congruence|log_tac]]]). }
  destruct (run_trace_keeps_target _ _ n tr Hday Hhost _ Hinv) as [(Hf2 & _ & _ & Hn2) Hall].
  destruct Hinv as (Hf0 & _ & _ & Hn0).
  split; [exact Hf0|].
  split; [exact Hn0|].
  split; [exact Hf2|].
  split; [exact (eq_trans Hn2 (eq_sym Hn0))|].
  split; [exact Hall|].
  intros m' w' Hd.
  destruct (should_allow_trading (m', w')) as [r s'] eqn:Hsat.
  rewrite should_allow_trading_gate, after_rollover_rolled in Hsat by assumption.
  apply gate_quiet in Hsat. destruct Hsat as (_ & _ & _ & [[Hf _]|[Hf _]]); exact Hf.
Qed.

(** ** ISO 8601 text read back *)

Lemma digit_val_char (d : Z) : 0 <= d < 10 -> Iso.digit_val (Iso.digit_char d) = Some d.
Proof.
  intros H.
  assert (Hd : d = 0 \/ d = 1 \/ d = 2 \/ d = 3 \/ d = 4 \/ d = 5 \/ d = 6 \/
               d = 7 \/ d = 8 \/ d = 9) by lia.
  repeat (destruct Hd as [Hd|Hd]); subst d; reflexivity.
Qed.

(** Reading [w + k] digits off a [w]-digit number goes on with the [k]
    digits that follow it. *)
Lemma parse_digits_fmt (w : nat) :
  forall (k : nat) (n acc : Z) (rest : string),
    0 <= n < 10 ^ Z.of_nat w ->
    Iso.parse_digits (w + k) (Iso.fmt_digits w n rest) acc
    = Iso.parse_digits k rest (acc * 10 ^ Z.of_nat w + n).
Proof.
  induction w as [|w IH]; intros k n acc rest Hn.
  - cbn in *. f_equal. lia.
  - cbn [Iso.fmt_digits].
    replace (S w + k)%nat with (w + S k)%nat by lia.
    rewrite Nat2Z.inj_succ, Z.pow_succ_r in Hn by lia.
    rewrite IH by (Z.to_euclidean_division_equations; lia).
    cbn [Iso.parse_digits].
    rewrite digit_val_char by (Z.to_euclidean_division_equations; lia).
    f_equal. rewrite Nat2Z.inj_succ, Z.pow_succ_r by lia.
    Z.to_euclidean_division_equations. lia.
Qed.

Lemma parse_digits_fmt_exact (w : nat) (n : Z) (rest : string) :
  0 <= n < 10 ^ Z.of_nat w ->
  Iso.parse_digits w (Iso.fmt_digits w n rest) 0 = Some (n, rest).
Proof.
  intros H. pose proof (parse_digits_fmt w 0 n 0 rest H) as E.
  rewrite Nat.add_0_r in E. rewrite E. reflexivity.
Qed.

Lemma valid_date_fields (d : date) :
  Calendar.valid_date d = true ->
  1 <= year d <= 9999 /\ 1 <= month d <= 12 /\ 1 <= day d <= 31.
Proof.
  intros H. pose proof H as H0. unfold Calendar.valid_date in H.
  repeat (apply andb_true_split in H; destruct H as [H ?]).
  repeat match goal with
         | H : (_ <=? _) = true |- _ => apply Z.leb_le in H
         end.
  assert (Calendar.days_in_month (year d) (month d) <= 31).
  { unfold Calendar.days_in_month.
    assert (Hm : month d = 1 \/ month d = 2 \/ month d = 3 \/ month d = 4 \/
                 month d = 5 \/ month d = 6 \/ month d = 7 \/ month d = 8 \/
                 month d = 9 \/ month d = 10 \/ month d = 11 \/ month d = 12) by lia.
    repeat (destruct Hm as [Hm|Hm]); rewrite Hm;
      try destruct (Calendar.is_leap (year d)); lia. }
  lia.
Qed.

Lemma parse_date_fmt (d : date) (rest : string) :
  Calendar.valid_date d = true ->
  Iso.parse_date (Iso.fmt_date d rest) = Some (d, rest).
Proof.
  intros H. apply valid_date_fields in H. destruct H as (Hy & Hm & Hd).
  unfold Iso.parse_date, Iso.fmt_date.
  rewrite parse_digits_fmt_exact by (cbn; lia). cbn [Iso.expect Ascii.eqb Bool.eqb].
  rewrite parse_digits_fmt_exact by (cbn; lia). cbn [Iso.expect Ascii.eqb Bool.eqb].
  rewrite parse_digits_fmt_exact by (cbn; lia).
  destruct d; reflexivity.
Qed.

(** A date written by [isoformat()] reads back as midnight of that date. *)
Lemma fromisoformat_date (d : date) :
  Calendar.valid_date d = true ->
  Iso.datetime_fromisoformat (Iso.date_isoformat d) = Ret (mkdatetime d 0 0 0 0).
Proof.
  intros H. unfold Iso.datetime_fromisoformat, Iso.date_isoformat.
  rewrite parse_date_fmt by assumption. rewrite H. reflexivity.
Qed.

Lemma valid_time_fields (t : datetime) :
  Calendar.valid_datetime t = true ->
  Calendar.valid_date (dt_date t) = true /\
  0 <= hour t < 24 /\ 0 <= minute t < 60 /\ 0 <= second t < 60 /\
  0 <= microsecond t < 1000000.
Proof.
  unfold Calendar.valid_datetime, Calendar.valid_time. intros H.
  apply andb_true_split in H. destruct H as [Hd H].
  repeat (apply andb_true_split in H; destruct H as [H ?]).
  repeat match goal with
         | H : (_ <=? _) = true |- _ => apply Z.leb_le in H
         | H : (_ <? _) = true |- _ => apply Z.ltb_lt in H
         end.
  repeat split; assumption.
Qed.

(** A datetime written by [isoformat()] reads back as itself. *)
Lemma fromisoformat_datetime (t : datetime) :
  Calendar.valid_datetime t = true ->
  Iso.datetime_fromisoformat (Iso.datetime_isoformat t) = Ret t.
Proof.
  intros H. pose proof (valid_time_fields t H) as (Hd & Hh & Hmi & Hs & Hus).
  unfold Iso.datetime_fromisoformat, Iso.datetime_isoformat.
  rewrite parse_date_fmt by assumption.
  unfold Iso.parse_time.
  rewrite parse_digits_fmt_exact by (cbn; lia). cbn [Iso.expect Ascii.eqb Bool.eqb].
  rewrite parse_digits_fmt_exact by (cbn; lia). cbn [Iso.expect Ascii.eqb Bool.eqb].
  rewrite parse_digits_fmt_exact by (cbn; lia).
  destruct (microsecond t =? 0) eqn:Hz.
  - apply Z.eqb_eq in Hz. cbn [Iso.parse_fraction].
    unfold Calendar.valid_datetime in H. apply andb_true_split in H. destruct H as [_ Ht].
    rewrite Hz in Ht. rewrite Hd, Ht. cbn [andb].
    destruct t; cbn in *; subst; reflexivity.
  - cbn [Iso.parse_fraction Ascii.eqb Bool.eqb].
    rewrite parse_digits_fmt_exact by (cbn; lia).
    unfold Calendar.valid_datetime in H. apply andb_true_split in H. destruct H as [_ Ht].
    rewrite Hd, Ht. cbn [andb]. destruct t; reflexivity.
Qed.

(** ** The state file *)

Lemma date_eqb_refl (d : date) : Calendar.date_eqb d d = true.
Proof.
  unfold Calendar.date_eqb, Calendar.date_compare. rewrite !Z.compare_refl. reflexivity.
Qed.

Lemma datetime_isoformat_nonempty (t : datetime) :
  exists c s, Iso.datetime_isoformat t = String c s.
Proof. unfold Iso.datetime_isoformat, Iso.fmt_date. cbn [Iso.fmt_digits]. eauto. Qed.

(** What the keys of the dictionary [save_state] writes read back as. *)
Lemma state_dict_reads (m : DailyProfitManager) :
  get_date_text (state_dict m) = Ret (Iso.date_isoformat (last_reset_date m)) /\
  get_bool (state_dict m) "target_reached" false = Ret (daily_target_reached m) /\
  get_int (state_dict m) "trades_today" 0 = Ret (trades_today m) /\
  get_float (state_dict m) "gross_profit" zero = Ret (gross_profit_today m) /\
  get_float (state_dict m) "total_fees" zero = Ret (total_fees_today m) /\
  get_float (state_dict m) "net_profit" zero = Ret (net_profit_today m).
Proof.
  unfold get_date_text, get_bool, get_int, get_float, state_dict.
  repeat split; simplify_map_eq; reflexivity.
Qed.

Lemma state_dict_last_trade (m : DailyProfitManager) :
  (forall t, last_trade_time m = Some t -> Calendar.valid_datetime t = true) ->
  get_last_trade (state_dict m) = Ret (last_trade_time m).
Proof.
  intros Hv. unfold get_last_trade, state_dict. simplify_map_eq.
  destruct (last_trade_time m) as [t|]; [|reflexivity].
  destruct (datetime_isoformat_nonempty t) as (c & s & Hs).
  pose proof (fromisoformat_datetime t (Hv t eq_refl)) as Hr.
  rewrite Hs in *. rewrite Hr. reflexivity.
Qed.

(** [load_state] on a readable snapshot of today. *)
Lemma load_state_same_day (m : DailyProfitManager) (w : World) (d : gmap string jval)
    (text : string) (saved : datetime) (reached : bool) (trades : Z)
    (gross fees net : float) (last : option datetime) :
  files w !! state_file (config m) = Some (JsonObject d) ->
  get_date_text d = Ret text ->
  Iso.datetime_fromisoformat text = Ret saved ->
  Calendar.date_eqb (dt_date saved) (dt_date (reading w)) = true ->
  get_bool d "target_reached" false = Ret reached ->
  get_int d "trades_today" 0 = Ret trades ->
  get_float d "gross_profit" zero = Ret gross ->
  get_float d "total_fees" zero = Ret fees ->
  get_float d "net_profit" zero = Ret net ->
  get_last_trade d = Ret last ->
  load_state (m, w)
  = (Ret tt,
     (mkManager (config m) reached (last_reset_date m) trades fees gross net
                (match last with Some t => Some t | None => last_trade_time m end),
      append_log (INFO, MsgStateLoaded net trades) (tick w))).
Proof.
  intros Hfile Hdate Hparse Heq Hb Hn Hg Hf Hnet Hl.
  unfold load_state, reading in *. msimpl.
  rewrite Hfile. msimpl. rewrite Hdate. msimpl. rewrite Hparse. msimpl.
  rewrite Heq. msimpl. rewrite Hb. msimpl. rewrite Hn. msimpl. rewrite Hg. msimpl.
  rewrite Hf. msimpl. rewrite Hnet. msimpl. rewrite Hl. msimpl.
  destruct last; reflexivity.
Qed.

(** [load_state] on a readable snapshot of another day: nothing is
    assigned. *)
Lemma load_state_other_day (m : DailyProfitManager) (w : World) (d : gmap string jval)
    (text : string) (saved : datetime) :
  files w !! state_file (config m) = Some (JsonObject d) ->
  get_date_text d = Ret text ->
  Iso.datetime_fromisoformat text = Ret saved ->
  Calendar.date_eqb (dt_date saved) (dt_date (reading w)) = false ->
  load_state (m, w) = (Ret tt, (m, append_log (INFO, MsgStateOtherDate) (tick w))).
Proof.
  intros Hfile Hdate Hparse Hne.
  unfold load_state, reading in *. msimpl.
  rewrite Hfile. msimpl. rewrite Hdate. msimpl. rewrite Hparse. msimpl.
  rewrite Hne. reflexivity.
Qed.

(** C7. A state saved on its day and loaded on that day gives back the
    target flag, the trade count, the gross profit, the fees, the net
    profit and the last trade time that were saved: into the object that
    saved them, and into any object whose last trade time is unset when
    none was saved (as after a restart). The write is assumed to succeed,
    and dates and times to be valid ones. A readable snapshot whose date
    is not today's leaves the object exactly as it was. *)
Theorem save_load_round_trip
    (m m' : DailyProfitManager) (w : World)
    (m0 : DailyProfitManager) (w0 : World) (d : gmap string jval)
    (text : string) (saved : datetime) :
  Calendar.valid_date (last_reset_date m) = true ->
  (forall t, last_trade_time m = Some t -> Calendar.valid_datetime t = true) ->
  disk_writable w = true ->
  state_file (config m') = state_file (config m) ->
  dt_date (reading (snd (snd (save_state (m, w))))) = last_reset_date m ->
  (last_trade_time m = None -> last_trade_time m' = None) ->
  files w0 !! state_file (config m0) = Some (JsonObject d) ->
  get_date_text d = Ret text ->
  Iso.datetime_fromisoformat text = Ret saved ->
  Calendar.date_eqb (dt_date saved) (dt_date (reading w0)) = false ->
  (let loaded := fst (snd (load_state (m', snd (snd (save_state (m, w)))))) in
   fst (load_state (m', snd (snd (save_state (m, w))))) = Ret tt /\
   daily_target_reached loaded = daily_target_reached m /\
   trades_today loaded = trades_today m /\
   gross_profit_today loaded = gross_profit_today m /\
   total_fees_today loaded = total_fees_today m /\
   net_profit_today loaded = net_profit_today m /\
   last_trade_time loaded = last_trade_time m) /\
  fst (snd (load_state (m, snd (snd (save_state (m, w)))))) = m /\
  (fst (load_state (m0, w0)) = Ret tt /\ fst (snd (load_state (m0, w0))) = m0).
Proof.
  intros Hvd Hvt Hdisk Hpath Htoday Hlast Hfile Hdate Hparse Hne.
  rewrite save_state_run in *. rewrite Hdisk in *. cbn [snd] in *.
  set (w1 := append_log _ _) in *.
  destruct (state_dict_reads m) as (Rd & Rb & Rn & Rg & Rf & Rnet).
  pose proof (state_dict_last_trade m Hvt) as Rl.
  pose proof (fromisoformat_date _ Hvd) as Rp.
  assert (Heq : Calendar.date_eqb (dt_date (mkdatetime (last_reset_date m) 0 0 0 0))
                                  (dt_date (reading w1)) = true)
    by (cbn [dt_date]; rewrite Htoday; apply date_eqb_refl).
  assert (Hf1 : forall x : DailyProfitManager,
             state_file (config x) = state_file (config m) ->
             files w1 !! state_file (config x) = Some (JsonObject (state_dict m))).
  { intros x Hx. subst w1. cbn. rewrite Hx. apply lookup_insert_eq. }
  split; [|split].
  - rewrite (load_state_same_day m' w1 _ _ _ _ _ _ _ _ _
               (Hf1 m' Hpath) Rd Rp Heq Rb Rn Rg Rf Rnet Rl).
    cbn. repeat split; try reflexivity.
    destruct (last_trade_time m) eqn:E; [reflexivity|]. apply Hlast. reflexivity.
  - rewrite (load_state_same_day m w1 _ _ _ _ _ _ _ _ _
               (Hf1 m eq_refl) Rd Rp Heq Rb Rn Rg Rf Rnet Rl).
    cbn. destruct m as [c f dt n fe g ne lt]; cbn. destruct lt; reflexivity.
  - rewrite (load_state_other_day m0 w0 d text saved Hfile Hdate Hparse Hne).
    split; reflexivity.
Qed.

(** ** Where the day is rolled over, and what the reports assign *)

(** The calls that only query the statistics leave the object as
    [get_daily_stats] leaves it. *)
Lemma stats_call_state (c : call) (m : DailyProfitManager) (w : World) :
  c = GetDailyStats \/ c = GetProgressReport \/ c = GetCompactProgress ->
  exists stats m1 w1,
    get_daily_stats (m, w) = (Ret stats, (m1, w1)) /\
    fst (snd (run_call c (m, w))) = m1.
Proof.
  intros Hc.
  destruct (get_daily_stats_effect m w) as (stats & m1 & w1 & Hs & _).
  exists stats, m1, w1. split; [exact Hs|].
  destruct Hc as [->|[->| ->]]; unfold run_call, returning; msimpl.
  - rewrite Hs. reflexivity.
  - destruct (get_progress_report_state m w) as (st & m2 & w2 & Hs2 & Hm & _).
    rewrite Hs in Hs2. injection Hs2 as E1 E2 E3. rewrite E2.
    destruct (get_progress_report (m, w)) as [[r|e] s']; exact Hm.
  - destruct (get_compact_progress_state m w) as (st & s2 & Hs2 & Hm).
    rewrite Hs in Hs2. injection Hs2 as E1 E2.
    destruct (get_compact_progress (m, w)) as [[r|e] s']; cbn in *;
      rewrite Hm, <- E2; reflexivity.
Qed.

Lemma stats_keep_day (m m1 : DailyProfitManager) (w w1 : World) (stats : Stats) :
  get_daily_stats (m, w) = (Ret stats, (m1, w1)) ->
  same_day_state m m1 /\
  (counters m1 = counters m \/
   exists deals,
     history w (Calendar.day_start (dt_date (reading w)))
               (Calendar.day_end (dt_date (reading w))) = QueryDeals deals /\
     relevant_deals (config m) deals <> [] /\
     counters m1
     = (count_of (relevant_deals (config m) deals),
        gross_of (relevant_deals (config m) deals),
        fees_of (config m) (relevant_deals (config m) deals),
        net_of (config m) (relevant_deals (config m) deals))).
Proof.
  intros Hs.
  destruct (get_daily_stats_effect m w) as (st & m' & w' & Hs' & Hm & _).
  rewrite Hs in Hs'. inversion Hs'; subst.
  destruct Hm as [->|(ds & Hq & Hne & ->)].
  - split; [repeat split|]. left. reflexivity.
  - split; [repeat split|]. right. exists ds. repeat split; assumption.
Qed.

Lemma stats_call_assigns (c : call) (m : DailyProfitManager) (w : World) :
  c = GetDailyStats \/ c = GetProgressReport \/ c = GetCompactProgress ->
  assigns_counters_only m w (fst (snd (run_call c (m, w)))).
Proof.
  intros Hc.
  destruct (stats_call_state c m w Hc) as (stats & m1 & w1 & Hs & Hm).
  rewrite Hm.
  destruct (stats_keep_day m m1 w w1 stats Hs) as ((A & B & C & D) & E).
  repeat split; assumption.
Qed.

(** C9, as the code has it. [get_progress_report] and
    [get_compact_progress] leave the configuration, the target flag, the
    reset date and the last trade time as they were. The four counters
    (trade count, gross, fees, net) are as they were, or are the totals of
    the closing deals of the strategy that today's query returned, when it
    returned some: the reports go through [get_daily_stats], which assigns
    them. *)
Theorem reports_assign_counters_only (m : DailyProfitManager) (w : World) :
  assigns_counters_only m w (fst (snd (get_progress_report (m, w)))) /\
  assigns_counters_only m w (fst (snd (get_compact_progress (m, w)))).
Proof.
  split.
  - pose proof (stats_call_assigns GetProgressReport m w ltac:(tauto)) as H.
    unfold run_call, returning in H. msimpl.
    destruct (get_progress_report (m, w)) as [[r|e] s']; exact H.
  - pose proof (stats_call_assigns GetCompactProgress m w ltac:(tauto)) as H.
    unfold run_call, returning in H. msimpl.
    destruct (get_compact_progress (m, w)) as [[r|e] s']; exact H.
Qed.

(** C9 fails on the counters: with one closing deal of the strategy in
    today's history, a manager that counted no trade counts one after
    either report, and its gross profit is the profit of that deal. *)
Lemma reports_mutate_counters :
  let m := Sample.manager "adaptive" Sample.wednesday in
  let w := Sample.world (Sample.at_time Sample.wednesday 10 0 0)
             (QueryDeals [Sample.deal 1000 70]) in
  trades_today m = 0 /\ gross_profit_today m = zero /\
  trades_today (fst (snd (get_progress_report (m, w)))) = 1 /\
  gross_profit_today (fst (snd (get_progress_report (m, w)))) = of_Z 10 /\
  trades_today (fst (snd (get_compact_progress (m, w)))) = 1 /\
  fst (snd (get_compact_progress (m, w))) <> m.
Proof.
  cbv zeta. repeat split; try (vm_compute; reflexivity).
  vm_compute. discriminate.
Qed.

(** C8, as the code has it. When the date read from the clock is past the
    stored reset date, [should_allow_trading] and [update] reset the day
    before anything else: counters at zero, target flag and last trade
    time cleared, reset date stamped with the date then read; the gate
    runs on that state and [update] saves nothing. [get_daily_stats],
    [check_target_reached], [should_pause_trading] and the two reports make
    no such check: they leave the stored reset date and the last trade time
    as they were and never clear the target flag. *)
Theorem rollover_where_checked (m : DailyProfitManager) (w : World) :
  Calendar.date_gtb (dt_date (reading w)) (last_reset_date m) = true ->
  let today := dt_date (clock w (S (ticks w))) in
  let fresh := mkManager (config m) false today 0 zero zero zero None in
  let w' := tick (append_log (INFO, MsgMidnightReset) (tick w)) in
  (should_allow_trading (m, w) = gate (reading w) (fresh, w') /\
   snd (should_allow_trading (m, w)) = (fresh, w')) /\
  update (m, w) = (Ret tt, (fresh, w')) /\
  (forall c,
      c = GetDailyStats \/ c = GetProgressReport \/ c = GetCompactProgress ->
      assigns_counters_only m w (fst (snd (run_call c (m, w))))) /\
  (forall c,
      c = CheckTargetReached \/ c = ShouldPauseTrading ->
      let m' := fst (snd (run_call c (m, w))) in
      last_reset_date m' = last_reset_date m /\
      last_trade_time m' = last_trade_time m /\
      (daily_target_reached m = true -> daily_target_reached m' = true)).
Proof.
  intros Hd today fresh w'.
  assert (Hroll : after_rollover (m, w) = (fresh, w'))
    by (rewrite after_rollover_rolled by assumption; reflexivity).
  split; [|split; [|split]].
  - rewrite should_allow_trading_gate, Hroll. split; [reflexivity|].
    destruct (friday_closed (config fresh) (reading w)) eqn:Hfri.
    + rewrite gate_friday_closed by auto. reflexivity.
    + rewrite gate_no_pacing by auto. reflexivity.
  - rewrite update_run, Hroll. reflexivity.
  - intros c Hc. apply stats_call_assigns. assumption.
  - intros c Hc m'.
    destruct (get_daily_stats_effect m w) as (stats & m1 & w1 & Hs & _).
    destruct (stats_keep_day m m1 w w1 stats Hs) as ((A & B & C & D) & _).
    pose proof (check_target_reached_run m w stats m1 w1 Hs) as Hrun. cbv zeta in Hrun.
    assert (Hm' : m' = m1 \/ m' = set_daily_target_reached true m1).
    { subst m'. destruct Hc as [-> | ->]; unfold run_call, returning; msimpl;
        rewrite ?should_pause_trading_run, Hrun;
        destruct (_ && _); cbn; auto. }
    destruct Hm' as [-> | ->]; cbn; repeat split; try assumption; try congruence;
      intros _; reflexivity.
Qed.

Lemma rollover_where_checked_witness :
  let m := set_daily_target_reached true
             (set_last_trade_time (Some (Sample.at_time Sample.wednesday 17 30 0))
                (set_trades_today 3 (Sample.manager "adaptive" Sample.wednesday))) in
  let w := Sample.world (Sample.at_time Sample.thursday 0 5 0) QueryNone in
  update (m, w)
  = (Ret tt,
     (mkManager (config m) false Sample.thursday 0 zero zero zero None,
      tick (append_log (INFO, MsgMidnightReset) (tick w)))).
Proof.
  cbv zeta.
  exact (proj1 (proj2
           (rollover_where_checked
              (set_daily_target_reached true
                 (set_last_trade_time (Some (Sample.at_time Sample.wednesday 17 30 0))
                    (set_trades_today 3 (Sample.manager "adaptive" Sample.wednesday))))
              (Sample.world (Sample.at_time Sample.thursday 0 5 0) QueryNone)
              eq_refl))).
Defined.

(** C8 fails for the statistics and the target check: on Thursday, with a
    state left by Wednesday (three trades, target flag set), and no deal
    yet today, [get_daily_stats] and [check_target_reached] return and
    leave Wednesday's reset date, flag, count and last trade time in
    place. *)
Lemma stale_day_survives_statistics :
  let m := set_daily_target_reached true
             (set_last_trade_time (Some (Sample.at_time Sample.wednesday 17 30 0))
                (set_trades_today 3 (Sample.manager "adaptive" Sample.wednesday))) in
  let w := Sample.world (Sample.at_time Sample.thursday 0 5 0) QueryNone in
  Calendar.date_gtb (dt_date (reading w)) (last_reset_date m) = true /\
  get_daily_stats (m, w) = (Ret zero_stats, (m, tick w)) /\
  check_target_reached (m, w) = (Ret (false, zero_stats), (m, tick w)) /\
  get_compact_progress (m, w)
  = (Ret (mkCompact zero (of_Z 175) zero), (m, tick w)) /\
  last_reset_date m = Sample.wednesday /\ daily_target_reached m = true /\
  trades_today m = 3.
Proof. cbv zeta. repeat split; vm_compute; reflexivity. Qed.

(** ** Who sets the target flag *)

(** With the flag clear, no outcome of the gate is a target denial. *)
Lemma gate_not_target (t : datetime) (m : DailyProfitManager) (w : World) :
  daily_target_reached m = false ->
  forall b g, fst (gate t (m, w)) <> Ret (b, TargetReachedPaused g).
Proof.
  intros Hf b g.
  destruct (friday_closed (config m) t) eqn:Hfri.
  { rewrite gate_friday_closed by assumption. discriminate. }
  destruct (enable_pacing (config m)) eqn:Hp;
    [|rewrite gate_no_pacing by auto; discriminate].
  destruct (last_trade_time m) as [last|] eqn:Hl;
    [|rewrite gate_no_pacing by auto; discriminate].
  destruct (required_interval_effect t m w) as (req & m' & w' & Hr & _).
  rewrite (gate_pacing t last m w req _ Hf Hfri Hp Hl Hr).
  destruct (lt_Z _ _); [|discriminate].
  destruct (of_int req); [|discriminate].
  destruct (py_int _); discriminate.
Qed.

Lemma after_rollover_flag (m : DailyProfitManager) (w : World) :
  daily_target_reached m = false ->
  daily_target_reached (fst (after_rollover (m, w))) = false.
Proof.
  intros Hf. destruct (Calendar.date_gtb (dt_date (reading w)) (last_reset_date m)) eqn:Hd.
  - rewrite after_rollover_rolled by assumption. reflexivity.
  - rewrite after_rollover_same by assumption. assumption.
Qed.

(** C10, as the code has it. The flag goes from clear to set only inside
    [check_target_reached] (so also in [should_pause_trading], which calls
    it) and inside [load_state], which restores the flag a snapshot of
    today holds; every other call leaves a clear flag clear. So when
    [record_trade] has raised the gross profit held in the object to the
    target or above, the flag is still clear, no outcome of the next
    [should_allow_trading] is a target denial, and that call allows when
    it is not the Friday close and pacing is off, or on, on the same day,
    with the required interval elapsed. *)
Theorem target_flag_setters
    (m : DailyProfitManager) (w : World) (lot_size profit : float) :
  daily_target_reached m = false ->
  let s1 := snd (record_trade lot_size profit (m, w)) in
  let t := reading (snd s1) in
  let c := config m in
  fle (daily_target_gross c) (gross_profit_today (fst s1)) = true ->
  (forall call s,
      checks_target call = false -> call <> LoadState ->
      daily_target_reached (fst s) = false ->
      daily_target_reached (fst (snd (run_call call s))) = false) /\
  daily_target_reached (fst s1) = false /\
  (forall b g, fst (should_allow_trading s1) <> Ret (b, TargetReachedPaused g)) /\
  (friday_closed c t = false ->
   (enable_pacing c = false ->
    should_allow_trading s1 = (Ret (true, TradingAllowed), after_rollover s1)) /\
   (enable_pacing c = true ->
    Calendar.date_gtb (dt_date t) (last_reset_date m) = false ->
    forall required s2,
      required_interval t (after_rollover s1) = (Ret required, s2) ->
      ge_Z (seconds_since t (reading w)) required = true ->
      should_allow_trading s1 = (Ret (true, TradingAllowed), s2))).
Proof.
  intros Hf s1 t c Hgross.
  assert (Hs1 : s1 = (mkManager (config m) (daily_target_reached m) (last_reset_date m)
                        (trades_today m + 1)
                        (fadd (total_fees_today m) (trade_fee (config m) lot_size))
                        (fadd (gross_profit_today m) profit)
                        (fsub (fadd (gross_profit_today m) profit)
                              (fadd (total_fees_today m) (trade_fee (config m) lot_size)))
                        (Some (reading w)),
                      append_log
                        (INFO, MsgTradeRecorded profit (trade_fee (config m) lot_size)
                                 (fsub (fadd (gross_profit_today m) profit)
                                       (fadd (total_fees_today m)
                                             (trade_fee (config m) lot_size))))
                        (tick w)))
    by (subst s1; rewrite record_trade_run; reflexivity).
  set (m1 := fst s1) in *. set (w1 := snd s1) in *.
  assert (Hpair : s1 = (m1, w1)) by (destruct s1; reflexivity).
  assert (Hf1 : daily_target_reached m1 = false) by (subst m1; rewrite Hs1; exact Hf).
  assert (Hc1 : config m1 = c) by (subst m1; rewrite Hs1; reflexivity).
  assert (Hd1 : last_reset_date m1 = last_reset_date m) by (subst m1; rewrite Hs1; reflexivity).
  assert (Hl1 : last_trade_time m1 = Some (reading w)) by (subst m1; rewrite Hs1; reflexivity).
  pose proof (after_rollover_flag m1 w1 Hf1) as Hfr.
  pose proof (after_rollover_config m1 w1) as Hcr.
  split; [|split; [|split]].
  - intros call s Hck Hnl Hfs.
    destruct (is_restore call) eqn:Hr.
    + destruct call; try discriminate; [|congruence].
      destruct s as [m0 w0]. unfold run_call, returning. msimpl.
      rewrite reset_daily_state_run. reflexivity.
    + destruct (run_call_quiet call s Hck Hr) as (_ & _ & _ & [[Q _]|[Q _]]); congruence.
  - exact Hf1.
  - intros b g. rewrite Hpair, should_allow_trading_gate.
    destruct (after_rollover (m1, w1)) as [m2 w2]. apply gate_not_target. exact Hfr.
  - intros Hfri. rewrite Hpair, should_allow_trading_gate.
    destruct (after_rollover (m1, w1)) as [m2 w2] eqn:Hroll. cbn [fst] in Hfr, Hcr.
    fold t. split.
    + intros Hp. apply gate_no_pacing; rewrite ?Hcr, ?Hc1; auto.
    + intros Hp Hsame req s2 Hr Hge.
      assert (Hm2 : m2 = m1).
      { rewrite after_rollover_same in Hroll by (fold t; rewrite Hd1; exact Hsame).
        congruence. }
      apply (gate_pacing_allows t (reading w) m2 w2 req s2);
        rewrite ?Hcr, ?Hc1; auto.
      * rewrite Hm2. exact Hl1.
      * apply ge_Z_not_lt. exact Hge.
Qed.

Lemma target_flag_setters_witness :
  let m := set_gross_profit_today (of_Z 170) (Sample.manager "gentle" Sample.wednesday) in
  let w := Sample.world (Sample.at_time Sample.wednesday 10 0 0) QueryNone in
  let s1 := snd (record_trade (Sample.decimal 70 100) (of_Z 10) (m, w)) in
  fle (of_Z 175) (gross_profit_today (fst s1)) = true /\
  daily_target_reached (fst s1) = false /\
  forall b g, fst (should_allow_trading s1) <> Ret (b, TargetReachedPaused g).
Proof.
  cbv zeta. split; [vm_compute; reflexivity|].
  destruct (target_flag_setters
              (set_gross_profit_today (of_Z 170)
                 (Sample.manager "gentle" Sample.wednesday))
              (Sample.world (Sample.at_time Sample.wednesday 10 0 0) QueryNone)
              (Sample.decimal 70 100) (of_Z 10)
              eq_refl eq_refl) as (_ & H1 & H2 & _).
  split; assumption.
Defined.

(** C10 fails for [load_state]: an object whose flag is clear, loading a
    snapshot of today that holds a set flag, has its flag set, and no
    [check_target_reached] ran. *)
Lemma load_state_sets_target_flag :
  let m := Sample.manager "gentle" Sample.wednesday in
  let snapshot := state_dict (set_daily_target_reached true
                                (set_trades_today 9 m)) in
  let w := write_file (state_file (config m)) (JsonObject snapshot)
             (Sample.world (Sample.at_time Sample.wednesday 10 0 0) QueryNone) in
  checks_target LoadState = false /\
  daily_target_reached m = false /\
  fst (run_call LoadState (m, w)) = Ret VNone /\
  daily_target_reached (fst (snd (run_call LoadState (m, w)))) = true /\
  target_events (log (snd (snd (run_call LoadState (m, w))))) = 0%nat.
Proof. cbv zeta. repeat split; vm_compute; reflexivity. Qed.

Lemma target_reached_once_per_day_witness :
  let m := Sample.manager "gentle" Sample.wednesday in
  let w := Sample.world (Sample.at_time Sample.wednesday 10 0 0)
             (QueryDeals [Sample.deal 18000 70]) in
  let stats := mkStats 1 (of_Z 180) (Sample.decimal 386 100) (Sample.decimal 17614 100)
                       (Sample.decimal 1029 10) (of_Z 180) None in
  let tr := [Invoke ShouldAllowTrading;
             Invoke (RecordTrade (Sample.decimal 70 100) (of_Z 5));
             HistoryBecomes (fun _ _ => QueryDeals [Sample.deal 18000 70; Sample.deal 500 70]);
             Invoke CheckTargetReached;
             Invoke Update;
             Invoke GetProgressReport;
             Invoke ShouldAllowTrading] in
  exists s2,
    check_target_reached (m, w) = (Ret (true, stats), s2) /\
    target_events (log (snd s2)) = 1%nat /\
    target_events (log (snd (snd (run_trace tr s2)))) = 1%nat /\
    forall r, In (ShouldAllowTrading, r) (fst (run_trace tr s2)) ->
              exists g, r = Ret (VGate (false, TargetReachedPaused g)).
Proof.
  cbv zeta.
  destruct (target_reached_once_per_day
              (Sample.manager "gentle" Sample.wednesday)
              (Sample.world (Sample.at_time Sample.wednesday 10 0 0)
                 (QueryDeals [Sample.deal 18000 70]))
              (mkStats 1 (of_Z 180) (Sample.decimal 386 100) (Sample.decimal 17614 100)
                       (Sample.decimal 1029 10) (of_Z 180) None)
              (snd (get_daily_stats
                      (Sample.manager "gentle" Sample.wednesday,
                       Sample.world (Sample.at_time Sample.wednesday 10 0 0)
                         (QueryDeals [Sample.deal 18000 70]))))
              [Invoke ShouldAllowTrading;
               Invoke (RecordTrade (Sample.decimal 70 100) (of_Z 5));
               HistoryBecomes (fun _ _ => QueryDeals [Sample.deal 18000 70; Sample.deal 500 70]);
               Invoke CheckTargetReached;
               Invoke Update;
               Invoke GetProgressReport;
               Invoke ShouldAllowTrading]
              (fun _ => eq_refl) eq_refl)
    as (s2 & Hrun & _ & Hn & _ & Hn2 & Hall & _).
  - vm_compute. reflexivity.
  - vm_compute. reflexivity.
  - exists s2. split; [exact Hrun|]. split; [exact Hn|].
    split; [rewrite Hn2; exact Hn|]. exact Hall.
Defined.

(** C2 fails after a restore: on the day the target was reached, a
    [load_state] of a snapshot of that day saved with the flag clear, or a
    [reset_daily_state], clears the flag; the next [should_allow_trading]
    allows, and the next [check_target_reached] logs the target line a
    second time. *)
Lemma target_line_logged_again :
  let m := Sample.manager "gentle" Sample.wednesday in
  let w := Sample.world (Sample.at_time Sample.wednesday 10 0 0)
             (QueryDeals [Sample.deal 18000 70]) in
  let stale := write_file (state_file (config m)) (JsonObject (state_dict m)) w in
  let by_load := run_trace [Invoke CheckTargetReached; Invoke LoadState;
                            Invoke ShouldAllowTrading; Invoke CheckTargetReached]
                           (m, stale) in
  let by_reset := run_trace [Invoke CheckTargetReached; Invoke ResetDailyState;
                             Invoke ShouldAllowTrading; Invoke CheckTargetReached]
                            (m, w) in
  (forall k, Calendar.date_gtb (dt_date (clock w k)) (last_reset_date m) = false) /\
  (exists stats s1,
      get_daily_stats (m, w) = (Ret stats, s1) /\
      fle (daily_target_gross (config m)) (gross_profit stats) = true) /\
  In (ShouldAllowTrading, Ret (VGate (true, TradingAllowed))) (fst by_load) /\
  target_events (log (snd (snd by_load))) = 2%nat /\
  In (ShouldAllowTrading, Ret (VGate (true, TradingAllowed))) (fst by_reset) /\
  target_events (log (snd (snd by_reset))) = 2%nat.
Proof.
  cbv zeta. split; [intros k; reflexivity|].
  split; [eexists _, _; split; [vm_compute; reflexivity|vm_compute; reflexivity]|].
  split; [vm_compute; tauto|]. split; [vm_compute; reflexivity|].
  split; [vm_compute; tauto|]. vm_compute; reflexivity.
Qed.

Lemma save_load_round_trip_witness :
  let m := set_daily_target_reached true
             (set_last_trade_time (Some (mkdatetime Sample.wednesday 17 30 12 250000))
                (with_counters (Sample.manager "adaptive" Sample.wednesday)
                   4 (of_Z 180) (Sample.decimal 1544 100) (Sample.decimal 16456 100))) in
  let w := Sample.world (Sample.at_time Sample.wednesday 18 0 0) QueryNone in
  let restarted := Sample.manager "adaptive" Sample.wednesday in
  let loaded := fst (snd (load_state (restarted, snd (snd (save_state (m, w)))))) in
  let w0 := write_file (state_file (config m)) (JsonObject (state_dict m))
              (Sample.world (Sample.at_time Sample.thursday 0 5 0) QueryNone) in
  let next_day := Sample.manager "adaptive" Sample.thursday in
  (daily_target_reached loaded = true /\ trades_today loaded = 4 /\
   gross_profit_today loaded = of_Z 180 /\
   last_trade_time loaded = Some (mkdatetime Sample.wednesday 17 30 12 250000)) /\
  fst (snd (load_state (next_day, w0))) = next_day.
Proof.
  cbv zeta.
  destruct (save_load_round_trip
              (set_daily_target_reached true
                 (set_last_trade_time (Some (mkdatetime Sample.wednesday 17 30 12 250000))
                    (with_counters (Sample.manager "adaptive" Sample.wednesday)
                       4 (of_Z 180) (Sample.decimal 1544 100) (Sample.decimal 16456 100))))
              (Sample.manager "adaptive" Sample.wednesday)
              (Sample.world (Sample.at_time Sample.wednesday 18 0 0) QueryNone)
              (Sample.manager "adaptive" Sample.thursday)
              (write_file "logs/daily_profit_state.json"
                 (JsonObject
                    (state_dict
                       (set_daily_target_reached true
                          (set_last_trade_time
                             (Some (mkdatetime Sample.wednesday 17 30 12 250000))
                             (with_counters (Sample.manager "adaptive" Sample.wednesday)
                                4 (of_Z 180) (Sample.decimal 1544 100)
                                (Sample.decimal 16456 100))))))
                 (Sample.world (Sample.at_time Sample.thursday 0 5 0) QueryNone))
              (state_dict
                 (set_daily_target_reached true
                    (set_last_trade_time
                       (Some (mkdatetime Sample.wednesday 17 30 12 250000))
                       (with_counters (Sample.manager "adaptive" Sample.wednesday)
                          4 (of_Z 180) (Sample.decimal 1544 100)
                          (Sample.decimal 16456 100)))))
              "2024-01-03"
              (mkdatetime Sample.wednesday 0 0 0 0))
    as ((_ & Hf & Hn & Hg & _ & _ & Hl) & _ & (_ & Hother)).
  - reflexivity.
  - intros t Ht. injection Ht as <-. reflexivity.
  - reflexivity.
  - reflexivity.
  - reflexivity.
  - discriminate.
  - vm_compute. reflexivity.
  - vm_compute. reflexivity.
  - vm_compute. reflexivity.
  - reflexivity.
  - split; [|exact Hother]. repeat split; assumption.
Defined.

(** * Further properties *)

(** ** What the statistics return and store *)

(** No closing deal of the strategy today: the query returned [None], an
    empty list, or deals of which none passes the filter. *)
Lemma get_daily_stats_no_deals (m : DailyProfitManager) (w : World) :
  no_relevant_deals m w ->
  get_daily_stats (m, w) = (Ret zero_stats, (m, tick w)).
Proof.
  unfold no_relevant_deals, get_daily_stats, reading.
  intros [Hq|(deals & Hq & Hrel)]; msimpl; rewrite Hq; msimpl.
  - reflexivity.
  - destruct deals; msimpl; [reflexivity|]. rewrite Hrel. reflexivity.
Qed.

(** Closing deals of the strategy today: the statistics are those of the
    filtered deals, unless the estimate of the arrival time raises. *)
Lemma get_daily_stats_deals (m : DailyProfitManager) (w : World) (deals : list Deal) :
  let today := dt_date (reading w) in
  let c := config m in
  let rel := relevant_deals c deals in
  history w (Calendar.day_start today) (Calendar.day_end today) = QueryDeals deals ->
  rel <> [] ->
  exists r w',
    estimate_eta c (gross_of rel) (average_of rel) (m, tick w) = (r, (m, w')) /\
    get_daily_stats (m, w)
    = match r with
      | Ret eta =>
          (Ret (stats_of c rel eta),
           (with_counters m (count_of rel) (gross_of rel) (fees_of c rel) (net_of c rel),
            w'))
      | Raise e => (Ret zero_stats, (m, append_log (ERROR, MsgStatsError e) w'))
      end.
Proof.
  intros today c rel Hq Hrel. subst today c rel.
  destruct (estimate_eta_effect (config m)
              (gross_of (relevant_deals (config m) deals))
              (average_of (relevant_deals (config m) deals)) m (tick w))
    as (r & w' & He & _ & _).
  exists r, w'. split; [exact He|].
  unfold get_daily_stats, reading in *. msimpl. rewrite Hq. msimpl.
  destruct deals as [|d ds]; [exfalso; apply Hrel; reflexivity|]. msimpl.
  destruct (relevant_deals (config m) (d :: ds)) as [|x xs] eqn:E;
    [exfalso; apply Hrel; reflexivity|]. msimpl.
  rewrite He. destruct r; reflexivity.
Qed.

(** X1. When today's query finds no closing deal of the strategy,
    [get_daily_stats] returns the all-zero statistics and assigns nothing:
    the counters of the object stay as they were, nothing is logged and the
    clock was read once. [get_compact_progress] then reports zero net and
    zero progress. *)
Theorem statistics_without_deals (m : DailyProfitManager) (w : World) :
  no_relevant_deals m w ->
  get_daily_stats (m, w) = (Ret zero_stats, (m, tick w)) /\
  get_compact_progress (m, w)
  = (Ret (mkCompact zero (daily_target_gross (config m)) zero), (m, tick w)).
Proof.
  intros H. pose proof (get_daily_stats_no_deals m w H) as Hs.
  split; [exact Hs|].
  unfold get_compact_progress. msimpl. rewrite Hs. reflexivity.
Qed.

Lemma statistics_without_deals_witness :
  let m := with_counters (Sample.manager "adaptive" Sample.wednesday)
             2 (of_Z 40) (Sample.decimal 772 100) (Sample.decimal 3228 100) in
  let w := Sample.world (Sample.at_time Sample.wednesday 10 0 0)
             (QueryDeals [{| magic := 1; deal_symbol := "XAUUSD"; entry := 1;
                             volume := of_Z 1; profit := of_Z 50 |};
                          {| magic := 790079; deal_symbol := "XAUUSD"; entry := 0;
                             volume := of_Z 1; profit := of_Z 0 |}]) in
  get_daily_stats (m, w) = (Ret zero_stats, (m, tick w)) /\
  get_compact_progress (m, w)
  = (Ret (mkCompact zero (of_Z 175) zero), (m, tick w)).
Proof.
  intros m w. apply (statistics_without_deals m w).
  right. eexists. split; reflexivity.
Defined.

(** X2. When [get_daily_stats] reports trades, the counters it stored are
    the unrounded totals behind the report: the count is the stored count
    and is positive, gross, fees and net are the stored values rounded to
    two places, and the stored net is the stored gross minus the stored
    fees. *)
Theorem statistics_round_the_counters
    (m m' : DailyProfitManager) (w w' : World) (stats : Stats) :
  get_daily_stats (m, w) = (Ret stats, (m', w')) ->
  trades_count stats <> 0 ->
  0 < trades_count stats /\
  trades_today m' = trades_count stats /\
  gross_profit stats = round (gross_profit_today m') 2 /\
  total_fees stats = round (total_fees_today m') 2 /\
  net_profit stats = round (net_profit_today m') 2 /\
  net_profit_today m' = fsub (gross_profit_today m') (total_fees_today m') /\
  average_profit_per_trade stats
  = round (fdiv (gross_profit_today m') (of_Z (trades_today m'))) 2.
Proof.
  intros Hs Hn.
  destruct (history w (Calendar.day_start (dt_date (reading w)))
                      (Calendar.day_end (dt_date (reading w)))) as [e| |deals] eqn:Hq.
  - exfalso. apply Hn. revert Hs. unfold get_daily_stats, reading in *. msimpl.
    rewrite Hq. msimpl. intros Hs. injection Hs as <- _ _. reflexivity.
  - exfalso. apply Hn.
    rewrite (get_daily_stats_no_deals m w (or_introl Hq)) in Hs.
    injection Hs as <- _ _. reflexivity.
  - destruct (relevant_deals (config m) deals) as [|x xs] eqn:Hrel.
    + exfalso. apply Hn.
      rewrite (get_daily_stats_no_deals m w) in Hs
        by (right; exists deals; split; assumption).
      injection Hs as <- _ _. reflexivity.
    + destruct (get_daily_stats_deals m w deals Hq) as (r & w1 & _ & Hrun);
        [rewrite Hrel; discriminate|].
      cbv zeta in Hrun. rewrite Hrel in Hrun. rewrite Hrun in Hs.
      destruct r as [eta|e].
      * injection Hs as <- <- _.
        unfold stats_of, with_counters, average_of. cbn.
        assert (Hc : 0 < count_of (x :: xs))
          by (unfold count_of; cbn [length]; lia).
        apply Z.ltb_lt in Hc as Hb. rewrite Hb.
        repeat split; try reflexivity; exact Hc.
      * exfalso. apply Hn. injection Hs as <- _ _. reflexivity.
Qed.

Lemma statistics_round_the_counters_witness :
  let m := Sample.manager "adaptive" Sample.wednesday in
  let w := Sample.world (Sample.at_time Sample.wednesday 10 0 0)
             (QueryDeals [Sample.deal 1000 70; Sample.deal (-333) 35]) in
  let stats := fst (get_daily_stats (m, w)) in
  let m' := fst (snd (get_daily_stats (m, w))) in
  trades_today m' = 2 /\
  gross_profit_today m' = Sample.decimal 667 100 /\
  net_profit_today m' = fsub (gross_profit_today m') (total_fees_today m').
Proof.
  intros m w stats m'.
  destruct (get_daily_stats (m, w)) as [r [m1 w1]] eqn:E.
  assert (Hr : exists st, r = Ret st /\ trades_count st = 2).
  { revert E. vm_compute. intros E. injection E as <- _ _. eexists. split; reflexivity. }
  destruct Hr as (st & -> & Hst).
  destruct (statistics_round_the_counters m m1 w w1 st E) as (_ & H1 & _ & _ & _ & H2 & _).
  - rewrite Hst. discriminate.
  - subst m'. cbn [fst snd]. split; [rewrite H1; exact Hst|].
    split; [|exact H2].
    revert E. vm_compute. intros E. injection E as _ <- _. reflexivity.
Defined.

(** The estimate, step by step. *)
Lemma estimate_eta_run (c : Config) (gross avg : float) (m : DailyProfitManager) (w : World) :
  estimate_eta c gross avg (m, w)
  = if flt zero avg && flt gross (daily_target_gross c) then
      match of_int (estimated_minutes_per_trade c) with
      | Raise e => (Raise e, (m, w))
      | Ret per_trade =>
          match Calendar.timedelta_minutes
                  (fmul (fdiv (fsub (daily_target_gross c) gross) avg) per_trade) with
          | Raise e => (Raise e, (m, tick w))
          | Ret delta =>
              match Calendar.add (reading w) delta with
              | Raise e => (Raise e, (m, tick w))
              | Ret eta => (Ret (Some eta), (m, tick w))
              end
          end
      end
    else (Ret None, (m, w)).
Proof.
  unfold estimate_eta, reading.
  destruct (flt zero avg && flt gross (daily_target_gross c)); msimpl; [|reflexivity].
  destruct (of_int _); msimpl; [|reflexivity].
  destruct (Calendar.timedelta_minutes _); msimpl; [|reflexivity].
  destruct (Calendar.add _ _); reflexivity.
Qed.

(** X3. The arrival time is estimated before the counters are assigned,
    inside the [try]: when that estimate raises (the interval or the date
    does not fit), [get_daily_stats] returns the all-zero statistics
    although the query found closing deals, logs the error and leaves the
    counters of the object as they were. *)
Theorem eta_failure_discards_statistics
    (m : DailyProfitManager) (w : World) (deals : list Deal) (e : exn) :
  let today := dt_date (reading w) in
  let c := config m in
  let rel := relevant_deals c deals in
  history w (Calendar.day_start today) (Calendar.day_end today) = QueryDeals deals ->
  rel <> [] ->
  fst (estimate_eta c (gross_of rel) (average_of rel) (m, tick w)) = Raise e ->
  exists w',
    get_daily_stats (m, w)
    = (Ret zero_stats, (m, append_log (ERROR, MsgStatsError e) w')) /\
    log w' = log w.
Proof.
  intros today c rel Hq Hrel He.
  destruct (get_daily_stats_deals m w deals Hq Hrel) as (r & w' & Hr & Hrun).
  destruct (estimate_eta_effect c (gross_of rel) (average_of rel) m (tick w))
    as (r0 & w0 & Hr0 & _ & Hl).
  fold c rel in Hr. rewrite Hr in He, Hr0. cbn in He. subst r.
  injection Hr0 as _ <-.
  exists w'. split; [exact Hrun|exact Hl].
Qed.

Lemma eta_failure_discards_statistics_witness :
  let m := Sample.manager "adaptive" (mkdate 9999 12 31) in
  let w := Sample.world (Sample.at_time (mkdate 9999 12 31) 20 0 0)
             (QueryDeals [Sample.deal 1000 70]) in
  exists w',
    get_daily_stats (m, w)
    = (Ret zero_stats, (m, append_log (ERROR, MsgStatsError OverflowError) w')) /\
    log w' = log w.
Proof.
  intros m w.
  apply (eta_failure_discards_statistics m w [Sample.deal 1000 70] OverflowError).
  - reflexivity.
  - vm_compute. discriminate.
  - vm_compute. reflexivity.
Defined.

(** X4. [get_daily_stats] reports an estimated arrival time only when the
    query found closing deals whose average profit is positive and whose
    unrounded gross is below the target; the time reported is the second
    reading of the clock plus the remaining profit over the average, times
    the configured minutes per trade. *)
Theorem eta_only_below_target
    (m : DailyProfitManager) (w : World) (stats : Stats) (s' : Sys) (eta : datetime) :
  get_daily_stats (m, w) = (Ret stats, s') ->
  estimated_target_eta stats = Some eta ->
  let today := dt_date (reading w) in
  let c := config m in
  exists deals per_trade delta,
    history w (Calendar.day_start today) (Calendar.day_end today) = QueryDeals deals /\
    let rel := relevant_deals c deals in
    flt zero (average_of rel) = true /\
    flt (gross_of rel) (daily_target_gross c) = true /\
    of_int (estimated_minutes_per_trade c) = Ret per_trade /\
    Calendar.timedelta_minutes
      (fmul (fdiv (fsub (daily_target_gross c) (gross_of rel)) (average_of rel)) per_trade)
    = Ret delta /\
    Calendar.add (reading (tick w)) delta = Ret eta.
Proof.
  intros Hs Heta today c.
  destruct (history w (Calendar.day_start today) (Calendar.day_end today))
    as [e| |deals] eqn:Hq.
  - exfalso. revert Hs. unfold get_daily_stats, reading in *. msimpl.
    subst today. rewrite Hq. msimpl. intros Hs. injection Hs as <- _. discriminate.
  - exfalso. rewrite (get_daily_stats_no_deals m w (or_introl Hq)) in Hs.
    injection Hs as <- _. discriminate.
  - destruct (relevant_deals c deals) as [|x xs] eqn:Hrel.
    + exfalso. rewrite (get_daily_stats_no_deals m w) in Hs
        by (right; exists deals; split; assumption).
      injection Hs as <- _. discriminate.
    + destruct (get_daily_stats_deals m w deals Hq) as (r & w1 & Hr & Hrun);
        [fold c; rewrite Hrel; discriminate|].
      cbv zeta in Hrun, Hr. fold c in Hrun, Hr. rewrite Hrel in Hrun, Hr.
      rewrite Hrun in Hs. rewrite estimate_eta_run in Hr.
      destruct r as [o|e]; [|injection Hs as <- _; discriminate].
      injection Hs as <- _. unfold stats_of in Heta. cbn in Heta. subst o.
      destruct (flt zero (average_of (x :: xs))) eqn:Ha; [|discriminate].
      destruct (flt (gross_of (x :: xs)) (daily_target_gross c)) eqn:Hg; [|discriminate].
      cbn [andb] in Hr.
      destruct (of_int (estimated_minutes_per_trade c)) as [per|] eqn:Hp; [|discriminate].
      destruct (Calendar.timedelta_minutes _) as [delta|] eqn:Hd; [|discriminate].
      destruct (Calendar.add _ _) as [t|] eqn:Hadd; [|discriminate].
      injection Hr as <- _.
      exists deals, per, delta. split; [reflexivity|].
      cbv zeta. rewrite Hrel. auto.
Qed.

Lemma eta_only_below_target_witness :
  let m := Sample.manager "adaptive" Sample.wednesday in
  let w := Sample.world (Sample.at_time Sample.wednesday 10 0 0)
             (QueryDeals [Sample.deal 3500 70]) in
  exists st s',
    get_daily_stats (m, w) = (Ret st, s') /\
    estimated_target_eta st = Some (Sample.at_time Sample.wednesday 12 0 0) /\
    flt (of_Z 35) (of_Z 175) = true.
Proof.
  intros m w.
  destruct (get_daily_stats (m, w)) as [r s'] eqn:E.
  assert (Hr : exists st, r = Ret st /\
                 estimated_target_eta st = Some (Sample.at_time Sample.wednesday 12 0 0)).
  { revert E. vm_compute. intros E. injection E as <- _. eexists. split; reflexivity. }
  destruct Hr as (st & -> & Hst).
  exists st, s'. split; [reflexivity|]. split; [exact Hst|].
  destruct (eta_only_below_target m w st s' _ E Hst)
    as (deals & per & delta & Hq & _ & Hg & _).
  injection Hq as <-. exact Hg.
Defined.

(** X5. The statistics depend on the deals of the query only through the
    closing deals of the strategy (matching magic number and symbol, entry
    1): two histories whose filtered deals agree give the same result, the
    same object and the same log. *)
Theorem statistics_ignore_other_deals
    (m : DailyProfitManager) (w : World)
    (h1 h2 : datetime -> datetime -> QueryResult) (deals1 deals2 : list Deal) :
  let today := dt_date (reading w) in
  h1 (Calendar.day_start today) (Calendar.day_end today) = QueryDeals deals1 ->
  h2 (Calendar.day_start today) (Calendar.day_end today) = QueryDeals deals2 ->
  relevant_deals (config m) deals1 = relevant_deals (config m) deals2 ->
  let r1 := get_daily_stats (m, set_history h1 w) in
  let r2 := get_daily_stats (m, set_history h2 w) in
  fst r1 = fst r2 /\
  fst (snd r1) = fst (snd r2) /\
  log (snd (snd r1)) = log (snd (snd r2)) /\
  ticks (snd (snd r1)) = ticks (snd (snd r2)).
Proof.
  intros today H1 H2 Hrel r1 r2. subst r1 r2.
  destruct (relevant_deals (config m) deals1) as [|x xs] eqn:E1.
  - rewrite (get_daily_stats_no_deals m (set_history h1 w))
      by (right; exists deals1; split; [exact H1|exact E1]).
    rewrite (get_daily_stats_no_deals m (set_history h2 w))
      by (right; exists deals2; split; [exact H2|symmetry; exact Hrel]).
    repeat split.
  - destruct (get_daily_stats_deals m (set_history h1 w) deals1 H1)
      as (ra & wa & Ha & Hruna); [rewrite E1; discriminate|].
    destruct (get_daily_stats_deals m (set_history h2 w) deals2 H2)
      as (rb & wb & Hb & Hrunb); [rewrite <- Hrel; discriminate|].
    cbv zeta in *. rewrite <- Hrel in Hb, Hrunb. rewrite E1 in *.
    rewrite Hruna, Hrunb. rewrite estimate_eta_run in Ha, Hb.
    unfold reading in Ha, Hb. cbn [tick set_history clock ticks] in Ha, Hb.
    destruct (flt zero (average_of (x :: xs)) &&
              flt (gross_of (x :: xs)) (daily_target_gross (config m))).
    + destruct (of_int (estimated_minutes_per_trade (config m))) as [per|e].
      * destruct (Calendar.timedelta_minutes _) as [delta|e].
        -- destruct (Calendar.add _ _) as [t|e];
             injection Ha as <- <-; injection Hb as <- <-; repeat split.
        -- injection Ha as <- <-; injection Hb as <- <-; repeat split.
      * injection Ha as <- <-; injection Hb as <- <-; repeat split.
    + injection Ha as <- <-; injection Hb as <- <-; repeat split.
Qed.

Lemma statistics_ignore_other_deals_witness :
  let m := Sample.manager "adaptive" Sample.wednesday in
  let w := Sample.world (Sample.at_time Sample.wednesday 10 0 0) QueryNone in
  let opening := {| magic := 790079; deal_symbol := "XAUUSD"; entry := 0;
                    volume := Sample.decimal 70 100; profit := zero |} in
  let other := {| magic := 790079; deal_symbol := "EURUSD"; entry := 1;
                  volume := of_Z 1; profit := of_Z 500 |} in
  let h1 := fun _ _ : datetime => QueryDeals [opening; Sample.deal 1000 70; other] in
  let h2 := fun _ _ : datetime => QueryDeals [Sample.deal 1000 70] in
  fst (get_daily_stats (m, set_history h1 w)) = fst (get_daily_stats (m, set_history h2 w)) /\
  fst (snd (get_daily_stats (m, set_history h1 w)))
  = fst (snd (get_daily_stats (m, set_history h2 w))).
Proof.
  intros m w opening other h1 h2.
  destruct (statistics_ignore_other_deals m w h1 h2
              [opening; Sample.deal 1000 70; other] [Sample.deal 1000 70])
    as (Ha & Hb & _); [reflexivity|reflexivity|reflexivity|].
  split; [exact Ha|exact Hb].
Defined.

(** ** The target check against the gate *)

Lemma fle_zero_of_positive (x : float) : flt zero x = true -> fle x zero = false.
Proof.
  unfold flt, fle, zero, SFltb, SFleb.
  destruct x as [[|]|[|]| |[|] m e]; cbn; congruence.
Qed.

(** The target check on the all-zero statistics. *)
Lemma check_target_reached_no_deals (m : DailyProfitManager) (w : World) :
  no_relevant_deals m w ->
  let reached := fle (daily_target_gross (config m)) zero in
  check_target_reached (m, w)
  = (Ret (reached, zero_stats),
     if reached && negb (daily_target_reached m)
     then (set_daily_target_reached true m,
           append_log (INFO, MsgTargetNet zero)
             (append_log (INFO, MsgTargetFees zero)
                (append_log (INFO, MsgTargetGross zero)
                   (append_log (INFO, MsgTargetReached) (tick w)))))
     else (m, tick w)).
Proof.
  intros H reached.
  exact (check_target_reached_run m w zero_stats m (tick w)
           (get_daily_stats_no_deals m w H)).
Qed.

(** X6. [should_pause_trading] answers from the statistics of the moment,
    [should_allow_trading] from the stored flag. With the flag set and a
    positive target, when today's query finds no closing deal of the
    strategy [should_pause_trading] returns [False] and leaves the flag set,
    while [should_allow_trading], called next on the same day, still denies
    with the target reason. *)
Theorem pause_and_gate_disagree (m : DailyProfitManager) (w : World) :
  daily_target_reached m = true ->
  flt zero (daily_target_gross (config m)) = true ->
  no_relevant_deals m w ->
  Calendar.date_gtb (dt_date (reading (tick w))) (last_reset_date m) = false ->
  should_pause_trading (m, w) = (Ret false, (m, tick w)) /\
  should_allow_trading (m, tick w)
  = (Ret (false, TargetReachedPaused (gross_profit_today m)), (m, tick (tick w))).
Proof.
  intros Hflag Hpos Hnone Hday. split.
  - rewrite should_pause_trading_run, (check_target_reached_no_deals m w Hnone).
    rewrite (fle_zero_of_positive _ Hpos). reflexivity.
  - rewrite should_allow_trading_gate, (after_rollover_same _ _ Hday).
    apply gate_target_reached. exact Hflag.
Qed.

Lemma pause_and_gate_disagree_witness :
  let m := set_daily_target_reached true
             (with_counters (Sample.manager "gentle" Sample.wednesday)
                3 (of_Z 180) (Sample.decimal 1158 100) (Sample.decimal 16842 100)) in
  let w := Sample.world (Sample.at_time Sample.wednesday 15 0 0) QueryNone in
  should_pause_trading (m, w) = (Ret false, (m, tick w)) /\
  should_allow_trading (m, tick w)
  = (Ret (false, TargetReachedPaused (of_Z 180)), (m, tick (tick w))).
Proof.
  intros m w. apply (pause_and_gate_disagree m w).
  - reflexivity.
  - reflexivity.
  - left. reflexivity.
  - reflexivity.
Defined.

(** X7. A target that is zero or negative is reached at once: with the flag
    clear and no closing deal of the strategy today, [check_target_reached]
    returns [True] on the all-zero statistics, logs the four target lines
    and sets the flag, so that [should_allow_trading], called next on the
    same day, denies with the target reason. *)
Theorem non_positive_target_is_reached (m : DailyProfitManager) (w : World) :
  fle (daily_target_gross (config m)) zero = true ->
  daily_target_reached m = false ->
  no_relevant_deals m w ->
  let m' := set_daily_target_reached true m in
  let w' := append_log (INFO, MsgTargetNet zero)
              (append_log (INFO, MsgTargetFees zero)
                 (append_log (INFO, MsgTargetGross zero)
                    (append_log (INFO, MsgTargetReached) (tick w)))) in
  check_target_reached (m, w) = (Ret (true, zero_stats), (m', w')) /\
  (Calendar.date_gtb (dt_date (reading w')) (last_reset_date m) = false ->
   should_allow_trading (m', w')
   = (Ret (false, TargetReachedPaused (gross_profit_today m)), (m', tick w'))).
Proof.
  intros Htarget Hflag Hnone m' w'. split.
  - rewrite (check_target_reached_no_deals m w Hnone), Htarget, Hflag. reflexivity.
  - intros Hday. rewrite should_allow_trading_gate.
    rewrite (after_rollover_same m' w' Hday).
    apply (gate_target_reached (reading w') m' (tick w')). reflexivity.
Qed.

Lemma non_positive_target_is_reached_witness :
  let c := Sample.cfg "gentle" in
  let free := {| daily_target_gross := zero;
                 broker_fee_per_lot := broker_fee_per_lot c;
                 enable_pacing := true; pacing_mode := "gentle";
                 min_trade_interval_normal := 180;
                 min_trade_interval_aggressive := 60;
                 friday_close_hour := 22;
                 adaptive_threshold := adaptive_threshold c;
                 estimated_minutes_per_trade := 30;
                 state_file := state_file c;
                 magic_number := 790079; symbol := "XAUUSD" |} in
  let m := init_manager free Sample.wednesday in
  let w := Sample.world (Sample.at_time Sample.wednesday 9 0 0) (QueryDeals []) in
  fst (check_target_reached (m, w)) = Ret (true, zero_stats) /\
  daily_target_reached (fst (snd (check_target_reached (m, w)))) = true.
Proof.
  intros c free m w.
  destruct (non_positive_target_is_reached m w) as [H _].
  - reflexivity.
  - reflexivity.
  - right. exists []. split; reflexivity.
  - rewrite H. split; reflexivity.
Defined.

(** ** After a reset *)

(** X8. [reset_daily_state] returns, zeroes the four counters, clears the
    flag and the last trade time and stamps the date of its reading of the
    clock. Whatever the state was before, [should_allow_trading] called
    next decides by the Friday close alone: it allows, or denies with the
    Friday reason; the pacing settings play no part. *)
Theorem trading_after_reset (m : DailyProfitManager) (w : World) :
  let s1 := snd (reset_daily_state (m, w)) in
  let t := reading (snd s1) in
  reset_daily_state (m, w)
  = (Ret tt,
     (mkManager (config m) false (dt_date (reading w)) 0 zero zero zero None,
      tick (append_log (INFO, MsgMidnightReset) w))) /\
  fst (should_allow_trading s1)
  = if friday_closed (config m) t
    then Ret (false, FridayClosed (friday_close_hour (config m)))
    else Ret (true, TradingAllowed).
Proof.
  intros s1 t. subst s1 t. rewrite reset_daily_state_run. cbn [snd fst].
  split; [reflexivity|].
  rewrite should_allow_trading_gate.
  set (m1 := reset_manager m _). set (w1 := tick _).
  assert (Hs : exists m2 w2, after_rollover (m1, w1) = (m2, w2) /\
                 config m2 = config m /\ daily_target_reached m2 = false /\
                 last_trade_time m2 = None).
  { destruct (Calendar.date_gtb (dt_date (reading w1)) (last_reset_date m1)) eqn:E.
    - rewrite (after_rollover_rolled _ _ E). eexists _, _. split; [reflexivity|].
      repeat split.
    - rewrite (after_rollover_same _ _ E). eexists _, _. split; [reflexivity|].
      repeat split. }
  destruct Hs as (m2 & w2 & -> & Hc & Hf & Hl).
  destruct (friday_closed (config m) (reading w1)) eqn:Hfri.
  - rewrite gate_friday_closed; [rewrite Hc; reflexivity|exact Hf|rewrite Hc; exact Hfri].
  - rewrite gate_no_pacing; [reflexivity|exact Hf|rewrite Hc; exact Hfri|right; exact Hl].
Qed.

(** ** Friday hours *)

Lemma unsigned_not_below_zero (x : float) : unsigned x -> flt x zero = false.
Proof.
  unfold flt, zero, SFltb. destruct x as [s|s| |s m e]; cbn; intros H;
    try subst s; reflexivity.
Qed.

Lemma binary_round_aux_unsigned (m e : Z) (l : location) :
  unsigned (binary_round_aux prec emax false m e l).
Proof.
  unfold binary_round_aux.
  destruct (shr_fexp prec emax m e l) as [r1 e1].
  destruct (shr_fexp prec emax _ e1 loc_Exact) as [r2 e2].
  destruct (shr_m r2); cbn; [reflexivity| |exact I].
  destruct (e2 <=? emax - prec); reflexivity.
Qed.

Lemma fdiv_unsigned (x y : float) : unsigned x -> unsigned y -> unsigned (fdiv x y).
Proof.
  unfold fdiv, SFdiv.
  destruct x as [sx|sx| |sx mx ex], y as [sy|sy| |sy my ey]; cbn;
    intros Hx Hy; try subst sx; try subst sy; try reflexivity; try exact I.
  destruct (SFdiv_core_binary prec emax (Z.pos mx) ex (Z.pos my) ey) as [[mz ez] lz].
  apply binary_round_aux_unsigned.
Qed.

Lemma round_unsigned (x : float) (ndigits : Z) : unsigned x -> unsigned (round x ndigits).
Proof.
  unfold round. destruct x as [s|s| |s m e]; cbn; auto.
  intros ->.
  match goal with |- unsigned (match ?n with _ => _ end) => destruct n end;
    try reflexivity.
  apply fdiv_unsigned; reflexivity.
Qed.

Lemma total_seconds_unsigned (delta : Z) : 0 <= delta -> unsigned (Calendar.total_seconds delta).
Proof.
  unfold Calendar.total_seconds, Z_truediv. destruct delta; intros H; try lia.
  - reflexivity.
  - apply fdiv_unsigned; reflexivity.
Qed.

Lemma date_compare_refl (d : date) : Calendar.date_compare d d = Eq.
Proof. unfold Calendar.date_compare. rewrite !Z.compare_refl. reflexivity. Qed.

(** Against the close of the same day, [now >= friday_close] is
    [now.hour >= close_hour]. *)
Lemma datetime_geb_close (t : datetime) (h : Z) :
  0 <= minute t -> 0 <= second t -> 0 <= microsecond t ->
  Calendar.datetime_geb t (mkdatetime (dt_date t) h 0 0 0) = (h <=? hour t).
Proof.
  intros Hm Hs Hu.
  unfold Calendar.datetime_geb, Calendar.datetime_compare, Calendar.time_compare.
  rewrite date_compare_refl. cbn [hour minute second microsecond].
  destruct (Z.compare_spec (hour t) h);
    destruct (Z.compare_spec (minute t) 0);
    destruct (Z.compare_spec (second t) 0);
    destruct (Z.compare_spec (microsecond t) 0); lia.
Qed.

(** X9. [get_friday_trading_hours_remaining] reads the clock once and
    changes nothing else. Off a Friday it returns [None]. On a Friday, with
    a close hour a day has, it returns hours that are never below zero:
    0.0 from the hour at which [should_allow_trading] closes the day, and
    before that the time to the close in hours, rounded to one place,
    which is 0.0 as well in the last minutes before the close. *)
Theorem friday_hours_remaining (m : DailyProfitManager) (w : World) :
  let t := reading w in
  let c := config m in
  (Calendar.weekday (dt_date t) <> 4 ->
   get_friday_trading_hours_remaining (m, w) = (Ret None, (m, tick w))) /\
  (Calendar.weekday (dt_date t) = 4 ->
   0 <= friday_close_hour c < 24 ->
   Calendar.valid_datetime t = true ->
   exists h,
     get_friday_trading_hours_remaining (m, w) = (Ret (Some h), (m, tick w)) /\
     flt h zero = false /\
     (friday_closed c t = true -> h = zero) /\
     (friday_closed c t = false ->
      h = round (fdiv (Calendar.total_seconds
                         (Calendar.sub (mkdatetime (dt_date t) (friday_close_hour c) 0 0 0) t))
                      (of_Z 3600)) 1)).
Proof.
  intros t c. subst t c. unfold get_friday_trading_hours_remaining, reading.
  split.
  - intros Hd. msimpl. apply Z.eqb_neq in Hd. rewrite Hd. reflexivity.
  - intros Hd Hc Hv.
    destruct (valid_time_fields _ Hv) as (_ & Hh & Hmi & Hs & Hu).
    msimpl. rewrite Hd. cbn [Z.eqb negb].
    unfold Calendar.replace_hour.
    assert (Hr : (0 <=? friday_close_hour (config m)) && (friday_close_hour (config m) <? 24)
                 = true)
      by (apply andb_true_intro; split; [apply Z.leb_le|apply Z.ltb_lt]; lia).
    rewrite Hr. msimpl.
    rewrite datetime_geb_close by lia.
    unfold friday_closed. rewrite Hd. cbn [Z.eqb andb].
    destruct (friday_close_hour (config m) <=? hour (clock w (ticks w))) eqn:Hcl.
    + exists zero. split; [reflexivity|]. split; [reflexivity|].
      split; [reflexivity|discriminate].
    + eexists. split; [reflexivity|]. split; [|split; [discriminate|reflexivity]].
      apply unsigned_not_below_zero, round_unsigned, fdiv_unsigned; [|reflexivity].
      apply total_seconds_unsigned. apply Z.leb_gt in Hcl.
      unfold Calendar.sub, Calendar.to_microseconds. cbn [dt_date hour minute second microsecond].
      nia.
Qed.

Lemma friday_hours_remaining_witness :
  let m := Sample.manager "gentle" Sample.friday in
  get_friday_trading_hours_remaining
    (m, Sample.world (Sample.at_time Sample.wednesday 12 0 0) QueryNone)
  = (Ret None, (m, tick (Sample.world (Sample.at_time Sample.wednesday 12 0 0) QueryNone))) /\
  fst (get_friday_trading_hours_remaining
         (m, Sample.world (Sample.at_time Sample.friday 21 30 0) QueryNone))
  = Ret (Some (Sample.decimal 5 10)) /\
  fst (get_friday_trading_hours_remaining
         (m, Sample.world (Sample.at_time Sample.friday 22 5 0) QueryNone))
  = Ret (Some zero) /\
  friday_closed (config m) (Sample.at_time Sample.friday 21 58 0) = false /\
  fst (get_friday_trading_hours_remaining
         (m, Sample.world (Sample.at_time Sample.friday 21 58 0) QueryNone))
  = Ret (Some zero).
Proof.
  intros m. split; [|split; [|split; [|split; [reflexivity|]]]].
  - apply (friday_hours_remaining m
             (Sample.world (Sample.at_time Sample.wednesday 12 0 0) QueryNone)).
    discriminate.
  - destruct (friday_hours_remaining m
                (Sample.world (Sample.at_time Sample.friday 21 30 0) QueryNone))
      as [_ H].
    destruct H as (h & -> & _ & _ & Hh); [reflexivity|cbn; lia|reflexivity|].
    rewrite Hh by reflexivity. reflexivity.
  - destruct (friday_hours_remaining m
                (Sample.world (Sample.at_time Sample.friday 22 5 0) QueryNone))
      as [_ H].
    destruct H as (h & -> & _ & Hh & _); [reflexivity|cbn; lia|reflexivity|].
    rewrite Hh by reflexivity. reflexivity.
  - destruct (friday_hours_remaining m
                (Sample.world (Sample.at_time Sample.friday 21 58 0) QueryNone))
      as [_ H].
    destruct H as (h & -> & _ & _ & Hh); [reflexivity|cbn; lia|reflexivity|].
    rewrite Hh by reflexivity. reflexivity.
Defined.

(** X10. A configured close hour that no day has (below 0 or above 23)
    goes unnoticed by [should_allow_trading], but on a Friday
    [get_friday_trading_hours_remaining] raises [ValueError] when it builds
    the close time, and [get_progress_report], which calls it outside any
    [try], returns no report. *)
Theorem friday_close_hour_out_of_range (m : DailyProfitManager) (w : World) :
  (forall k, Calendar.weekday (dt_date (clock w k)) = 4) ->
  ~ 0 <= friday_close_hour (config m) < 24 ->
  get_friday_trading_hours_remaining (m, w) = (Raise ValueError, (m, tick w)) /\
  forall r, fst (get_progress_report (m, w)) <> Ret r.
Proof.
  intros Hfri Hc.
  assert (Hrep : forall h, (0 <=? h) && (h <? 24) = false -> forall t,
             Calendar.replace_hour t h = Raise ValueError)
    by (intros h Hh t; unfold Calendar.replace_hour; rewrite Hh; reflexivity).
  assert (Hb : (0 <=? friday_close_hour (config m)) && (friday_close_hour (config m) <? 24)
               = false).
  { destruct (0 <=? _) eqn:E1; [|reflexivity].
    destruct (_ <? 24) eqn:E2; [|reflexivity].
    apply Z.leb_le in E1. apply Z.ltb_lt in E2. lia. }
  assert (Hraise : forall s : Sys, config (fst s) = config m -> clock (snd s) = clock w ->
             fst (get_friday_trading_hours_remaining s) = Raise ValueError).
  { intros [m1 w1] Hcfg Hclk. cbn [fst snd] in Hcfg, Hclk.
    unfold get_friday_trading_hours_remaining. msimpl.
    rewrite Hclk, Hfri, Hcfg. cbn [Z.eqb negb]. rewrite Hrep by exact Hb. reflexivity. }
  split.
  { rewrite (surjective_pairing (get_friday_trading_hours_remaining (m, w))).
    rewrite get_friday_trading_hours_remaining_run, Hraise; reflexivity. }
  intros r.
  destruct (get_daily_stats_effect m w) as (stats & m1 & w1 & Hs & Hm & Hk & _).
  assert (Hcfg : config m1 = config m).
  { destruct Hm as [->|(deals & _ & _ & ->)]; reflexivity. }
  assert (Hclk : clock w1 = clock w) by (destruct Hk as (? & _); assumption).
  unfold get_progress_report. msimpl. rewrite Hs.
  destruct (py_int _); [|discriminate].
  destruct (py_int _); [|discriminate].
  match goal with
  | |- context [get_friday_trading_hours_remaining ?s] =>
      assert (Hf : fst (get_friday_trading_hours_remaining s) = Raise ValueError)
        by (apply Hraise; [exact Hcfg|exact Hclk]);
      destruct (get_friday_trading_hours_remaining s) as [[h|e] s2]
  end; cbn in Hf; [discriminate Hf|discriminate].
Qed.

Lemma friday_close_hour_out_of_range_witness :
  let c := Sample.cfg "gentle" in
  let late := {| daily_target_gross := daily_target_gross c;
                 broker_fee_per_lot := broker_fee_per_lot c;
                 enable_pacing := true; pacing_mode := "gentle";
                 min_trade_interval_normal := 180;
                 min_trade_interval_aggressive := 60;
                 friday_close_hour := 24;
                 adaptive_threshold := adaptive_threshold c;
                 estimated_minutes_per_trade := 30;
                 state_file := state_file c;
                 magic_number := 790079; symbol := "XAUUSD" |} in
  let m := init_manager late Sample.friday in
  let w := Sample.world (Sample.at_time Sample.friday 12 0 0) QueryNone in
  get_friday_trading_hours_remaining (m, w) = (Raise ValueError, (m, tick w)) /\
  forall r, fst (get_progress_report (m, w)) <> Ret r.
Proof.
  intros c late m w. apply (friday_close_hour_out_of_range m w).
  - intros k. reflexivity.
  - cbn. lia.
Defined.

(** ** Saving and loading *)

(** X12. A state file that is missing, cannot be opened or decoded, or
    whose ['date'] is missing or is not text leaves the object exactly as
    it was: [load_state] returns, reads no clock, and logs the missing file
    at debug level and each of the other cases as an error. *)
Theorem load_state_unusable_file (m : DailyProfitManager) (w : World) :
  let path := state_file (config m) in
  (files w !! path = None ->
   load_state (m, w) = (Ret tt, (m, append_log (DEBUG, MsgNoSavedState) w))) /\
  (forall e, files w !! path = Some (Unreadable e) ->
   load_state (m, w) = (Ret tt, (m, append_log (ERROR, MsgLoadError e) w))) /\
  (forall d, files w !! path = Some (JsonObject d) ->
   d !! "date" = None ->
   load_state (m, w) = (Ret tt, (m, append_log (ERROR, MsgLoadError KeyError) w))) /\
  (forall d v, files w !! path = Some (JsonObject d) ->
   d !! "date" = Some v -> (forall text, v <> JStr text) ->
   load_state (m, w) = (Ret tt, (m, append_log (ERROR, MsgLoadError TypeError) w))).
Proof.
  intros path. subst path. unfold load_state. repeat split.
  - intros H. msimpl. rewrite H. reflexivity.
  - intros e H. msimpl. rewrite H. reflexivity.
  - intros d H Hd. msimpl. rewrite H. msimpl.
    unfold get_date_text. rewrite Hd. reflexivity.
  - intros d v H Hd Hv. msimpl. rewrite H. msimpl.
    unfold get_date_text. rewrite Hd.
    destruct v; try reflexivity. exfalso. eapply Hv. reflexivity.
Qed.

Lemma load_state_unusable_file_witness :
  let m := with_counters (Sample.manager "adaptive" Sample.wednesday)
             2 (of_Z 40) (Sample.decimal 772 100) (Sample.decimal 3228 100) in
  let w := Sample.world (Sample.at_time Sample.wednesday 10 0 0) QueryNone in
  let path := state_file (config m) in
  load_state (m, w) = (Ret tt, (m, append_log (DEBUG, MsgNoSavedState) w)) /\
  load_state (m, write_file path (Unreadable JSONDecodeError) w)
  = (Ret tt,
     (m, append_log (ERROR, MsgLoadError JSONDecodeError)
           (write_file path (Unreadable JSONDecodeError) w))) /\
  load_state (m, write_file path (JsonObject {[ "trades_today" := JInt 9 ]}) w)
  = (Ret tt,
     (m, append_log (ERROR, MsgLoadError KeyError)
           (write_file path (JsonObject {[ "trades_today" := JInt 9 ]}) w))).
Proof.
  intros m w path. split; [|split].
  - apply (load_state_unusable_file m w). reflexivity.
  - apply (load_state_unusable_file m (write_file path (Unreadable JSONDecodeError) w)).
    reflexivity.
  - eapply (load_state_unusable_file m
              (write_file path (JsonObject {[ "trades_today" := JInt 9 ]}) w));
      reflexivity.
Defined.

(** X13. A snapshot of today that holds the date alone is loaded with the
    defaults of the missing keys: the flag is cleared and the four counters
    are set to zero, whatever they were; only the last trade time is kept. *)
Theorem load_state_missing_keys (m : DailyProfitManager) (w : World)
    (text : string) (saved : datetime) :
  files w !! state_file (config m) = Some (JsonObject {[ "date" := JStr text ]}) ->
  Iso.datetime_fromisoformat text = Ret saved ->
  Calendar.date_eqb (dt_date saved) (dt_date (reading w)) = true ->
  load_state (m, w)
  = (Ret tt,
     (mkManager (config m) false (last_reset_date m) 0 zero zero zero (last_trade_time m),
      append_log (INFO, MsgStateLoaded zero 0) (tick w))).
Proof.
  intros Hf Hp Heq.
  rewrite (load_state_same_day m w _ text saved false 0 zero zero zero None Hf);
    try assumption; try reflexivity.
Qed.

Lemma load_state_missing_keys_witness :
  let m0 := Sample.manager "adaptive" Sample.wednesday in
  let m := set_daily_target_reached true
             (set_last_trade_time (Some (Sample.at_time Sample.wednesday 9 30 0))
                (with_counters m0 4 (of_Z 180) (Sample.decimal 1544 100)
                   (Sample.decimal 16456 100))) in
  let w := write_file (state_file (config m)) (JsonObject {[ "date" := JStr "2024-01-03" ]})
             (Sample.world (Sample.at_time Sample.wednesday 10 0 0) QueryNone) in
  load_state (m, w)
  = (Ret tt,
     (set_last_trade_time (Some (Sample.at_time Sample.wednesday 9 30 0)) m0,
      append_log (INFO, MsgStateLoaded zero 0) (tick w))).
Proof.
  intros m0 m w.
  apply (load_state_missing_keys m w "2024-01-03" (mkdatetime Sample.wednesday 0 0 0 0));
    reflexivity.
Defined.

(** X14. The keys of a snapshot of today are assigned one after the other
    inside the [try]: when the last trade time it holds is a value that is
    not text, the flag and the four counters are already loaded when the
    conversion raises; the error is logged in place of the loaded line and
    the last trade time stays as it was. *)
Theorem load_state_stops_at_last_trade (m : DailyProfitManager) (w : World)
    (d : gmap string jval) (text : string) (saved : datetime)
    (reached : bool) (trades : Z) (gross fees net : float) :
  files w !! state_file (config m) = Some (JsonObject d) ->
  d !! "date" = Some (JStr text) ->
  Iso.datetime_fromisoformat text = Ret saved ->
  Calendar.date_eqb (dt_date saved) (dt_date (reading w)) = true ->
  d !! "target_reached" = Some (JBool reached) ->
  d !! "trades_today" = Some (JInt trades) ->
  d !! "gross_profit" = Some (JFloat gross) ->
  d !! "total_fees" = Some (JFloat fees) ->
  d !! "net_profit" = Some (JFloat net) ->
  get_last_trade d = Raise TypeError ->
  load_state (m, w)
  = (Ret tt,
     (mkManager (config m) reached (last_reset_date m) trades fees gross net
                (last_trade_time m),
      append_log (ERROR, MsgLoadError TypeError) (tick w))).
Proof.
  intros Hfile Hdate Hparse Heq Hb Hn Hg Hf Hnet Hl.
  unfold load_state, reading in *. msimpl.
  rewrite Hfile. msimpl. unfold get_date_text. rewrite Hdate. msimpl.
  rewrite Hparse. msimpl. rewrite Heq. msimpl.
  unfold get_bool, get_int, get_float. rewrite Hb. msimpl. rewrite Hn. msimpl.
  rewrite Hg. msimpl. rewrite Hf. msimpl. rewrite Hnet. msimpl. rewrite Hl.
  reflexivity.
Qed.

Lemma load_state_stops_at_last_trade_witness :
  let m := Sample.manager "adaptive" Sample.wednesday in
  let d := <["last_trade_time" := JInt 1704274200]>
             (state_dict (with_counters m 4 (of_Z 180) (Sample.decimal 1544 100)
                            (Sample.decimal 16456 100))) in
  let w := write_file (state_file (config m)) (JsonObject d)
             (Sample.world (Sample.at_time Sample.wednesday 10 0 0) QueryNone) in
  load_state (m, w)
  = (Ret tt,
     (with_counters m 4 (of_Z 180) (Sample.decimal 1544 100) (Sample.decimal 16456 100),
      append_log (ERROR, MsgLoadError TypeError) (tick w))).
Proof.
  intros m d w.
  apply (load_state_stops_at_last_trade m w d "2024-01-03"
           (mkdatetime Sample.wednesday 0 0 0 0)); reflexivity.
Defined.

(** X15. [update] never raises. It leaves the object as the midnight check
    leaves it, and it writes the state file exactly when that object
    counts at least one trade and the disk is writable; the file written is
    the snapshot of that object. After a rollover the count is zero, so the
    file is not written then. *)
Theorem update_saves_counted_trades (m : DailyProfitManager) (w : World) :
  let s' := snd (update (m, w)) in
  let m' := fst s' in
  fst (update (m, w)) = Ret tt /\
  m' = fst (after_rollover (m, w)) /\
  files (snd s')
  = (if (0 <? trades_today m') && disk_writable w
     then <[state_file (config m) := JsonObject (state_dict m')]> (files w)
     else files w) /\
  (Calendar.date_gtb (dt_date (reading w)) (last_reset_date m) = true ->
   files (snd s') = files w).
Proof.
  intros s' m'. subst s' m'. rewrite update_run.
  assert (Hw : exists m1 w1, after_rollover (m, w) = (m1, w1) /\
                 config m1 = config m /\ files w1 = files w /\
                 disk_writable w1 = disk_writable w /\
                 (Calendar.date_gtb (dt_date (reading w)) (last_reset_date m) = true ->
                  trades_today m1 = 0)).
  { destruct (Calendar.date_gtb (dt_date (reading w)) (last_reset_date m)) eqn:E.
    - rewrite (after_rollover_rolled _ _ E). eexists _, _. split; [reflexivity|].
      repeat split.
    - rewrite (after_rollover_same _ _ E). eexists _, _. split; [reflexivity|].
      repeat split. discriminate. }
  destruct Hw as (m1 & w1 & -> & Hc & Hf & Hd & Hz). cbn [fst snd].
  destruct (0 <? trades_today m1) eqn:Ht.
  - rewrite save_state_run. cbn [fst snd]. rewrite Hd, Hc.
    destruct (disk_writable w); cbn; rewrite ?Hf, ?Ht; cbn [andb].
    + split; [reflexivity|]. split; [reflexivity|]. split; [reflexivity|].
      intros H. rewrite (Hz H) in Ht. discriminate.
    + split; [reflexivity|]. split; [reflexivity|]. split; [reflexivity|].
      intros _. reflexivity.
  - cbn [fst snd]. rewrite Hf, Ht. cbn [andb].
    split; [reflexivity|]. split; [reflexivity|]. split; [reflexivity|].
    intros _. reflexivity.
Qed.

(** X16. A trade recorded and then persisted by [update] survives a
    restart: when [record_trade] is followed by [update] on the same day
    with a writable disk, an object created afresh with the same
    configuration that calls [load_state] on that day holds the flag, the
    four counters and the last trade time of the object that recorded the
    trade. *)
Theorem trade_survives_restart
    (m : DailyProfitManager) (w : World) (lot_size profit : float) (today : date) :
  0 <= trades_today m ->
  disk_writable w = true ->
  Calendar.valid_date (last_reset_date m) = true ->
  Calendar.valid_datetime (reading w) = true ->
  let s1 := snd (record_trade lot_size profit (m, w)) in
  let s2 := snd (update s1) in
  Calendar.date_gtb (dt_date (reading (snd s1))) (last_reset_date m) = false ->
  dt_date (reading (snd s2)) = last_reset_date m ->
  let restarted := init_manager (config m) today in
  fst (load_state (restarted, snd s2)) = Ret tt /\
  fst (snd (load_state (restarted, snd s2))) = set_last_reset_date today (fst s1).
Proof.
  intros Hn Hdisk Hvd Hvt s1 s2. subst s1 s2.
  rewrite record_trade_run. cbv zeta. cbn [snd].
  set (m1 := mkManager _ _ _ _ _ _ _ _). set (w1 := append_log _ _).
  intros Hday. rewrite update_run, (after_rollover_same m1 w1 Hday). cbn [fst].
  assert (Ht : (0 <? trades_today m1) = true) by (apply Z.ltb_lt; subst m1; cbn; lia).
  rewrite Ht, save_state_run.
  assert (Hd1 : disk_writable (tick w1) = true) by exact Hdisk.
  rewrite Hd1. cbn [snd].
  set (w2 := append_log _ _). intros Htoday.
  set (restarted := init_manager (config m) today).
  destruct (state_dict_reads m1) as (Rd & Rb & Rn & Rg & Rf & Rnet).
  assert (Rl : get_last_trade (state_dict m1) = Ret (last_trade_time m1)).
  { apply state_dict_last_trade. subst m1. cbn. intros t E. injection E as <-. exact Hvt. }
  pose proof (fromisoformat_date (last_reset_date m1) Hvd) as Rp.
  assert (Heq : Calendar.date_eqb (dt_date (mkdatetime (last_reset_date m1) 0 0 0 0))
                                  (dt_date (reading w2)) = true)
    by (cbn [dt_date]; rewrite Htoday; apply date_eqb_refl).
  assert (Hfile : files w2 !! state_file (config restarted)
                  = Some (JsonObject (state_dict m1)))
    by (subst w2; cbn; apply lookup_insert_eq).
  rewrite (load_state_same_day restarted w2 _ _ _ _ _ _ _ _ _
             Hfile Rd Rp Heq Rb Rn Rg Rf Rnet Rl).
  split; reflexivity.
Qed.

Lemma trade_survives_restart_witness :
  let m := Sample.manager "adaptive" Sample.wednesday in
  let w := Sample.world (Sample.at_time Sample.wednesday 10 0 0) QueryNone in
  let s1 := snd (record_trade (Sample.decimal 70 100) (of_Z 12) (m, w)) in
  let s2 := snd (update s1) in
  fst (snd (load_state (init_manager (config m) Sample.wednesday, snd s2))) = fst s1 /\
  trades_today (fst s1) = 1.
Proof.
  intros m w s1 s2.
  destruct (trade_survives_restart m w (Sample.decimal 70 100) (of_Z 12) Sample.wednesday)
    as [_ H].
  - cbn. lia.
  - reflexivity.
  - reflexivity.
  - reflexivity.
  - reflexivity.
  - reflexivity.
  - split; [exact H|reflexivity].
Defined.

(** ** What the gate needs and what it leaves *)

(** X18. In every pacing mode but the adaptive one [should_allow_trading]
    never queries the trade history: whatever it answers, it leaves the
    object and the environment as the midnight check leaves them, so on
    the same day the object is unchanged and only the clock was read. *)
Theorem gate_without_statistics (m : DailyProfitManager) (w : World) :
  pacing_mode (config m) <> "adaptive" ->
  snd (should_allow_trading (m, w)) = after_rollover (m, w) /\
  (Calendar.date_gtb (dt_date (reading w)) (last_reset_date m) = false ->
   snd (should_allow_trading (m, w)) = (m, tick w)).
Proof.
  intros Hmode.
  assert (H : snd (should_allow_trading (m, w)) = after_rollover (m, w)).
  { rewrite should_allow_trading_gate.
    pose proof (after_rollover_config m w) as Hc.
    destruct (after_rollover (m, w)) as [m1 w1]. cbn [fst] in Hc.
    destruct (daily_target_reached m1) eqn:Hf.
    { rewrite gate_target_reached by assumption. reflexivity. }
    destruct (friday_closed (config m1) (reading w)) eqn:Hfri.
    { rewrite gate_friday_closed by assumption. reflexivity. }
    destruct (enable_pacing (config m1)) eqn:Hp;
      [|rewrite gate_no_pacing by auto; reflexivity].
    destruct (last_trade_time m1) as [last|] eqn:Hl;
      [|rewrite gate_no_pacing by auto; reflexivity].
    assert (Hr : exists req, required_interval (reading w) (m1, w1) = (Ret req, (m1, w1))).
    { destruct (String.eqb (pacing_mode (config m1)) "aggressive") eqn:E1.
      { apply String.eqb_eq in E1. rewrite required_interval_aggressive by assumption. eauto. }
      destruct (String.eqb (pacing_mode (config m1)) "gentle") eqn:E2.
      { apply String.eqb_eq in E2. rewrite required_interval_gentle by assumption. eauto. }
      apply String.eqb_neq in E1, E2.
      rewrite required_interval_other; [eauto|assumption|assumption|congruence]. }
    destruct Hr as (req & Hr).
    rewrite (gate_pacing (reading w) last m1 w1 req (m1, w1)) by assumption.
    destruct (lt_Z _ _); [|reflexivity].
    destruct (of_int req); [|reflexivity].
    destruct (py_int _); reflexivity. }
  split; [exact H|].
  intros Hday. rewrite H. apply after_rollover_same. exact Hday.
Qed.

Lemma gate_without_statistics_witness :
  let m := set_last_trade_time (Some (Sample.at_time Sample.wednesday 10 0 0))
             (Sample.manager "gentle" Sample.wednesday) in
  let w := Sample.world (Sample.at_time Sample.wednesday 10 1 0)
             (QueryDeals [Sample.deal 1000 70]) in
  snd (should_allow_trading (m, w)) = (m, tick w).
Proof.
  intros m w. destruct (gate_without_statistics m w) as [_ H].
  - discriminate.
  - apply H. reflexivity.
Defined.

(** X19. With the clock and the stored last trade time valid datetimes and
    the two pacing intervals in range, [should_allow_trading] always
    returns a decision: no exception escapes it. *)
Theorem should_allow_trading_returns (m : DailyProfitManager) (w : World) :
  Calendar.valid_datetime (reading w) = true ->
  (forall last, last_trade_time m = Some last -> Calendar.valid_datetime last = true) ->
  intervals_in_range (config m) ->
  exists allow why s', should_allow_trading (m, w) = (Ret (allow, why), s').
Proof.
  intros Hvt Hvl [Hn Ha].
  rewrite should_allow_trading_gate.
  assert (Hs : exists m1 w1, after_rollover (m, w) = (m1, w1) /\ config m1 = config m /\
                 (last_trade_time m1 = None \/ last_trade_time m1 = last_trade_time m)).
  { destruct (Calendar.date_gtb (dt_date (reading w)) (last_reset_date m)) eqn:E.
    - rewrite (after_rollover_rolled _ _ E). eexists _, _. split; [reflexivity|].
      split; [reflexivity|left; reflexivity].
    - rewrite (after_rollover_same _ _ E). eexists _, _. split; [reflexivity|].
      split; [reflexivity|right; reflexivity]. }
  destruct Hs as (m1 & w1 & -> & Hc & Hl).
  destruct (daily_target_reached m1) eqn:Hf.
  { rewrite gate_target_reached by assumption. eauto. }
  destruct (friday_closed (config m1) (reading w)) eqn:Hfri.
  { rewrite gate_friday_closed by assumption. eauto. }
  destruct (enable_pacing (config m1)) eqn:Hp;
    [|rewrite gate_no_pacing by auto; eauto].
  destruct (last_trade_time m1) as [last|] eqn:Hlast;
    [|rewrite gate_no_pacing by auto; eauto].
  assert (Hvlast : Calendar.valid_datetime last = true)
    by (destruct Hl as [Hl|Hl]; [discriminate|apply Hvl; rewrite <- Hl; reflexivity]).
  destruct (required_interval_effect (reading w) m1 w1) as (req & m2 & w2 & Hr & Hreq & _).
  assert (Hb : Z.abs req < 2 ^ 62) by (rewrite Hc in Hreq; destruct Hreq as [->| ->]; assumption).
  destruct (lt_Z (seconds_since (reading w) last) req) eqn:Hlt.
  - destruct (gate_pacing_denies (reading w) last m1 w1 req (m2, w2))
      as (wait & _ & Hg); try assumption.
    rewrite Hg. eauto.
  - rewrite (gate_pacing_allows (reading w) last m1 w1 req (m2, w2)) by assumption. eauto.
Qed.

Lemma should_allow_trading_returns_witness :
  let m := set_last_trade_time (Some (Sample.at_time Sample.wednesday 9 59 30))
             (Sample.manager "adaptive" Sample.wednesday) in
  let w := Sample.world (Sample.at_time Sample.wednesday 10 0 0)
             (QueryDeals [Sample.deal 1000 70]) in
  exists allow why s', should_allow_trading (m, w) = (Ret (allow, why), s').
Proof.
  intros m w. apply (should_allow_trading_returns m w).
  - reflexivity.
  - intros last E. injection E as <-. reflexivity.
  - split; cbn; lia.
Defined.

(** ** What no call does *)

(** [load_state] returns whatever the file holds, and assigns neither the
    configuration nor the reset date. *)
Lemma load_state_frame (s : Sys) :
  fst (load_state s) = Ret tt /\
  config (fst (snd (load_state s))) = config (fst s) /\
  last_reset_date (fst (snd (load_state s))) = last_reset_date (fst s).
Proof.
  destruct s as [m w]. unfold load_state. msimpl.
  destruct (files w !! state_file (config m)) as [[e|d]|]; msimpl; auto.
  destruct (get_date_text d); msimpl; auto.
  destruct (Iso.datetime_fromisoformat _); msimpl; auto.
  destruct (Calendar.date_eqb _ _); msimpl; auto.
  destruct (get_bool _ _ _); msimpl; auto.
  destruct (get_int _ _ _); msimpl; auto.
  destruct (get_float _ _ _); msimpl; auto.
  destruct (get_float _ _ _); msimpl; auto.
  destruct (get_float _ _ _); msimpl; auto.
  destruct (get_last_trade _) as [[t|]|]; msimpl; auto.
Qed.

Lemma check_target_reached_returns (m : DailyProfitManager) (w : World) :
  exists b stats m1 w1 s',
    get_daily_stats (m, w) = (Ret stats, (m1, w1)) /\
    check_target_reached (m, w) = (Ret (b, stats), s') /\
    (fst s' = m1 \/ fst s' = set_daily_target_reached true m1).
Proof.
  destruct (get_daily_stats_effect m w) as (stats & m1 & w1 & Hs & _).
  rewrite (check_target_reached_run m w stats m1 w1 Hs). cbv zeta.
  eexists _, stats, m1, w1, _. split; [exact Hs|]. split; [reflexivity|].
  destruct (_ && _); [right|left]; reflexivity.
Qed.

(** X20. Only three calls can let an exception escape: the gate, the
    Friday hours and the progress report. Every other method returns,
    whatever the trade history answers or raises, whatever the state file
    holds and whether or not the disk can be written. *)
Theorem absorbed_failures (c : call) (s : Sys) :
  may_raise c = false -> exists v, fst (run_call c s) = Ret v.
Proof.
  intros Hc. destruct s as [m w].
  destruct c; try discriminate; unfold run_call, returning; msimpl.
  - rewrite calculate_trade_fee_run. eauto.
  - destruct (get_daily_stats_effect m w) as (stats & m1 & w1 & -> & _). eauto.
  - destruct (check_target_reached_returns m w) as (b & stats & m1 & w1 & s' & _ & -> & _).
    eauto.
  - rewrite record_trade_run. eauto.
  - rewrite reset_daily_state_run. eauto.
  - destruct (get_daily_stats_effect m w) as (stats & m1 & w1 & Hs & _).
    unfold get_compact_progress. msimpl. rewrite Hs. eauto.
  - rewrite save_state_run. eauto.
  - destruct (load_state_frame (m, w)) as (H & _).
    destruct (load_state (m, w)) as [[[]|e] s']; [eauto|discriminate].
  - rewrite should_pause_trading_run.
    destruct (check_target_reached_returns m w) as (b & stats & m1 & w1 & s' & _ & -> & _).
    eauto.
  - rewrite update_run. destruct (after_rollover (m, w)) as [m1 w1].
    destruct (0 <? _); [rewrite save_state_run|]; eauto.
  - eauto.
  - unfold track_trade_close. msimpl. rewrite record_trade_run. eauto.
Qed.

Lemma absorbed_failures_witness :
  let m := Sample.manager "adaptive" Sample.wednesday in
  let w := write_file (state_file (config m)) (Unreadable JSONDecodeError)
             (Sample.world (Sample.at_time Sample.wednesday 10 0 0)
                (QueryRaises RuntimeError)) in
  (exists v, fst (run_call LoadState (m, w)) = Ret v) /\
  (exists v, fst (run_call ShouldPauseTrading (m, w)) = Ret v).
Proof.
  intros m w. split.
  - apply (absorbed_failures LoadState (m, w)). reflexivity.
  - apply (absorbed_failures ShouldPauseTrading (m, w)). reflexivity.
Defined.

(** ** The books over a run *)

Lemma books_kept_refl (s : Sys) : books_kept s s.
Proof. split; auto. Qed.

Lemma books_kept_trans (s1 s2 s3 : Sys) :
  books_kept s1 s2 -> books_kept s2 s3 -> books_kept s1 s3.
Proof. intros [A1 A2] [B1 B2]. split; [congruence|auto]. Qed.

Lemma books_kept_same (m m' : DailyProfitManager) (w w' : World) :
  config m' = config m -> counters m' = counters m -> books_kept (m, w) (m', w').
Proof.
  unfold counters. intros Hc Hk. injection Hk as H1 H2 H3 H4.
  split; [exact Hc|]. unfold books_balanced. cbn [fst]. rewrite H1, H2, H3, H4. auto.
Qed.

Lemma zero_books : zero = fsub zero zero.
Proof. reflexivity. Qed.

Lemma get_daily_stats_books (s : Sys) (r : result Stats) (s' : Sys) :
  get_daily_stats s = (r, s') -> books_kept s s'.
Proof.
  destruct s as [m w]. intros H.
  destruct (get_daily_stats_effect m w) as (stats & m1 & w1 & Hs & Hm & _).
  rewrite Hs in H. injection H as _ <-.
  destruct Hm as [->|(deals & _ & _ & ->)]; [apply books_kept_same; reflexivity|].
  split; [reflexivity|]. intros _. split; [reflexivity|].
  cbn. unfold count_of. lia.
Qed.

Lemma after_rollover_books (s : Sys) : books_kept s (after_rollover s).
Proof.
  destruct s as [m w].
  destruct (Calendar.date_gtb (dt_date (reading w)) (last_reset_date m)) eqn:Hd.
  - rewrite after_rollover_rolled by assumption.
    split; [reflexivity|]. intros _. split; [apply zero_books|cbn; lia].
  - rewrite after_rollover_same by assumption. apply books_kept_same; reflexivity.
Qed.

Lemma gate_books (t : datetime) (s : Sys) (r : result (bool * reason)) (s' : Sys) :
  gate t s = (r, s') -> books_kept s s'.
Proof.
  destruct s as [m w]. intros H.
  destruct (daily_target_reached m) eqn:Hf.
  { rewrite gate_target_reached in H by assumption. inversion H. apply books_kept_refl. }
  destruct (friday_closed (config m) t) eqn:Hfri.
  { rewrite gate_friday_closed in H by assumption. inversion H. apply books_kept_refl. }
  destruct (enable_pacing (config m)) eqn:Hp;
    [|rewrite gate_no_pacing in H by auto; inversion H; apply books_kept_refl].
  destruct (last_trade_time m) as [last|] eqn:Hl;
    [|rewrite gate_no_pacing in H by auto; inversion H; apply books_kept_refl].
  assert (Hreq : exists req s2, required_interval t (m, w) = (Ret req, s2) /\
                   books_kept (m, w) s2).
  { destruct (String.eqb (pacing_mode (config m)) "aggressive") eqn:E1.
    { apply String.eqb_eq in E1. rewrite required_interval_aggressive by assumption.
      eexists _, _. split; [reflexivity|apply books_kept_refl]. }
    destruct (String.eqb (pacing_mode (config m)) "gentle") eqn:E2.
    { apply String.eqb_eq in E2. rewrite required_interval_gentle by assumption.
      eexists _, _. split; [reflexivity|apply books_kept_refl]. }
    destruct (String.eqb (pacing_mode (config m)) "adaptive") eqn:E3.
    - apply String.eqb_eq in E3.
      destruct (get_daily_stats_effect m w) as (stats & m' & w' & Hs & _).
      rewrite (required_interval_adaptive t m w stats _ E3 Hs).
      eexists _, _. split; [reflexivity|].
      eapply get_daily_stats_books. exact Hs.
    - apply String.eqb_neq in E1, E2, E3.
      rewrite required_interval_other by assumption.
      eexists _, _. split; [reflexivity|apply books_kept_refl]. }
  destruct Hreq as (req & s2 & Hr & Hk).
  rewrite (gate_pacing t last m w req s2) in H by assumption.
  destruct (lt_Z _ _); [|inversion H; subst; assumption].
  destruct (of_int req); [|inversion H; subst; assumption].
  destruct (py_int _); inversion H; subst; assumption.
Qed.

(** Every call but [load_state] keeps the books. *)
Lemma run_call_books (c : call) (s : Sys) :
  c <> LoadState -> books_kept s (snd (run_call c s)).
Proof.
  intros Hc. destruct c; try congruence; unfold run_call, returning; msimpl.
  - rewrite calculate_trade_fee_run. apply books_kept_refl.
  - destruct (get_daily_stats s) as [[st|e] s'] eqn:H;
      apply get_daily_stats_books in H; exact H.
  - destruct s as [m w].
    destruct (check_target_reached_returns m w)
      as (b & stats & m1 & w1 & [m' w'] & Hs & -> & Hm).
    apply get_daily_stats_books in Hs. cbn [fst snd] in *.
    eapply books_kept_trans; [exact Hs|].
    destruct Hm as [->| ->]; apply books_kept_same; reflexivity.
  - destruct s as [m w]. rewrite should_allow_trading_gate.
    eapply books_kept_trans; [apply after_rollover_books|].
    destruct (gate (reading w) (after_rollover (m, w))) as [[g|e] s'] eqn:H;
      apply gate_books in H; exact H.
  - pose proof (get_friday_trading_hours_remaining_run s) as H.
    destruct (get_friday_trading_hours_remaining s) as [[h|e] s']; cbn in H; subst s';
      destruct s as [m w]; apply books_kept_same; reflexivity.
  - destruct s as [m w]. rewrite record_trade_run. cbn.
    split; [reflexivity|]. intros [_ Hn]. split; [reflexivity|cbn in *; lia].
  - destruct s as [m w]. rewrite reset_daily_state_run. cbn.
    split; [reflexivity|]. intros _. split; [apply zero_books|cbn; lia].
  - destruct s as [m w].
    destruct (get_progress_report_state m w) as (stats & m1 & w1 & Hs & Hm & _).
    apply get_daily_stats_books in Hs.
    destruct (get_progress_report (m, w)) as [[rep|e] [m' w']];
      cbn in Hm; subst m'; exact Hs.
  - destruct s as [m w].
    destruct (get_compact_progress_state m w) as (stats & s1 & Hs & Hm).
    apply get_daily_stats_books in Hs.
    destruct (get_compact_progress (m, w)) as [[rep|e] s']; cbn in Hm; subst s'; exact Hs.
  - destruct s as [m w]. rewrite save_state_run. apply books_kept_same; reflexivity.
  - destruct s as [m w]. rewrite should_pause_trading_run.
    destruct (check_target_reached_returns m w)
      as (b & stats & m1 & w1 & [m' w'] & Hs & -> & Hm).
    apply get_daily_stats_books in Hs. cbn [fst snd] in *.
    eapply books_kept_trans; [exact Hs|].
    destruct Hm as [->| ->]; apply books_kept_same; reflexivity.
  - destruct s as [m w]. rewrite update_run.
    destruct (0 <? _).
    + destruct (after_rollover (m, w)) as [m1 w1] eqn:E.
      rewrite save_state_run. cbn [snd].
      apply (books_kept_trans _ (m1, w1)); [rewrite <- E; apply after_rollover_books|].
      apply books_kept_same; reflexivity.
    + apply after_rollover_books.
  - destruct s as [m w]. apply books_kept_same; reflexivity.
  - destruct s as [m w]. unfold track_trade_close. msimpl. rewrite record_trade_run. cbn.
    split; [reflexivity|]. intros [_ Hn]. split; [reflexivity|cbn in *; lia].
Qed.

(** X21. The bookkeeping invariant holds over every run: from an object
    whose stored net is its stored gross minus its stored fees and whose
    trade count is not negative (as [__init__] and a reset leave it), any
    sequence of calls other than [load_state], with the trade history, the
    files and the disk changing in between, leaves such an object, with
    the configuration it had. *)
Theorem books_balanced_over_runs (tr : list event) :
  forallb no_load tr = true ->
  forall s, books_balanced (fst s) ->
  books_balanced (fst (snd (run_trace tr s))) /\
  config (fst (snd (run_trace tr s))) = config (fst s).
Proof.
  induction tr as [|e tr IH]; intros Hno s Hb.
  - cbn. auto.
  - cbn [forallb] in Hno. apply andb_true_split in Hno. destruct Hno as [He Htr].
    destruct e as [c|h|p fc|b]; cbn [run_trace].
    + assert (Hc : c <> LoadState) by (intros ->; discriminate).
      pose proof (run_call_books c s Hc) as [Hcfg Hkeep].
      destruct (run_call c s) as [r s'] eqn:Hrun. cbn [fst snd] in *.
      destruct (IH Htr s' (Hkeep Hb)) as [Hb' Hc'].
      destruct (run_trace tr s') as [rs s'']. cbn [fst snd] in *.
      split; [assumption|congruence].
    + apply (IH Htr (fst s, set_history h (snd s))). exact Hb.
    + apply (IH Htr (fst s, set_file p fc (snd s))). exact Hb.
    + apply (IH Htr (fst s, set_disk b (snd s))). exact Hb.
Qed.

Lemma books_balanced_over_runs_witness :
  let m := Sample.manager "adaptive" Sample.wednesday in
  let w := Sample.world (Sample.at_time Sample.wednesday 10 0 0) QueryNone in
  let tr := [Invoke (RecordTrade (Sample.decimal 70 100) (of_Z 12));
             Invoke Update;
             HistoryBecomes (fun _ _ => QueryDeals [Sample.deal 1200 70; Sample.deal (-450) 35]);
             Invoke ShouldAllowTrading;
             Invoke GetProgressReport;
             DiskBecomes false;
             Invoke (TrackTradeClose 7 (of_Z 3) "BUY" (Sample.decimal 35 100)
                       (of_Z 2000) (of_Z 2001) "tp");
             Invoke Update] in
  books_balanced (fst (snd (run_trace tr (m, w)))) /\
  config (fst (snd (run_trace tr (m, w)))) = config m.
Proof.
  intros m w tr. apply (books_balanced_over_runs tr).
  - reflexivity.
  - split; [reflexivity|cbn; lia].
Defined.

(** ** The fee of a negated lot *)

Lemma binary_round_aux_opp (s : bool) (m e : Z) (l : location) :
  binary_round_aux prec emax (negb s) m e l = SFopp (binary_round_aux prec emax s m e l).
Proof.
  unfold binary_round_aux.
  destruct (shr_fexp prec emax m e l) as [r1 e1].
  destruct (shr_fexp prec emax _ e1 loc_Exact) as [r2 e2].
  destruct (shr_m r2); cbn; try reflexivity.
  destruct (e2 <=? emax - prec); reflexivity.
Qed.

Lemma fmul_opp (x y : float) : fmul (SFopp x) y = SFopp (fmul x y).
Proof.
  unfold fmul, SFmul.
  destruct x as [sx|sx| |sx mx ex], y as [sy|sy| |sy my ey]; cbn;
    try reflexivity; try (destruct sx, sy; reflexivity).
  rewrite <- binary_round_aux_opp. destruct sx, sy; reflexivity.
Qed.

Lemma fdiv_opp (x y : float) : fdiv (SFopp x) y = SFopp (fdiv x y).
Proof.
  unfold fdiv, SFdiv.
  destruct x as [sx|sx| |sx mx ex], y as [sy|sy| |sy my ey]; cbn;
    try reflexivity; try (destruct sx, sy; reflexivity).
  destruct (SFdiv_core_binary prec emax (Z.pos mx) ex (Z.pos my) ey) as [[mz ez] lz].
  rewrite <- binary_round_aux_opp. destruct sx, sy; reflexivity.
Qed.

Lemma round_opp (x : float) (ndigits : Z) : round (SFopp x) ndigits = SFopp (round x ndigits).
Proof.
  unfold round. destruct x as [s|s| |s m e]; cbn; try reflexivity.
  match goal with |- match ?n with _ => _ end = _ => destruct n end; try reflexivity.
  apply (fdiv_opp (S754_finite s _ 0)).
Qed.

(** X22. The fee is an odd function of the lot size: for the negated lot
    [calculate_trade_fee] returns the negated fee, to the last bit, so a
    negative lot is charged a negative fee of the same magnitude as the
    positive lot. *)
Theorem fee_of_negated_lot (lot_size : float) (m : DailyProfitManager) (w : World) :
  calculate_trade_fee (SFopp lot_size) (m, w)
  = (Ret (SFopp (trade_fee (config m) lot_size)), (m, w)) /\
  calculate_trade_fee lot_size (m, w) = (Ret (trade_fee (config m) lot_size), (m, w)).
Proof.
  rewrite !calculate_trade_fee_run. cbn [fst]. unfold trade_fee.
  rewrite fmul_opp, round_opp. split; reflexivity.
Qed.

(** ** A new object *)

(** X23. An object as [__init__] leaves it has balanced books, and the
    first [should_allow_trading] decides by the Friday close alone: it
    allows, or denies with the Friday reason, whatever the pacing settings
    and whatever the trade history holds. *)
Theorem trading_after_init (c : Config) (today : date) (w : World) :
  let m := init_manager c today in
  books_balanced m /\
  fst (should_allow_trading (m, w))
  = if friday_closed c (reading w)
    then Ret (false, FridayClosed (friday_close_hour c))
    else Ret (true, TradingAllowed).
Proof.
  intros m. split; [split; [reflexivity|cbn; lia]|].
  rewrite should_allow_trading_gate.
  assert (Hs : exists m2 w2, after_rollover (m, w) = (m2, w2) /\
                 config m2 = c /\ daily_target_reached m2 = false /\
                 last_trade_time m2 = None).
  { destruct (Calendar.date_gtb (dt_date (reading w)) (last_reset_date m)) eqn:E.
    - rewrite (after_rollover_rolled _ _ E). eexists _, _. split; [reflexivity|].
      repeat split.
    - rewrite (after_rollover_same _ _ E). eexists _, _. split; [reflexivity|].
      repeat split. }
  destruct Hs as (m2 & w2 & -> & Hc & Hf & Hl).
  destruct (friday_closed c (reading w)) eqn:Hfri.
  - rewrite gate_friday_closed; [rewrite Hc; reflexivity|exact Hf|rewrite Hc; exact Hfri].
  - rewrite gate_no_pacing; [reflexivity|exact Hf|rewrite Hc; exact Hfri|right; exact Hl].
Qed.

(** ** Exact results *)

Lemma shr_1_exact (r : shr_record) :
  shr_r r = false -> shr_s r = false -> 0 <= shr_m r -> shr_m r mod 2 = 0 ->
  shr_r (shr_1 r) = false /\ shr_s (shr_1 r) = false.
Proof.
  destruct r as [m r s]. cbn. intros -> -> Hm Hd.
  destruct m as [|[p|p|]|p]; cbn; try lia; auto.
  - exfalso. change (Zpos p~1) with (2 * Zpos p + 1) in Hd.
    rewrite Z.add_comm, Z.mul_comm, Z.mod_add in Hd by lia. discriminate.
  - discriminate.
Qed.

Lemma pow2_pos (k : Z) : 0 <= k -> 0 < 2 ^ k.
Proof. intros. apply Z.pow_pos_nonneg; lia. Qed.

Lemma mod_pow2_split (m a b : Z) :
  0 <= a -> 0 <= b -> m mod 2 ^ (a + b) = 0 -> m mod 2 ^ a = 0 /\ (m / 2 ^ a) mod 2 ^ b = 0.
Proof.
  intros Ha Hb H. pose proof (pow2_pos a Ha). pose proof (pow2_pos b Hb).
  rewrite Z.pow_add_r in H by lia.
  apply Z.mod_divide in H; [|lia]. destruct H as [c Hc]. subst m.
  split.
  - apply Z.mod_divide; [lia|]. exists (c * 2 ^ b). lia.
  - replace (c * (2 ^ a * 2 ^ b)) with (c * 2 ^ b * 2 ^ a) by lia.
    rewrite Z.div_mul by lia. apply Z.mod_mul. lia.
Qed.

Lemma iter_shr_1_exact (p : positive) :
  forall r, shr_r r = false -> shr_s r = false -> 0 <= shr_m r ->
    shr_m r mod 2 ^ Zpos p = 0 ->
    shr_r (SpecFloat.iter_pos shr_1 p r) = false /\
    shr_s (SpecFloat.iter_pos shr_1 p r) = false.
Proof.
  induction p as [p IH|p IH|]; intros r Hr Hs Hm Hd; cbn [SpecFloat.iter_pos].
  - change (Zpos p~1) with (2 * Zpos p + 1) in Hd.
    replace (2 * Zpos p + 1) with (1 + (Zpos p + Zpos p)) in Hd by lia.
    apply mod_pow2_split in Hd; try lia. destruct Hd as [H1 H2].
    apply mod_pow2_split in H2; try lia. destruct H2 as [H2 H3].
    rewrite Z.pow_1_r in *.
    destruct (shr_1_exact r Hr Hs Hm H1) as [A1 A2].
    assert (M1 : shr_m (shr_1 r) = shr_m r / 2) by (apply shr_1_m; lia).
    assert (P1 : 0 <= shr_m (shr_1 r)) by (rewrite M1; apply Z.div_pos; lia).
    destruct (IH (shr_1 r) A1 A2 P1 ltac:(rewrite M1; exact H2)) as [B1 B2].
    assert (M2 : shr_m (SpecFloat.iter_pos shr_1 p (shr_1 r)) = shr_m r / 2 / 2 ^ Zpos p)
      by (rewrite iter_shr_1_m, M1 by lia; reflexivity).
    apply IH; try assumption.
    + rewrite M2. apply Z.div_pos; [apply Z.div_pos; lia|apply pow2_pos; lia].
    + rewrite M2. exact H3.
  - change (Zpos p~0) with (2 * Zpos p) in Hd.
    replace (2 * Zpos p) with (Zpos p + Zpos p) in Hd by lia.
    apply mod_pow2_split in Hd; try lia. destruct Hd as [H1 H2].
    destruct (IH r Hr Hs Hm H1) as [B1 B2].
    assert (M2 : shr_m (SpecFloat.iter_pos shr_1 p r) = shr_m r / 2 ^ Zpos p)
      by (apply iter_shr_1_m; lia).
    apply IH; try assumption.
    + rewrite M2. apply Z.div_pos; [lia|apply pow2_pos; lia].
    + rewrite M2. exact H2.
  - apply shr_1_exact; assumption.
Qed.

Lemma iter_xO_val (m d : positive) : Zpos (Pos.iter xO m d) = Zpos m * 2 ^ Zpos d.
Proof.
  induction d as [|d IH] using Pos.peano_ind.
  - cbn. lia.
  - rewrite Pos.iter_succ, Pos2Z.inj_succ, Z.pow_succ_r by lia.
    change (Zpos (Pos.iter xO m d)~0) with (2 * Zpos (Pos.iter xO m d)). rewrite IH. lia.
Qed.

Lemma Zdigits2_mul_pow2 (n j : Z) : 0 < n -> 0 <= j -> Zdigits2 (n * 2 ^ j) = Zdigits2 n + j.
Proof.
  intros Hn Hj. rewrite <- Z.shiftl_mul_pow2 by lia. apply Zdigits2_shiftl; lia.
Qed.

(** A mantissa that fits 53 bits once its trailing zeros are dropped is
    not rounded. *)
Lemma binary_round_aux_exact (n e : Z) :
  0 < n -> -1074 <= e <= 0 -> Zdigits2 n + e <= 53 ->
  (exists n0 j, 0 < n0 < 2 ^ 53 /\ 0 <= j /\ n = n0 * 2 ^ j) ->
  fixed (binary_round_aux prec emax false n e loc_Exact) /\
  sval (binary_round_aux prec emax false n e loc_Exact) = n * 2 ^ (e + 1074).
Proof.
  intros Hn He Hmag (n0 & j & Hn0 & Hj & Hrep).
  set (d := Zdigits2 n) in *.
  assert (Hd : 0 < d) by (subst d; destruct n; cbn; lia).
  unfold binary_round_aux, shr_fexp. fold d.
  remember (SpecFloat.fexp prec emax (d + e)) as fe eqn:Hfdef.
  assert (Hfe : fe = Z.max (d + e - 53) (-1074)) by (subst fe; reflexivity).
  destruct (fe - e) as [|sh|sh] eqn:Hk.
  - (* at most 53 bits: nothing is shifted out *)
    cbn [shr shr_record_of_loc shr_m loc_of_shr_record round_nearest_even].
    fold d. rewrite <- Hfdef, Hk. cbn [shr shr_record_of_loc shr_m].
    destruct n as [|p|p]; try lia.
    replace (e <=? emax - prec) with true
      by (symmetry; apply Z.leb_le; unfold emax, prec; lia).
    cbn [fixed sval]. split; [|reflexivity].
    split; [|lia]. apply (Zdigits2_le (Zpos p) 53); fold d; lia.
  - (* trailing zeros beyond 53 bits are dropped *)
    assert (Hfe' : fe = d + e - 53) by lia.
    cbn [shr shr_record_of_loc].
    set (rec0 := {| shr_m := n; shr_r := false; shr_s := false |}).
    assert (Hdiv : n mod 2 ^ Zpos sh = 0).
    { assert (Hdn : d = Zdigits2 n0 + j)
        by (subst d; rewrite Hrep; apply Zdigits2_mul_pow2; lia).
      assert (Zdigits2 n0 <= 53) by (apply Zdigits2_le; lia).
      rewrite Hrep. replace j with (j - Zpos sh + Zpos sh) by lia.
      rewrite Z.pow_add_r, Z.mul_assoc by lia. apply Z.mod_mul.
      pose proof (pow2_pos (Zpos sh)). lia. }
    pose proof (iter_shr_1_m sh rec0 ltac:(cbn; lia)) as Hm1.
    destruct (iter_shr_1_exact sh rec0 eq_refl eq_refl ltac:(cbn; lia) Hdiv) as [Hr1 Hs1].
    destruct (SpecFloat.iter_pos shr_1 sh rec0) as [m1 r1 s1].
    subst rec0. cbn [shr_m shr_r shr_s] in Hm1, Hr1, Hs1. subst r1 s1.
    cbn [loc_of_shr_record shr_m round_nearest_even].
    assert (Hp2 : 0 < 2 ^ Zpos sh) by (apply pow2_pos; lia).
    assert (Hex : n = m1 * 2 ^ Zpos sh).
    { rewrite Hm1. pose proof (Z.div_mod n (2 ^ Zpos sh) ltac:(lia)). lia. }
    assert (Hm1pos : 0 < m1) by nia.
    assert (Hd1 : Zdigits2 m1 = 53).
    { pose proof (Zdigits2_mul_pow2 m1 (Zpos sh) Hm1pos ltac:(lia)) as Hx.
      rewrite <- Hex in Hx. fold d in Hx. lia. }
    rewrite Hd1.
    replace (e + Zpos sh) with fe by lia.
    assert (Hf2 : SpecFloat.fexp prec emax (53 + fe) - fe = 0)
      by (unfold SpecFloat.fexp, SpecFloat.emin, prec, emax; lia).
    rewrite Hf2. cbn [shr shr_record_of_loc shr_m].
    destruct m1 as [|q|q]; try lia.
    replace (fe <=? emax - prec) with true
      by (symmetry; apply Z.leb_le; unfold emax, prec; lia).
    cbn [fixed sval]. split.
    + split; [|lia]. apply (Zdigits2_le (Zpos q) 53); lia.
    + rewrite Hex. rewrite <- Z.mul_assoc, <- Z.pow_add_r by lia. f_equal. f_equal. lia.
  - (* the exponent is already above the one 53 bits need *)
    cbn [shr shr_record_of_loc shr_m loc_of_shr_record round_nearest_even].
    fold d. rewrite <- Hfdef, Hk. cbn [shr shr_record_of_loc shr_m].
    destruct n as [|p|p]; try lia.
    replace (e <=? emax - prec) with true
      by (symmetry; apply Z.leb_le; unfold emax, prec; lia).
    cbn [fixed sval]. split; [|reflexivity].
    split; [|lia]. apply (Zdigits2_le (Zpos p) 53); fold d; lia.
Qed.

Lemma shl_align_val (m : positive) (e e' : Z) :
  e' <= e -> Zpos (fst (shl_align m e e')) = Zpos m * 2 ^ (e - e') /\
             snd (shl_align m e e') = e'.
Proof.
  intros H. unfold shl_align. destruct (e' - e) as [|k|k] eqn:Hk; try lia; cbn [fst snd].
  - replace (e - e') with 0 by lia. rewrite Z.pow_0_r. lia.
  - replace (e - e') with (Zpos k) by lia. split; [apply iter_xO_val|reflexivity].
Qed.

Lemma binary_normalize_exact (n e : Z) :
  0 < n -> -1074 <= e <= 0 -> Zdigits2 n + e <= 53 ->
  (exists n0 j, 0 < n0 < 2 ^ 53 /\ 0 <= j /\ n = n0 * 2 ^ j) ->
  fixed (binary_normalize prec emax n e false) /\
  sval (binary_normalize prec emax n e false) = n * 2 ^ (e + 1074).
Proof.
  intros Hn He Hmag (n0 & j & Hn0 & Hj & Hrep).
  destruct n as [|p|p]; try lia. cbn [binary_normalize Zdigits2] in *.
  unfold binary_round.
  set (d := Zpos (digits2_pos p)) in *.
  remember (SpecFloat.fexp prec emax (d + e)) as fe eqn:Hfdef.
  assert (Hfe : fe = Z.max (d + e - 53) (-1074)) by (subst fe; reflexivity).
  destruct (Z_le_gt_dec fe e) as [Hle|Hgt].
  - destruct (shl_align_val p e fe Hle) as [Hv He'].
    destruct (shl_align p e fe) as [mz ez]. cbn [fst snd] in Hv, He'. subst ez.
    assert (Hk : 0 < 2 ^ (e - fe)) by (apply pow2_pos; lia).
    assert (Hdg : Zdigits2 (Zpos mz) + fe <= 53).
    { rewrite Hv, Zdigits2_mul_pow2 by lia. cbn [Zdigits2]. fold d. lia. }
    assert (Hrp : exists n1 j1, 0 < n1 < 2 ^ 53 /\ 0 <= j1 /\ Zpos mz = n1 * 2 ^ j1).
    { exists n0, (j + (e - fe)). split; [lia|]. split; [lia|].
      rewrite Hv, Hrep, Z.pow_add_r by lia. lia. }
    destruct (binary_round_aux_exact (Zpos mz) fe ltac:(lia) ltac:(lia) Hdg Hrp) as [Hf Hs].
    split; [exact Hf|]. rewrite Hs, Hv, <- Z.mul_assoc, <- Z.pow_add_r by lia.
    f_equal. f_equal. lia.
  - assert (Hsh : shl_align p e fe = (p, e))
      by (unfold shl_align; destruct (fe - e) eqn:Hk; try lia; reflexivity).
    rewrite Hsh.
    apply binary_round_aux_exact;
      [lia|lia|cbn [Zdigits2]; fold d; lia|exists n0, j; auto].
Qed.

(** ** Arithmetic on positive floats of small exponent *)

Lemma fixed_inv (x : float) :
  fixed x ->
  exists m e, x = S754_finite false m e /\ Zpos m < 2 ^ 53 /\ -1074 <= e <= 0 /\
              sval x = Zpos m * 2 ^ (e + 1074).
Proof.
  destruct x as [s|s| |[|] m e]; cbn; try tauto.
  intros [Hm He]. exists m, e. auto.
Qed.

Lemma sval_pos (x : float) : fixed x -> 0 < sval x < 2 ^ 53 * 2 ^ 1074.
Proof.
  intros H. destruct (fixed_inv x H) as (m & e & -> & Hm & He & ->).
  assert (0 < 2 ^ (e + 1074)) by (apply pow2_pos; lia).
  assert (2 ^ (e + 1074) <= 2 ^ 1074) by (apply Z.pow_le_mono_r; lia).
  split; [lia|]. nia.
Qed.

(** [int(x)] is the integer part of the value. *)
Lemma py_int_fixed (x : float) : fixed x -> py_int x = Ret (sval x / 2 ^ 1074).
Proof.
  intros H. destruct (fixed_inv x H) as (m & e & -> & Hm & He & Hs).
  rewrite Hs. unfold py_int, trunc.
  destruct e as [|k|k]; try lia.
  - rewrite Z.add_0_l, Z.div_mul by (pose proof (pow2_pos 1074); lia).
    rewrite Z.pow_0_r, Z.mul_1_r. reflexivity.
  - f_equal. replace (2 ^ 1074) with (2 ^ Zpos k * 2 ^ (Zneg k + 1074))
      by (rewrite <- Z.pow_add_r by lia; f_equal; lia).
    rewrite Z.div_mul_cancel_r; [reflexivity| |];
      pose proof (pow2_pos (Zpos k)); pose proof (pow2_pos (Zneg k + 1074)); lia.
Qed.

Lemma feq_fixed_zero (x : float) : fixed x -> feq x zero = false.
Proof. intros H. destruct (fixed_inv x H) as (m & e & -> & _). reflexivity. Qed.

Lemma is_neg_fixed (x : float) : fixed x -> is_neg x = false.
Proof. intros H. destruct (fixed_inv x H) as (m & e & -> & _). reflexivity. Qed.

(** The remainder is exact. *)
Lemma fmod_fixed (x y : float) :
  fixed x -> fixed y ->
  (sval x mod sval y = 0 -> fmod x y = S754_zero false) /\
  (0 < sval x mod sval y ->
   fixed (fmod x y) /\ sval (fmod x y) = sval x mod sval y).
Proof.
  intros Hx Hy.
  destruct (fixed_inv x Hx) as (mx & ex & -> & Hmx & Hex & Hsx).
  destruct (fixed_inv y Hy) as (my & ey & -> & Hmy & Hey & Hsy).
  rewrite Hsx, Hsy. unfold fmod.
  set (e := Z.min ex ey).
  assert (He : -1074 <= e <= 0 /\ e <= ex /\ e <= ey) by (subst e; lia).
  set (a := Zpos mx * 2 ^ (ex - e)). set (b := Zpos my * 2 ^ (ey - e)).
  assert (Hpa : 0 < 2 ^ (ex - e)) by (apply pow2_pos; lia).
  assert (Hpb : 0 < 2 ^ (ey - e)) by (apply pow2_pos; lia).
  assert (Hpe : 0 < 2 ^ (e + 1074)) by (apply pow2_pos; lia).
  assert (Hmod : (Zpos mx * 2 ^ (ex + 1074)) mod (Zpos my * 2 ^ (ey + 1074))
                 = (a mod b) * 2 ^ (e + 1074)).
  { replace (Zpos mx * 2 ^ (ex + 1074)) with (a * 2 ^ (e + 1074))
      by (subst a; rewrite <- Z.mul_assoc, <- Z.pow_add_r by lia; f_equal; f_equal; lia).
    replace (Zpos my * 2 ^ (ey + 1074)) with (b * 2 ^ (e + 1074))
      by (subst b; rewrite <- Z.mul_assoc, <- Z.pow_add_r by lia; f_equal; f_equal; lia).
    apply Z.mul_mod_distr_r; subst b; lia. }
  rewrite Hmod.
  assert (Hr : 0 <= a mod b < b) by (apply Z.mod_pos_bound; subst b; lia).
  split.
  - intros H0. assert (a mod b = 0) by nia. rewrite H. reflexivity.
  - intros Hpos. assert (Hrpos : 0 < a mod b) by nia.
    assert (Hle : a mod b <= a) by (apply Z.mod_le; subst a b; lia).
    assert (Hsmall : a mod b < 2 ^ 53).
    { destruct (Z.eq_dec e ex) as [E|E].
      - assert (a = Zpos mx)
          by (subst a; replace (ex - e) with 0 by lia; rewrite Z.pow_0_r; lia).
        lia.
      - assert (b = Zpos my)
          by (subst b; replace (ey - e) with 0 by lia; rewrite Z.pow_0_r; lia).
        lia. }
    apply binary_normalize_exact; try lia.
    + assert (Zdigits2 (a mod b) <= 53) by (apply Zdigits2_le; lia). lia.
    + exists (a mod b), 0. rewrite Z.pow_0_r. lia.
Qed.

(** The difference is exact when it fits 53 bits. *)
Lemma fsub_fixed (x y : float) :
  fixed x -> fixed y ->
  (sval x = sval y -> fsub x y = S754_zero false) /\
  (forall n0, 0 < n0 < 2 ^ 53 -> sval x - sval y = n0 * 2 ^ 1074 ->
   fixed (fsub x y) /\ sval (fsub x y) = n0 * 2 ^ 1074).
Proof.
  intros Hx Hy.
  destruct (fixed_inv x Hx) as (mx & ex & -> & Hmx & Hex & Hsx).
  destruct (fixed_inv y Hy) as (my & ey & -> & Hmy & Hey & Hsy).
  rewrite Hsx, Hsy. unfold fsub, SFsub. cbn [cond_Zopp].
  set (e := Z.min ex ey).
  assert (He : -1074 <= e <= 0 /\ e <= ex /\ e <= ey) by (subst e; lia).
  destruct (shl_align_val mx ex e ltac:(lia)) as [Ha _].
  destruct (shl_align_val my ey e ltac:(lia)) as [Hb _].
  rewrite Ha, Hb.
  set (a := Zpos mx * 2 ^ (ex - e)). set (b := Zpos my * 2 ^ (ey - e)).
  assert (Hpe : 0 < 2 ^ (e + 1074)) by (apply pow2_pos; lia).
  assert (Hva : Zpos mx * 2 ^ (ex + 1074) = a * 2 ^ (e + 1074))
    by (subst a; rewrite <- Z.mul_assoc, <- Z.pow_add_r by lia; f_equal; f_equal; lia).
  assert (Hvb : Zpos my * 2 ^ (ey + 1074) = b * 2 ^ (e + 1074))
    by (subst b; rewrite <- Z.mul_assoc, <- Z.pow_add_r by lia; f_equal; f_equal; lia).
  rewrite Hva, Hvb. split.
  - intros H. apply Z.mul_reg_r in H; [|lia].
    replace (a - b) with 0 by lia. reflexivity.
  - intros n0 Hn0 H.
    assert (Hp : 2 ^ 1074 = 2 ^ (- e) * 2 ^ (e + 1074))
      by (rewrite <- Z.pow_add_r by lia; f_equal; lia).
    assert (Hpm : 0 < 2 ^ (- e)) by (apply pow2_pos; lia).
    assert (Hab : a - b = n0 * 2 ^ (- e)).
    { apply (Z.mul_reg_r _ _ (2 ^ (e + 1074))); [lia|].
      rewrite Z.mul_sub_distr_r, H, Hp. ring. }
    assert (Hpos : 0 < a - b) by (rewrite Hab; apply Z.mul_pos_pos; lia).
    assert (Hdg : Zdigits2 (a - b) + e <= 53).
    { rewrite Hab, Zdigits2_mul_pow2 by lia.
      assert (Zdigits2 n0 <= 53) by (apply Zdigits2_le; lia). lia. }
    assert (Hrp : exists n1 j1, 0 < n1 < 2 ^ 53 /\ 0 <= j1 /\ a - b = n1 * 2 ^ j1).
    { exists n0, (- e). split; [lia|]. split; [lia|exact Hab]. }
    destruct (binary_normalize_exact (a - b) e Hpos ltac:(lia) Hdg Hrp) as [Hf Hs].
    split; [exact Hf|]. rewrite Hs, Hab, Hp. ring.
Qed.

Lemma Zdigits2_lower (m : Z) : 0 < m -> 2 ^ (Zdigits2 m - 1) <= m.
Proof.
  intros Hm. rewrite Zdigits2_log2 by lia.
  replace (Z.log2 m + 1 - 1) with (Z.log2 m) by lia.
  apply Z.log2_spec. lia.
Qed.

Lemma new_location_zero (n : Z) : new_location n 0 = loc_Exact.
Proof.
  unfold new_location, new_location_even, new_location_odd.
  destruct (Z.even n); reflexivity.
Qed.

(** The quotient is exact when it is an integer of at most 53 bits. *)
Lemma fdiv_fixed (x y : float) (q : Z) :
  fixed x -> fixed y -> 0 < q < 2 ^ 53 -> sval x = q * sval y ->
  fixed (fdiv x y) /\ sval (fdiv x y) = q * 2 ^ 1074.
Proof.
  intros Hx Hy Hq Hval.
  destruct (fixed_inv x Hx) as (mx & ex & -> & Hmx & Hex & Hsx).
  destruct (fixed_inv y Hy) as (my & ey & -> & Hmy & Hey & Hsy).
  rewrite Hsx, Hsy in Hval. unfold fdiv, SFdiv, SFdiv_core_binary. cbv zeta.
  change (IntDef.Z.shiftl) with Z.shiftl. change (IntDef.Z.min) with Z.min.
  change (IntDef.Z.div_eucl) with Z.div_eucl.
  set (d1 := Zdigits2 (Zpos mx)). set (d2 := Zdigits2 (Zpos my)).
  remember (SpecFloat.fexp prec emax (d1 + ex - (d2 + ey))) as fx eqn:Hfx.
  assert (Hfx' : fx = Z.max (d1 + ex - (d2 + ey) - 53) (-1074)) by (subst fx; reflexivity).
  remember (Z.min fx (ex - ey)) as e' eqn:He'.
  assert (Hpx : 0 < 2 ^ (ex + 1074)) by (apply pow2_pos; lia).
  assert (Hpy : 0 < 2 ^ (ey + 1074)) by (apply pow2_pos; lia).
  (* the quotient has at most 53 bits, so no exponent above zero is chosen *)
  assert (HD : d1 + ex - (d2 + ey) <= 53).
  { pose proof (Zdigits2_lower (Zpos mx) ltac:(lia)) as Hlo. fold d1 in Hlo.
    assert (Hhi : Zpos my < 2 ^ d2) by (apply Zdigits2_le; subst d2; cbn; lia).
    assert (Hd1 : 0 < d1) by (subst d1; cbn; lia).
    assert (Hd2 : 0 < d2) by (subst d2; cbn; lia).
    assert (H1 : 2 ^ (d1 - 1 + (ex + 1074)) <= Zpos mx * 2 ^ (ex + 1074))
      by (rewrite (Z.pow_add_r 2 (d1 - 1) (ex + 1074)) by lia;
          apply Z.mul_le_mono_nonneg_r; lia).
    assert (H2 : q * (Zpos my * 2 ^ (ey + 1074)) < 2 ^ (53 + d2 + (ey + 1074))).
    { rewrite (Z.pow_add_r 2 (53 + d2) (ey + 1074)), (Z.pow_add_r 2 53 d2) by lia.
      assert (q * Zpos my < 2 ^ 53 * 2 ^ d2)
        by (apply Z.mul_lt_mono_nonneg; lia).
      rewrite Z.mul_assoc. apply Z.mul_lt_mono_pos_r; lia. }
    rewrite Hval in H1.
    assert (H3 : 2 ^ (d1 - 1 + (ex + 1074)) < 2 ^ (53 + d2 + (ey + 1074))) by lia.
    apply Z.pow_lt_mono_r_iff in H3; lia. }
  assert (Hebound : -1074 <= e' <= 0) by lia.
  assert (Hs : 0 <= ex - ey - e') by lia.
  assert (Hpe : 0 < 2 ^ (- e')) by (apply pow2_pos; lia).
  assert (Hshift : match ex - ey - e' with
                   | 0 => Zpos mx
                   | Zpos _ => Z.shiftl (Zpos mx) (ex - ey - e')
                   | Zneg _ => 0
                   end = q * 2 ^ (- e') * Zpos my).
  { assert (Hm' : Zpos mx * 2 ^ (ex - ey - e') = q * 2 ^ (- e') * Zpos my).
    { apply (Z.mul_reg_r _ _ (2 ^ (ey + 1074))); [lia|].
      rewrite <- Z.mul_assoc, <- Z.pow_add_r by lia.
      replace (ex - ey - e' + (ey + 1074)) with (ex + 1074 + - e') by lia.
      rewrite Z.pow_add_r, Z.mul_assoc, Hval by lia. ring. }
    destruct (ex - ey - e') as [|k|k] eqn:Hk; try lia.
    rewrite Z.shiftl_mul_pow2 by lia. exact Hm'. }
  rewrite Hshift.
  pose proof (Z.div_mul (q * 2 ^ (- e')) (Zpos my) ltac:(lia)) as Hdiv.
  pose proof (Z.mod_mul (q * 2 ^ (- e')) (Zpos my) ltac:(lia)) as Hmod.
  unfold Z.div, Z.modulo in Hdiv, Hmod.
  destruct (Z.div_eucl (q * 2 ^ (- e') * Zpos my) (Zpos my)) as [Q r].
  subst Q r. rewrite new_location_zero. cbn [xorb].
  assert (Hn : 0 < q * 2 ^ (- e')) by (apply Z.mul_pos_pos; lia).
  assert (Hdg : Zdigits2 (q * 2 ^ (- e')) + e' <= 53).
  { rewrite Zdigits2_mul_pow2 by lia.
    assert (Zdigits2 q <= 53) by (apply Zdigits2_le; lia). lia. }
  assert (Hrp : exists n1 j1, 0 < n1 < 2 ^ 53 /\ 0 <= j1 /\ q * 2 ^ (- e') = n1 * 2 ^ j1).
  { exists q, (- e'). split; [lia|]. split; [lia|reflexivity]. }
  destruct (binary_round_aux_exact (q * 2 ^ (- e')) e' Hn Hebound Hdg Hrp) as [Hf Hsv].
  split; [exact Hf|]. rewrite Hsv, <- Z.mul_assoc, <- Z.pow_add_r by lia.
  f_equal. f_equal. lia.
Qed.

(** [floor] of an integer value is that value. *)
Lemma floor_fixed (x : float) (q : Z) :
  fixed x -> 0 < q < 2 ^ 53 -> sval x = q * 2 ^ 1074 ->
  fixed (floor x) /\ sval (floor x) = q * 2 ^ 1074.
Proof.
  intros Hx Hq Hval.
  destruct (fixed_inv x Hx) as (m & e & -> & Hm & He & Hs).
  rewrite Hs in Hval. unfold floor.
  destruct e as [|k|k]; try lia.
  - split; [exact Hx|]. rewrite Hs. exact Hval.
  - assert (Hpk : 0 < 2 ^ Zpos k) by (apply pow2_pos; lia).
    assert (Hpe : 0 < 2 ^ (Zneg k + 1074)) by (apply pow2_pos; lia).
    assert (Hmq : Zpos m = q * 2 ^ Zpos k).
    { apply (Z.mul_reg_r _ _ (2 ^ (Zneg k + 1074))); [lia|].
      rewrite Hval, <- Z.mul_assoc, <- Z.pow_add_r by lia. f_equal. f_equal. lia. }
    rewrite Hmq, Z.div_mul by lia.
    destruct (binary_normalize_exact q 0) as [Hf Hsv]; try lia.
    + assert (Zdigits2 q <= 53) by (apply Zdigits2_le; lia). lia.
    + exists q, 0. rewrite Z.pow_0_r. lia.
    + split; [exact Hf|]. rewrite Hsv. reflexivity.
Qed.

Lemma copysign_zero_unsigned (x : float) : unsigned x -> copysign_zero x = S754_zero false.
Proof. destruct x as [s|s| |s m e]; cbn; intros H; try subst s; reflexivity. Qed.

Lemma fixed_unsigned (x : float) : fixed x -> unsigned x.
Proof. intros H. destruct (fixed_inv x H) as (m & e & -> & _). reflexivity. Qed.

(** ** Floor division and remainder of floats *)

Lemma scaled_div_mod (k Y U f : Z) :
  0 < Y -> 0 < U -> 0 <= f < U ->
  (k * U + f) / (Y * U) = k / Y /\
  (k * U + f) mod (Y * U) = (k mod Y) * U + f.
Proof.
  intros HY HU Hf.
  pose proof (Z.div_mod k Y ltac:(lia)) as Hk.
  pose proof (Z.mod_pos_bound k Y HY) as Hr.
  assert (Hb : 0 <= (k mod Y) * U + f < Y * U) by nia.
  assert (He : k * U + f = (Y * U) * (k / Y) + ((k mod Y) * U + f)) by nia.
  split.
  - symmetry. apply (Z.div_unique_pos _ _ _ ((k mod Y) * U + f)); assumption.
  - symmetry. apply (Z.mod_unique_pos _ _ (k / Y)); assumption.
Qed.

Lemma floordiv_zero (y : float) : fixed y -> py_int (floordiv (S754_zero false) y) = Ret 0.
Proof. intros H. destruct (fixed_inv y H) as (m & e & -> & _). reflexivity. Qed.

Lemma fsub_fixed_zero (x : float) : fixed x -> fsub x (S754_zero false) = x.
Proof. intros H. destruct (fixed_inv x H) as (m & e & -> & _). reflexivity. Qed.

Lemma fdiv_zero_fixed (y : float) : fixed y -> fdiv (S754_zero false) y = S754_zero false.
Proof. intros H. destruct (fixed_inv y H) as (m & e & -> & _). reflexivity. Qed.

(** The tail of [x // y] once the quotient [d] is a whole number. *)
Lemma floordiv_tail (d : float) (q : Z) :
  fixed d -> 0 < q < 2 ^ 53 -> sval d = q * 2 ^ 1074 ->
  py_int (if feq d zero then S754_zero false
          else if flt (fdiv (of_Z 1) (of_Z 2)) (fsub d (floor d))
               then fadd (floor d) (of_Z 1) else floor d)
  = Ret q.
Proof.
  intros Hd Hq Hs.
  rewrite (feq_fixed_zero d Hd).
  destruct (floor_fixed d q Hd Hq Hs) as [Hf Hsf].
  destruct (fsub_fixed d (floor d) Hd Hf) as [Hz _].
  rewrite Hz by congruence.
  change (flt (fdiv (of_Z 1) (of_Z 2)) (S754_zero false)) with false. cbv iota.
  rewrite (py_int_fixed _ Hf), Hsf, Z.div_mul; [reflexivity|].
  pose proof (pow2_pos 1074). lia.
Qed.

(** [int(x // y)] for a positive [x] with integer part [k] and a whole
    positive [y]. *)
Lemma floordiv_fixed (x y : float) (Y k : Z) :
  fixed x -> fixed y -> 0 < Y -> sval y = Y * 2 ^ 1074 ->
  k * 2 ^ 1074 <= sval x < (k + 1) * 2 ^ 1074 ->
  py_int (floordiv x y) = Ret (k / Y).
Proof.
  intros Hx Hy HY Hsy Hk.
  pose proof (pow2_pos 1074 ltac:(lia)) as HU.
  pose proof (sval_pos x Hx) as Hxpos.
  remember (2 ^ 1074) as U eqn:HUdef.
  remember (sval x - k * U) as f eqn:Hf.
  assert (Hfb : 0 <= f < U) by lia.
  assert (Hxv : sval x = k * U + f) by lia.
  destruct (scaled_div_mod k Y U f HY HU Hfb) as [Hdiv Hmod].
  assert (Hk0 : 0 <= k) by nia.
  pose proof (Z.div_mod k Y ltac:(lia)) as Hkq.
  pose proof (Z.mod_pos_bound k Y HY) as Hkr.
  assert (Hq0 : 0 <= k / Y) by (apply Z.div_pos; lia).
  assert (HqY : k / Y * Y <= k) by nia.
  assert (Hkb : k < 2 ^ 53) by nia.
  assert (Hqb : k / Y < 2 ^ 53) by nia.
  assert (Hsplit : sval x = k / Y * sval y + sval x mod sval y).
  { rewrite Hsy, Hxv, Hmod. nia. }
  destruct (fmod_fixed x y Hx Hy) as [Hz Hp].
  unfold floordiv.
  destruct (Z.eq_dec (sval x mod sval y) 0) as [Hr0|Hrn].
  - (* the remainder is zero *)
    rewrite (Hz Hr0).
    change (feq (S754_zero false) zero) with true. cbv iota.
    rewrite (fsub_fixed_zero x Hx).
    assert (Hq1 : 0 < k / Y) by (rewrite Hr0 in Hsplit; nia).
    destruct (fdiv_fixed x y (k / Y) Hx Hy ltac:(lia) ltac:(lia)) as [Hd Hsd].
    assert (Hne : feq (fdiv x y) zero = false) by (apply feq_fixed_zero; exact Hd).
    pose proof (floordiv_tail (fdiv x y) (k / Y) Hd ltac:(lia) Hsd) as Ht.
    rewrite Hne in *. exact Ht.
  - (* a positive remainder *)
    assert (Hrpos : 0 < sval x mod sval y).
    { pose proof (sval_pos y Hy).
      pose proof (Z.mod_pos_bound (sval x) (sval y) ltac:(lia)). lia. }
    destruct (Hp Hrpos) as [Hm Hsm].
    rewrite (feq_fixed_zero _ Hm), (is_neg_fixed _ Hm), (is_neg_fixed _ Hy).
    cbn [xorb].
    destruct (fsub_fixed x (fmod x y) Hx Hm) as [Hsame Hdiff].
    destruct (Z.eq_dec (k / Y) 0) as [Hq0'|Hqn].
    + (* below [y]: the quotient is zero *)
      rewrite Hsame by (rewrite Hsm; rewrite Hq0' in Hsplit; lia).
      rewrite (fdiv_zero_fixed y Hy).
      change (feq (S754_zero false) zero) with true. cbv iota.
      rewrite copysign_zero_unsigned
        by (apply fdiv_unsigned; apply fixed_unsigned; assumption).
      rewrite Hq0'. reflexivity.
    + assert (HqYb : 0 < k / Y * Y < 2 ^ 53) by nia.
      destruct (Hdiff (k / Y * Y)) as [Hs Hss]; [exact HqYb| |].
      { rewrite Hsm, <- HUdef.
        assert (E : k / Y * sval y = k / Y * Y * U) by (rewrite Hsy; ring).
        lia. }
      destruct (fdiv_fixed (fsub x (fmod x y)) y (k / Y) Hs Hy ltac:(lia)) as [Hd Hsd].
      { rewrite Hss, Hsy, HUdef. ring. }
      assert (Hne : feq (fdiv (fsub x (fmod x y)) y) zero = false)
        by (apply feq_fixed_zero; exact Hd).
      pose proof (floordiv_tail _ (k / Y) Hd ltac:(lia) Hsd) as Ht.
      rewrite Hne in *. exact Ht.
Qed.

(** [x % y] for the same operands: zero, or a positive float whose integer
    part is [k mod Y]. *)
Lemma pymod_fixed (x y : float) (Y k : Z) :
  fixed x -> fixed y -> 0 < Y -> sval y = Y * 2 ^ 1074 ->
  k * 2 ^ 1074 <= sval x < (k + 1) * 2 ^ 1074 ->
  (pymod x y = S754_zero false /\ k mod Y = 0) \/
  (fixed (pymod x y) /\
   (k mod Y) * 2 ^ 1074 <= sval (pymod x y) < (k mod Y + 1) * 2 ^ 1074).
Proof.
  intros Hx Hy HY Hsy Hk.
  pose proof (pow2_pos 1074 ltac:(lia)) as HU.
  remember (2 ^ 1074) as U eqn:HUdef.
  remember (sval x - k * U) as f eqn:Hf.
  assert (Hfb : 0 <= f < U) by lia.
  assert (Hxv : sval x = k * U + f) by lia.
  destruct (scaled_div_mod k Y U f HY HU Hfb) as [Hdiv Hmod].
  pose proof (Z.mod_pos_bound k Y HY) as Hkr.
  destruct (fmod_fixed x y Hx Hy) as [Hz Hp].
  rewrite Hsy, Hxv, Hmod in Hz, Hp.
  unfold pymod.
  destruct (Z.eq_dec (k mod Y * U + f) 0) as [Hr0|Hrn].
  - left. rewrite (Hz Hr0).
    change (feq (S754_zero false) zero) with true. cbv iota.
    split; [apply copysign_zero_unsigned, fixed_unsigned, Hy|nia].
  - right. destruct Hp as [Hm Hsm]; [nia|].
    rewrite (feq_fixed_zero _ Hm), (is_neg_fixed _ Hm), (is_neg_fixed _ Hy).
    cbn [xorb]. split; [exact Hm|]. rewrite Hsm. lia.
Qed.

(** ** Seconds from microseconds *)

Lemma loc_of_shr_record_of_loc (m : Z) (l : location) :
  loc_of_shr_record (shr_record_of_loc m l) = l.
Proof. destruct l as [|[]]; reflexivity. Qed.

(** Rounding the quotient [q] of [n] by an even [b], remainder [r]: it is
    raised only from the half on. *)
Lemma round_quotient_half (q r b : Z) :
  0 < b -> Z.even b = true -> 0 <= r < b ->
  let m := round_nearest_even q (new_location b r) in
  q <= m /\ 2 * b * m <= 2 * (q * b + r) + b.
Proof.
  intros Hb Heven Hr m. subst m. unfold new_location. rewrite Heven.
  unfold new_location_even.
  destruct (Z.eqb_spec r 0) as [->|Hne]; cbn [round_nearest_even]; [lia|].
  destruct (Z.compare_spec (2 * r) b); cbn [round_nearest_even];
    try destruct (Z.even q); lia.
Qed.

(** The same after one more bit of the quotient is shifted out. *)
Lemma round_quotient_shifted (q : positive) (l : location) :
  let rec := shr_1 (shr_record_of_loc (Zpos q) l) in
  let m := round_nearest_even (shr_m rec) (loc_of_shr_record rec) in
  Zpos q <= 2 * m + 1 /\ 2 * m <= Zpos q + 1.
Proof.
  destruct q as [p|p|]; destruct l as [|[]];
    cbn [shr_1 shr_record_of_loc shr_m shr_r shr_s loc_of_shr_record
         round_nearest_even orb];
    try change (Zpos p~1) with (2 * Zpos p + 1);
    try change (Zpos p~0) with (2 * Zpos p);
    try destruct (Z.even _); lia.
Qed.

(** The quotient of [n] by a million, rounded to 53 bits: with [n]
    brought to 73 bits and [k] the whole seconds in it, the result lies
    from [k] to below [k + 1]. *)
Lemma round_quotient_bounds (n q r s k : Z) :
  let b := 1000000 in
  n = q * b + r -> 0 <= r < b -> 2 ^ 72 <= n < 2 ^ 73 -> 21 <= s <= 72 ->
  0 <= k -> k * b * 2 ^ s <= n <= ((k + 1) * b - 1) * 2 ^ s ->
  exists m e,
    binary_round_aux prec emax false q (- s) (new_location b r) = S754_finite false m e /\
    Zpos m < 2 ^ 53 /\ - s <= e <= 2 - s /\
    k * 2 ^ (- e) <= Zpos m < (k + 1) * 2 ^ (- e).
Proof.
  intros b Hn Hr Hbits Hs Hk0 Hk. subst b.
  assert (Hps : 2 ^ 21 <= 2 ^ s) by (apply Z.pow_le_mono_r; lia).
  assert (Hp21 : 2 ^ 21 = 2097152) by reflexivity.
  assert (Hp72 : 2 ^ 72 = 4722366482869645213696) by reflexivity.
  assert (Hp73 : 2 ^ 73 = 9444732965739290427392) by reflexivity.
  assert (Hp52 : 2 ^ 52 = 4503599627370496) by reflexivity.
  assert (Hp53 : 2 ^ 53 = 9007199254740992) by reflexivity.
  assert (Hp54 : 2 ^ 54 = 18014398509481984) by reflexivity.
  (* the quotient has 53 or 54 bits *)
  assert (Hq : 2 ^ 52 <= q < 2 ^ 54) by lia.
  assert (Hlow : k * 2 ^ s <= q).
  { assert (k * 2 ^ s * 1000000 < (q + 1) * 1000000) by lia.
    apply Z.mul_lt_mono_pos_r in H; lia. }
  assert (Hhigh : q <= (k + 1) * 2 ^ s - 2).
  { assert (q * 1000000 < ((k + 1) * 2 ^ s - 1) * 1000000) by nia.
    apply Z.mul_lt_mono_pos_r in H; lia. }
  assert (Hdq : Zdigits2 q = 53 \/ Zdigits2 q = 54).
  { assert (H1 : Zdigits2 q <= 54) by (apply Zdigits2_le; lia).
    assert (H2 : ~ Zdigits2 q <= 52) by (rewrite Zdigits2_le by lia; lia).
    lia. }
  (* the first rounding *)
  assert (Hstage1 : exists m1 sh1,
             (sh1 = 0 \/ sh1 = 1) /\
             2 ^ 52 <= m1 <= 2 ^ 53 /\
             k * 2 ^ (s - sh1) <= m1 < (k + 1) * 2 ^ (s - sh1) /\
             binary_round_aux prec emax false q (- s) (new_location 1000000 r)
             = (let '(mrs, e) := shr_fexp prec emax m1 (- s + sh1) loc_Exact in
                match shr_m mrs with
                | 0 => S754_zero false
                | Zpos m => if e <=? emax - prec then S754_finite false m e
                            else S754_infinity false
                | Zneg _ => S754_nan
                end)).
  { unfold binary_round_aux, shr_fexp at 1.
    destruct Hdq as [Hd|Hd]; rewrite Hd.
    - (* 53 bits: nothing is shifted out *)
      replace (SpecFloat.fexp prec emax (53 + - s) - - s) with 0
        by (unfold SpecFloat.fexp, SpecFloat.emin, prec, emax; lia).
      cbn [shr]. rewrite shr_record_of_loc_m, loc_of_shr_record_of_loc.
      destruct (round_quotient_half q r 1000000 ltac:(lia) eq_refl Hr) as [H1 H2].
      set (m1 := round_nearest_even q (new_location 1000000 r)) in *.
      assert (Hq53 : q < 2 ^ 53) by (apply (Zdigits2_le q 53); lia).
      exists m1, 0. split; [left; reflexivity|].
      rewrite Z.sub_0_r, Z.add_0_r.
      assert (Hm1 : m1 < (k + 1) * 2 ^ s).
      { assert (2 * 1000000 * m1 < 2 * 1000000 * ((k + 1) * 2 ^ s)) by nia.
        apply Z.mul_lt_mono_pos_l in H; lia. }
      pose proof (round_nearest_even_bounds q (new_location 1000000 r)) as Hb.
      fold m1 in Hb.
      split; [lia|]. split; [lia|reflexivity].
    - (* 54 bits: one is shifted out *)
      replace (SpecFloat.fexp prec emax (54 + - s) - - s) with 1
        by (unfold SpecFloat.fexp, SpecFloat.emin, prec, emax; lia).
      cbn [shr SpecFloat.iter_pos].
      assert (Hq53 : ~ q < 2 ^ 53) by (rewrite <- (Zdigits2_le q 53) by lia; lia).
      destruct q as [|qp|qp]; try lia.
      destruct (round_quotient_shifted qp (new_location 1000000 r)) as [H1 H2].
      cbv zeta in H1, H2.
      set (rec := shr_1 (shr_record_of_loc (Zpos qp) (new_location 1000000 r))) in *.
      set (m1 := round_nearest_even (shr_m rec) (loc_of_shr_record rec)) in *.
      exists m1, 1. split; [right; reflexivity|].
      assert (Hp : 2 ^ s = 2 * 2 ^ (s - 1))
        by (rewrite <- Z.pow_succ_r by lia; f_equal; lia).
      split; [lia|]. split; [|reflexivity].
      rewrite Hp in Hlow, Hhigh. lia. }
  destruct Hstage1 as (m1 & sh1 & Hsh1 & Hm1 & Hb1 & ->).
  (* the second rounding, of an exact mantissa *)
  destruct (shr_fexp_spec m1 (- s + sh1) loc_Exact ltac:(lia)) as (r2 & e2 & -> & He2 & Hm2).
  assert (Hd1 : Zdigits2 m1 = 53 \/ m1 = 2 ^ 53).
  { destruct (Z.eq_dec m1 (2 ^ 53)) as [|Hne]; [right; assumption|left].
    assert (H1 : Zdigits2 m1 <= 53) by (apply Zdigits2_le; lia).
    assert (H2 : ~ Zdigits2 m1 <= 52) by (rewrite Zdigits2_le by lia; lia).
    lia. }
  assert (Hsh2 : (e2 = - s + sh1 /\ shr_m r2 = m1 /\ m1 < 2 ^ 53) \/
                 (e2 = - s + sh1 + 1 /\ shr_m r2 = 2 ^ 52 /\ m1 = 2 ^ 53)).
  { destruct Hd1 as [Hd|Hd].
    - left. rewrite Hd in He2.
      assert (e2 = - s + sh1)
        by (unfold SpecFloat.fexp, SpecFloat.emin, prec, emax in He2; lia).
      split; [assumption|]. split.
      + rewrite Hm2. replace (e2 - (- s + sh1)) with 0 by lia.
        rewrite Z.pow_0_r, Z.div_1_r. reflexivity.
      + apply (Zdigits2_le m1 53); lia.
    - right. rewrite Hd in He2. change (Zdigits2 (2 ^ 53)) with 54 in He2.
      assert (e2 = - s + sh1 + 1)
        by (unfold SpecFloat.fexp, SpecFloat.emin, prec, emax in He2; lia).
      split; [assumption|]. split; [|assumption].
      rewrite Hm2, Hd. replace (e2 - (- s + sh1)) with 1 by lia. reflexivity. }
  assert (He971 : (e2 <=? emax - prec) = true)
    by (apply Z.leb_le; unfold emax, prec; lia).
  destruct Hsh2 as [(He & Hm & Hlt)|(He & Hm & Heq)].
  - rewrite Hm. destruct m1 as [|m|m]; try lia. rewrite He971.
    exists m, e2. split; [reflexivity|]. split; [lia|]. split; [lia|].
    replace (- e2) with (s - sh1) by lia. exact Hb1.
  - rewrite Hm. change (2 ^ 52) with (Zpos 4503599627370496). rewrite He971.
    exists 4503599627370496%positive, e2. split; [reflexivity|]. split; [lia|].
    split; [lia|].
    replace (- e2) with (s - sh1 - 1) by lia.
    assert (Hp : 2 ^ (s - sh1) = 2 * 2 ^ (s - sh1 - 1))
      by (rewrite <- Z.pow_succ_r by lia; f_equal; lia).
    rewrite Hp, Heq in Hb1. lia.
Qed.

(** [timedelta.total_seconds()] of a positive interval below [2 ^ 52]
    microseconds: a float from the whole seconds [k] to below [k + 1]. *)
Lemma total_seconds_fixed (us k : Z) :
  0 < us < 2 ^ 52 -> 0 <= k -> k * 1000000 <= us < (k + 1) * 1000000 ->
  fixed (Calendar.total_seconds us) /\
  k * 2 ^ 1074 <= sval (Calendar.total_seconds us) < (k + 1) * 2 ^ 1074.
Proof.
  intros Hus Hk0 Hk. destruct us as [|a|a]; try lia.
  unfold Calendar.total_seconds, Z_truediv, fdiv, SFdiv, SFdiv_core_binary. cbv zeta.
  change IntDef.Z.shiftl with Z.shiftl. change IntDef.Z.min with Z.min.
  change IntDef.Z.div_eucl with Z.div_eucl.
  change (Zdigits2 1000000) with 20.
  set (d1 := Zdigits2 (Zpos a)).
  assert (Hd1 : 1 <= d1 <= 52).
  { split; [subst d1; cbn; lia|]. apply Zdigits2_le; lia. }
  assert (He' : Z.min (SpecFloat.fexp prec emax (d1 + 0 - (20 + 0))) (0 - 0) = - (73 - d1))
    by (unfold SpecFloat.fexp, SpecFloat.emin, prec, emax; lia).
  rewrite He'.
  replace (0 - 0 - - (73 - d1)) with (73 - d1) by lia.
  pose proof (Zdigits2_lower (Zpos a) ltac:(lia)) as Hlo. fold d1 in Hlo.
  assert (Hhi : Zpos a < 2 ^ d1) by (apply Zdigits2_le; subst d1; lia).
  remember (73 - d1) as s eqn:Hs.
  assert (Hsb : 21 <= s <= 72) by lia.
  assert (Hps : 0 < 2 ^ s) by (apply pow2_pos; lia).
  assert (Hbits : 2 ^ 72 <= Zpos a * 2 ^ s < 2 ^ 73).
  { replace 72 with (d1 - 1 + s) by lia. replace 73 with (d1 + s) by lia.
    rewrite !Z.pow_add_r by lia. split.
    - apply Z.mul_le_mono_nonneg_r; lia.
    - apply Z.mul_lt_mono_pos_r; lia. }
  destruct s as [|sp|sp]; try lia.
  rewrite Z.shiftl_mul_pow2 by lia.
  pose proof (Z_div_mod (Zpos a * 2 ^ Zpos sp) 1000000 ltac:(lia)) as Hdm.
  destruct (Z.div_eucl (Zpos a * 2 ^ Zpos sp) 1000000) as [Q r].
  destruct Hdm as [HN Hr].
  destruct (round_quotient_bounds (Zpos a * 2 ^ Zpos sp) Q r (Zpos sp) k)
    as (m & e & Hres & Hm & He & Hb); try assumption; try lia.
  { split.
    - apply Z.mul_le_mono_nonneg_r; lia.
    - apply Z.mul_le_mono_nonneg_r; lia. }
  cbn [xorb]. rewrite Hres.
  cbn [fixed sval].
  assert (Hpe : 0 < 2 ^ (e + 1074)) by (apply pow2_pos; lia).
  assert (Hp : 2 ^ 1074 = 2 ^ (- e) * 2 ^ (e + 1074))
    by (rewrite <- Z.pow_add_r by lia; f_equal; lia).
  split; [split; lia|]. rewrite Hp, !Z.mul_assoc. split.
  - apply Z.mul_le_mono_nonneg_r; lia.
  - apply Z.mul_lt_mono_pos_r; lia.
Qed.

(** ** The elapsed time of the progress report *)

Lemma of_Z_3600_fixed : fixed (of_Z 3600) /\ sval (of_Z 3600) = 3600 * 2 ^ 1074.
Proof. split; [split; vm_compute; intuition discriminate|vm_compute; reflexivity]. Qed.

Lemma of_Z_60_fixed : fixed (of_Z 60) /\ sval (of_Z 60) = 60 * 2 ^ 1074.
Proof. split; [split; vm_compute; intuition discriminate|vm_compute; reflexivity]. Qed.

(** The hours and minutes since midnight that the report computes from the
    float of the elapsed seconds are the hour and the minute of the
    clock. *)
Lemma elapsed_hours_minutes (t : datetime) :
  Calendar.valid_datetime t = true ->
  let elapsed :=
    Calendar.total_seconds (Calendar.sub t (Calendar.day_start (dt_date t))) in
  py_int (floordiv elapsed (of_Z 3600)) = Ret (hour t) /\
  py_int (floordiv (pymod elapsed (of_Z 3600)) (of_Z 60)) = Ret (minute t).
Proof.
  intros Hv elapsed.
  destruct (valid_time_fields t Hv) as (_ & Hh & Hmi & Hs & Hu).
  destruct of_Z_3600_fixed as [F1 S1]. destruct of_Z_60_fixed as [F2 S2].
  set (k := hour t * 3600 + minute t * 60 + second t).
  assert (Hus : Calendar.sub t (Calendar.day_start (dt_date t))
                = k * 1000000 + microsecond t).
  { unfold Calendar.sub, Calendar.to_microseconds, Calendar.day_start. cbn. lia. }
  assert (Hkh : k / 3600 = hour t)
    by (symmetry; apply (Z.div_unique_pos k 3600 (hour t) (minute t * 60 + second t)); lia).
  assert (Hkm : k mod 3600 = minute t * 60 + second t)
    by (symmetry; apply (Z.mod_unique_pos k 3600 (hour t)); lia).
  assert (Hmm : (k mod 3600) / 60 = minute t)
    by (rewrite Hkm; symmetry;
        apply (Z.div_unique_pos _ 60 (minute t) (second t)); lia).
  subst elapsed. rewrite Hus.
  destruct (Z.eq_dec (k * 1000000 + microsecond t) 0) as [H0|Hn].
  - (* midnight *)
    rewrite H0. change (Calendar.total_seconds 0) with (S754_zero false).
    assert (hour t = 0 /\ minute t = 0) by lia. destruct H as [-> ->].
    split; [apply floordiv_zero; exact F1|].
    change (pymod (S754_zero false) (of_Z 3600)) with (S754_zero false).
    apply floordiv_zero. exact F2.
  - destruct (total_seconds_fixed (k * 1000000 + microsecond t) k) as [Fx Bx]; try lia.
    split.
    + rewrite (floordiv_fixed _ _ 3600 k Fx F1 ltac:(lia) S1 Bx), Hkh. reflexivity.
    + destruct (pymod_fixed _ _ 3600 k Fx F1 ltac:(lia) S1 Bx) as [[-> Hz]|[Fm Bm]].
      * rewrite (floordiv_zero _ F2). f_equal. rewrite Hz in Hmm.
        rewrite <- Hmm. reflexivity.
      * rewrite (floordiv_fixed _ _ 60 (k mod 3600) Fm F2 ltac:(lia) S2 Bm), Hmm.
        reflexivity.
Qed.

Lemma get_friday_trading_hours_remaining_returns (m : DailyProfitManager) (w : World) :
  0 <= friday_close_hour (config m) < 24 ->
  exists hours, get_friday_trading_hours_remaining (m, w) = (Ret hours, (m, tick w)).
Proof.
  intros Hc. unfold get_friday_trading_hours_remaining. msimpl.
  destruct (negb _); [eauto|].
  unfold Calendar.replace_hour.
  replace ((0 <=? friday_close_hour (config m)) && (friday_close_hour (config m) <? 24))
    with true by (symmetry; apply andb_true_intro; split;
                  [apply Z.leb_le|apply Z.ltb_lt]; lia).
  msimpl. destruct (Calendar.datetime_geb _ _); eauto.
Qed.

(** X24. With valid clock readings and a Friday close hour from 0 to 23,
    [get_progress_report] always returns. The figures are those of its
    [get_daily_stats] call; the elapsed hours and minutes it computes from
    the float of the seconds since midnight are exactly the hour and the
    minute of its clock reading; the pace is there when trades were
    counted, classified against the whole hours elapsed; the Friday entry
    is what [get_friday_trading_hours_remaining] returns next. *)
Theorem progress_report_returns (m : DailyProfitManager) (w : World) :
  (forall n, Calendar.valid_datetime (clock w n) = true) ->
  0 <= friday_close_hour (config m) < 24 ->
  exists stats m1 w1 hours,
    get_daily_stats (m, w) = (Ret stats, (m1, w1)) /\
    get_friday_trading_hours_remaining (m1, tick w1) = (Ret hours, (m1, tick (tick w1))) /\
    let t := reading w1 in
    let c := config m in
    get_progress_report (m, w)
    = (Ret (mkReport (gross_profit stats) (total_fees stats) (trades_count stats)
                     (net_profit stats) (daily_target_gross c) (target_percentage stats)
                     (hour t, minute t) (hour t, minute t)
                     (if 0 <? trades_count stats
                      then Some (pace_of c stats (hour t)) else None)
                     (match hours with
                      | Some h => Some (h, friday_close_hour c)
                      | None => None
                      end)
                     (match estimated_target_eta stats with
                      | Some e => Some (hour e, minute e)
                      | None => None
                      end)),
       (m1, tick (tick w1))).
Proof.
  intros Hclk Hc.
  destruct (get_daily_stats_effect m w) as (stats & m1 & w1 & Hs & Hm & (Hk & _) & _).
  assert (Hcfg : config m1 = config m)
    by (destruct Hm as [->|(deals & _ & _ & ->)]; reflexivity).
  destruct (get_friday_trading_hours_remaining_returns m1 (tick w1)) as (hours & Hf);
    [rewrite Hcfg; exact Hc|].
  exists stats, m1, w1, hours. split; [exact Hs|]. split; [exact Hf|].
  cbv zeta.
  assert (Hv : Calendar.valid_datetime (reading w1) = true)
    by (unfold reading; rewrite Hk; apply Hclk).
  destruct (elapsed_hours_minutes (reading w1) Hv) as [Hh Hmi].
  unfold get_progress_report. msimpl. rewrite Hs. cbn [fst snd].
  unfold reading in Hh, Hmi. rewrite Hh. msimpl. rewrite Hmi. msimpl.
  match goal with
  | |- context [get_friday_trading_hours_remaining ?s] =>
      change (get_friday_trading_hours_remaining s)
        with (get_friday_trading_hours_remaining (m1, tick w1))
  end.
  rewrite Hf, Hcfg. reflexivity.
Qed.

Lemma progress_report_returns_witness :
  let m := Sample.manager "adaptive" Sample.friday in
  let w := Sample.world (mkdatetime Sample.friday 21 30 59 999999)
             (QueryDeals [Sample.deal 3500 70]) in
  exists rep s',
    get_progress_report (m, w) = (Ret rep, s') /\
    rep_elapsed rep = (21, 30) /\ rep_trades rep = 1.
Proof.
  intros m w.
  destruct (progress_report_returns m w) as (stats & m1 & w1 & hours & Hs & _ & Hr).
  - intros n. reflexivity.
  - cbn. lia.
  - cbv zeta in Hr. rewrite Hr. eexists _, _. split; [reflexivity|].
    assert (E : w1 = tick (tick w) /\ trades_count stats = 1).
    { revert Hs. vm_compute. intros Hs. injection Hs as <- _ <-. split; reflexivity. }
    destruct E as [-> Et]. cbn [rep_elapsed rep_trades]. rewrite Et.
    split; reflexivity.
Defined.

(** ** The pacing check in microseconds *)

(** The float of the elapsed seconds is below an integer exactly when the
    elapsed microseconds are below that many seconds. *)
Lemma lt_Z_total_seconds (us required : Z) :
  0 <= us < 2 ^ 52 ->
  lt_Z (Calendar.total_seconds us) required = (us <? required * 1000000).
Proof.
  intros Hus. destruct (Z.eq_dec us 0) as [->|Hne].
  - change (Calendar.total_seconds 0) with (S754_zero false). unfold lt_Z.
    destruct (Z.ltb_spec 0 required), (Z.ltb_spec 0 (required * 1000000));
      try reflexivity; exfalso; lia.
  - set (k := us / 1000000).
    pose proof (Z.div_mod us 1000000 ltac:(lia)) as Hdm.
    pose proof (Z.mod_pos_bound us 1000000 ltac:(lia)) as Hmb. fold k in Hdm.
    assert (Hk0 : 0 <= k) by (subst k; apply Z.div_pos; lia).
    destruct (total_seconds_fixed us k) as [Fx Bx]; try lia.
    destruct (fixed_inv _ Fx) as (m & e & Hx & Hm & He & Hs).
    rewrite Hs in Bx. rewrite Hx.
    assert (Hpe : 0 < 2 ^ (e + 1074)) by (apply pow2_pos; lia).
    assert (Hpm : 0 < 2 ^ (- e)) by (apply pow2_pos; lia).
    assert (Hp : 2 ^ 1074 = 2 ^ (- e) * 2 ^ (e + 1074))
      by (rewrite <- Z.pow_add_r by lia; f_equal; lia).
    rewrite Hp, !Z.mul_assoc in Bx. destruct Bx as [B1 B2].
    apply Z.mul_le_mono_pos_r in B1; [|lia].
    apply Z.mul_lt_mono_pos_r in B2; [|lia].
    assert (Hlt : lt_Z (S754_finite false m e) required
                  = (Zpos m <? required * 2 ^ (- e))).
    { unfold lt_Z. destruct e as [|j|j]; try lia. reflexivity. }
    rewrite Hlt. remember (2 ^ (- e)) as P eqn:HP.
    destruct (Z.ltb_spec (Zpos m) (required * P)),
             (Z.ltb_spec us (required * 1000000)); try reflexivity; exfalso.
    + assert (required <= k) by lia.
      assert (required * P <= k * P) by (apply Z.mul_le_mono_nonneg_r; lia). lia.
    + assert (k + 1 <= required) by lia.
      assert ((k + 1) * P <= required * P) by (apply Z.mul_le_mono_nonneg_r; lia). lia.
Qed.

(** X25. Although the elapsed time is compared as a float, the pacing
    check decides to the microsecond: when the check is reached with valid
    datetimes, intervals in range and from 0 to below [2 ^ 52] microseconds
    since the last trade, [should_allow_trading] returns, and it allows
    exactly when the microseconds elapsed are at least the required
    interval in seconds times a million. *)
Theorem pacing_counts_microseconds
    (m : DailyProfitManager) (w : World) (last : datetime) :
  let t := reading w in
  let s1 := after_rollover (m, w) in
  let c := config m in
  daily_target_reached (fst s1) = false ->
  friday_closed c t = false ->
  enable_pacing c = true ->
  last_trade_time (fst s1) = Some last ->
  Calendar.valid_datetime t = true ->
  Calendar.valid_datetime last = true ->
  intervals_in_range c ->
  0 <= Calendar.sub t last < 2 ^ 52 ->
  exists required s2 why,
    required_interval t s1 = (Ret required, s2) /\
    should_allow_trading (m, w)
    = (Ret (required * 1000000 <=? Calendar.sub t last, why), s2) /\
    (why = TradingAllowed \/ exists wait, why = PacingWait wait (pacing_mode c)).
Proof.
  intros t s1 c Hflag Hfri Hpace Hlast Hvt Hvl [Hn Ha] Hus.
  subst t s1 c. rewrite should_allow_trading_gate.
  pose proof (after_rollover_config m w) as Hc.
  destruct (after_rollover (m, w)) as [m1 w1]. cbn [fst] in *.
  destruct (required_interval_effect (reading w) m1 w1) as (req & m2 & w2 & Hr & Hreq & _).
  assert (Hb : Z.abs req < 2 ^ 62)
    by (rewrite Hc in Hreq; destruct Hreq as [-> | ->]; assumption).
  exists req, (m2, w2).
  pose proof (lt_Z_total_seconds (Calendar.sub (reading w) last) req Hus) as Hlt.
  fold (seconds_since (reading w) last) in Hlt.
  rewrite <- Hc in Hfri, Hpace.
  destruct (Z.ltb_spec (Calendar.sub (reading w) last) (req * 1000000)) as [Hl|Hg].
  - destruct (gate_pacing_denies (reading w) last m1 w1 req (m2, w2))
      as (wait & _ & Hg); try assumption.
    exists (PacingWait wait (pacing_mode (config m1))).
    split; [exact Hr|]. rewrite Hg.
    replace (req * 1000000 <=? Calendar.sub (reading w) last) with false
      by (symmetry; apply Z.leb_gt; lia).
    split; [reflexivity|]. right. exists wait. rewrite Hc. reflexivity.
  - exists TradingAllowed. split; [exact Hr|].
    rewrite (gate_pacing_allows (reading w) last m1 w1 req (m2, w2)) by assumption.
    replace (req * 1000000 <=? Calendar.sub (reading w) last) with true
      by (symmetry; apply Z.leb_le; lia).
    split; [reflexivity|left; reflexivity].
Qed.

Lemma pacing_counts_microseconds_witness :
  exists s2 why,
    should_allow_trading
      (set_last_trade_time (Some (mkdatetime Sample.wednesday 10 0 0 500000))
         (Sample.manager "gentle" Sample.wednesday),
       Sample.world (mkdatetime Sample.wednesday 10 3 0 499999) QueryNone)
    = (Ret (false, why), s2).
Proof.
  destruct (pacing_counts_microseconds
              (set_last_trade_time (Some (mkdatetime Sample.wednesday 10 0 0 500000))
                 (Sample.manager "gentle" Sample.wednesday))
              (Sample.world (mkdatetime Sample.wednesday 10 3 0 499999) QueryNone)
              (mkdatetime Sample.wednesday 10 0 0 500000))
    as (req & s2 & why & Hr & Hrun & _); try reflexivity.
  - split; vm_compute; congruence.
  - vm_compute. split; congruence.
  - exists s2, why. rewrite Hrun. vm_compute in Hr.
    injection Hr as <- _. reflexivity.
Defined.
